(** * vib-play gateway: provider fallback, rate limiter, conversation store

    A shallow embedding of the backend gateway (the Express server, the
    provider registry [utils/providers.js] and the Gemini adapter
    [utils/providers/gemini.js]) together with the properties of its
    request routing, rate limiting and chat-history retrieval.

    Conventions of the embedding.
    - A JavaScript string is a [string]: a sequence of code units, here
      restricted to the 8-bit range.
    - A value that may be [undefined] is an [option]; request fields are
      either absent or of their documented type.
    - Integers ([Date.now()], token counts, the results of [parseInt]) are
      [Z]; temperatures are rationals [Q] that the code only passes along.
    - A plain object used as a dictionary is a [gmap] of its own
      properties, next to the property names every object inherits from
      [Object.prototype].
    - Calls that leave the process (provider HTTP calls, the Gemini SDK
      session, the chat store) are answered by an explicit parameter, and
      every such call is recorded in the trace a handler returns. *)

From Stdlib Require Import ZArith QArith Lia Ascii.
From stdpp Require Import base option list strings gmap sorting pretty.

(** ** JavaScript primitives used by the server *)

Module JS.

Local Open Scope Z_scope.

(** Truthiness of an optional string: [undefined] and [""] are falsy. *)
Definition truthy (v : option string) : bool :=
  match v with
  | Some s => negb (String.eqb s "")
  | None => false
  end.

(** [a || b] on optional strings. *)
Definition or_else (a b : option string) : option string :=
  if truthy a then a else b.

(** [`${v}`]: an undefined value prints as ["undefined"]. *)
Definition template (v : option string) : string := default "undefined" v.

(** WhiteSpace and LineTerminator code units below 256: TAB, LF, VT, FF,
    CR, SP and NBSP. *)
Definition is_white_space (c : ascii) : bool :=
  let n := Z.of_N (N_of_ascii c) in
  (n =? 9) || (n =? 10) || (n =? 11) || (n =? 12) || (n =? 13)
  || (n =? 32) || (n =? 160).

Fixpoint trimStart (s : string) : string :=
  match s with
  | String c s' => if is_white_space c then trimStart s' else s
  | EmptyString => EmptyString
  end.

Fixpoint trimEnd (s : string) : string :=
  match s with
  | String c s' =>
      let r := trimEnd s' in
      if is_white_space c && String.eqb r "" then EmptyString else String c r
  | EmptyString => EmptyString
  end.

(** [String.prototype.trim]. *)
Definition trim (s : string) : string := trimEnd (trimStart s).

(** [!v?.trim()]: true for an absent, empty or white-space-only string. *)
Definition blank (v : option string) : bool :=
  negb (truthy (trim <$> v)).

(** A string made of white space only (the empty string included). *)
Fixpoint whitespace_only (s : string) : bool :=
  match s with
  | String c s' => is_white_space c && whitespace_only s'
  | EmptyString => true
  end.

(** [hay.includes(needle)]. *)
Fixpoint includes (hay needle : string) : bool :=
  String.prefix needle hay
  || match hay with
     | String _ hay' => includes hay' needle
     | EmptyString => false
     end.

(** [s.endsWith(suffix)]. *)
Definition endsWith (s suffix : string) : bool :=
  String.prefix (String.rev suffix) (String.rev s).

(** [s.split(',')[0]]: the part of [s] before its first comma. *)
Fixpoint before_comma (s : string) : string :=
  match s with
  | String c s' =>
      if Ascii.eqb c "," then EmptyString else String c (before_comma s')
  | EmptyString => EmptyString
  end.

(** Value of a digit in radix up to 36. *)
Definition digit_value (c : ascii) : option Z :=
  let n := Z.of_N (N_of_ascii c) in
  if (48 <=? n) && (n <=? 57) then Some (n - 48)
  else if (97 <=? n) && (n <=? 122) then Some (n - 87)
  else if (65 <=? n) && (n <=? 90) then Some (n - 55)
  else None.

(** The longest prefix of radix-[R] digits, read as a number; [acc] is
    [None] until a first digit has been read. *)
Fixpoint parse_digits (R : Z) (s : string) (acc : option Z) : option Z :=
  match s with
  | String c s' =>
      match digit_value c with
      | Some d =>
          if d <? R then parse_digits R s' (Some (default 0 acc * R + d))
          else acc
      | None => acc
      end
  | EmptyString => acc
  end.

(** [parseInt(v)] without a radix argument; [None] is NaN. The argument
    is first converted to a string, leading white space is skipped, a
    sign and a [0x] prefix are honoured, and reading stops at the first
    character that is not a digit. The result is kept exact: it is the
    number JavaScript returns for integers of magnitude up to 2^53,
    beyond which JavaScript rounds to the nearest double. *)
Definition parseInt (v : option string) : option Z :=
  let S0 := trimStart (template v) in
  let '(neg, S1) :=
    match S0 with
    | String "-" r => (true, r)
    | String "+" r => (false, r)
    | _ => (false, S0)
    end in
  let '(R, S2) :=
    match S1 with
    | String "0" (String "x" r) => (16, r)
    | String "0" (String "X" r) => (16, r)
    | _ => (10, S1)
    end in
  match parse_digits R S2 None with
  | Some n => Some (if neg then - n else n)
  | None => None
  end.

(** [n || d] on a number that may be NaN: NaN and 0 are falsy. *)
Definition num_or (n : option Z) (d : Z) : Z :=
  match n with
  | Some v => if v =? 0 then d else v
  | None => d
  end.

(** Property names that every plain object inherits from
    [Object.prototype]; [obj[k]] is a truthy function or object for
    each of them even when [k] is not an own property. *)
Definition Object_prototype_keys : list string :=
  [ "constructor"; "__defineGetter__"; "__defineSetter__"; "hasOwnProperty";
    "__lookupGetter__"; "__lookupSetter__"; "isPrototypeOf";
    "propertyIsEnumerable"; "toString"; "valueOf"; "__proto__";
    "toLocaleString" ].

Definition inherited (k : string) : bool :=
  existsb (String.eqb k) Object_prototype_keys.

(** The [name] property of an inherited member: the function's name, and
    nothing for the prototype object itself. *)
Definition inherited_name (k : string) : option string :=
  if String.eqb k "constructor" then Some "Object"
  else if String.eqb k "__proto__" then None
  else Some k.

End JS.

(** ** Provider registry ([utils/providers.js]) *)

Module Registry.

(** A catalogue entry, with the fields the gateway reads. A field that an
    entry does not define reads as [undefined]: [gemini] has no
    [baseUrl]. The remaining catalogue fields ([models], [maxTokens],
    [supportsStreaming], [description], [modelDisplayNames]) are never
    read by the gateway. *)
Record ProviderConfig := {
  name : option string;
  apiKeyEnv : option string;
  modelEnv : option string;
  baseUrl : option string;
  defaultModel : option string
}.

Definition entry (n k m : string) (b : option string) (d : string)
  : ProviderConfig :=
  {| name := Some n; apiKeyEnv := Some k; modelEnv := Some m;
     baseUrl := b; defaultModel := Some d |}.

(** [PROVIDERS], in declaration order. *)
Definition PROVIDERS : list (string * ProviderConfig) :=
  [ ("openai", entry "OpenAI" "OPENAI_API_KEY" "OPENAI_MODEL"
                 (Some "https://api.openai.com/v1") "gpt-4o");
    ("openrouter", entry "OpenRouter" "OPENROUTER_API_KEY" "OPENROUTER_MODEL"
                 (Some "https://openrouter.ai/api/v1")
                 "deepseek/deepseek-chat-v3.1");
    ("xai", entry "XAI (Grok)" "XAI_API_KEY" "XAI_MODEL"
                 (Some "https://api.x.ai/v1") "grok-4");
    ("groq", entry "Groq" "GROQ_API_KEY" "GROQ_MODEL"
                 (Some "https://api.groq.com/openai/v1")
                 "llama-3.3-70b-versatile");
    ("perplexity", entry "Perplexity" "PERPLEXITY_API_KEY" "PERPLEXITY_MODEL"
                 (Some "https://api.perplexity.ai")
                 "llama-3.1-sonar-large-128k-online");
    ("gemini", entry "Google Gemini" "GEMINI_API_KEY" "GEMINI_MODEL"
                 None "gemini-1.5-pro") ].

(** [Object.keys(PROVIDERS)]. *)
Definition keys : list string := map fst PROVIDERS.

(** The own property [k] of [PROVIDERS]. *)
Fixpoint own (l : list (string * ProviderConfig)) (k : string)
  : option ProviderConfig :=
  match l with
  | (k', c) :: l' => if String.eqb k k' then Some c else own l' k
  | [] => None
  end.

(** What [PROVIDERS[k]] reads for a name inherited from
    [Object.prototype]: a function (or the prototype object) on which
    only [name] may be defined. *)
Definition prototype_member (k : string) : ProviderConfig :=
  {| name := JS.inherited_name k; apiKeyEnv := None; modelEnv := None;
     baseUrl := None; defaultModel := None |}.

(** [PROVIDERS[k]]; [None] is [undefined]. *)
Definition get (k : string) : option ProviderConfig :=
  match own PROVIDERS k with
  | Some c => Some c
  | None => if JS.inherited k then Some (prototype_member k) else None
  end.

End Registry.

(** ** Process environment and start-up configuration *)

Module Env.

Local Open Scope Z_scope.

(** [process.env[k]]; an undefined key reads the variable named
    ["undefined"]. *)
Definition read (env : gmap string string) (k : option string)
  : option string :=
  env !! JS.template k.

(** A provider is configured when its API-key variable is set and not
    empty. *)
Definition configured (env : gmap string string) (key : string) : bool :=
  match Registry.get key with
  | Some c => JS.truthy (read env (Registry.apiKeyEnv c))
  | None => false
  end.

(** [parseFloat(v) || d]: NaN and zero are falsy. *)
Definition float_or (v : option Q) (d : Q) : Q :=
  match v with
  | Some q => if Qeq_bool q 0 then d else q
  | None => d
  end.

Record Config := {
  DEFAULT_MAX_TOKENS : Z;
  DEFAULT_TEMPERATURE : Q;
  IP_RATE_LIMIT : Z
}.

(** The three constants computed when the server starts. [parseFloat] is
    the JavaScript builtin, [None] being NaN. *)
Definition load (parseFloat : option string -> option Q)
    (env : gmap string string) : Config :=
  {| DEFAULT_MAX_TOKENS :=
       JS.num_or (JS.parseInt (env !! "DEFAULT_MAX_TOKENS")) 8000;
     DEFAULT_TEMPERATURE :=
       float_or (parseFloat (env !! "DEFAULT_TEMPERATURE")) (7 # 10);
     IP_RATE_LIMIT :=
       JS.num_or (JS.parseInt (env !! "IP_RATE_LIMIT")) 100 |}.

End Env.

(** ** Rate limiting middleware *)

Module RateLimiter.

Local Open Scope Z_scope.

(** What the middleware reads of a request. *)
Record request := {
  path : string;
  x_forwarded_for : option string;
  connection_remoteAddress : option string;
  socket_remoteAddress : option string
}.

(** [/\.(js|css|ico|png|jpg|svg|woff|woff2|ttf|eot)$/]. *)
Definition static_extensions : list string :=
  ["js"; "css"; "ico"; "png"; "jpg"; "svg"; "woff"; "woff2"; "ttf"; "eot"].

Definition is_static (p : string) : bool :=
  existsb (fun e => JS.endsWith p ("." +:+ e)) static_extensions.

Definition clientIp (req : request) : string :=
  default "unknown"
    (JS.or_else (JS.before_comma <$> x_forwarded_for req)
      (JS.or_else (connection_remoteAddress req)
        (JS.or_else (socket_remoteAddress req) (Some "unknown")))).

Definition window : Z := 3600000.

(** [Math.min(...l)]; [None] is [Infinity], the minimum of no number. *)
Definition Math_min (l : list Z) : option Z :=
  match l with
  | [] => None
  | x :: l' => Some (foldr Z.min x l')
  end.

(** [Math.ceil(a / b)] for a positive divisor. *)
Definition ceil_div (a b : Z) : Z := - ((- a) / b).

Definition show_number (n : option Z) : string :=
  match n with
  | Some z => pretty z
  | None => "Infinity"
  end.

(** [req.rateLimit]. *)
Inductive rateLimit :=
| Unlimited
| Counted (requestCount remainingRequests : Z) (clientIp : string).

Inductive outcome :=
| Next (rl : rateLimit)
| TooManyRequests (message : string) (waitTimeMinutes resetTime : option Z)
| TypeError.

(** The middleware, on the cache [ipRequestCache] and the clock value
    [now] read by [Date.now()]. Under a name inherited from
    [Object.prototype] the cache reads a function, which is truthy and has
    no [filter]: the middleware throws. *)
Definition middleware (IP_RATE_LIMIT : Z) (cache : gmap string (list Z))
    (now : Z) (req : request) : gmap string (list Z) * outcome :=
  if IP_RATE_LIMIT <=? 0 then (cache, Next Unlimited)
  else if is_static (path req) then (cache, Next Unlimited)
  else
    let ip := clientIp req in
    let hourAgo := now - window in
    let entry :=
      match cache !! ip with
      | Some l => Some l
      | None => if JS.inherited ip then None else Some []
      end in
    match entry with
    | None => (cache, TypeError)
    | Some l =>
        let kept := filter (fun timestamp => hourAgo < timestamp) l in
        let requestCount := Z.of_nat (length kept) in
        let limited := IP_RATE_LIMIT <=? requestCount in
        if limited then
          let resetTime := (fun m => m + window) <$> Math_min kept in
          let waitTimeMinutes :=
            (fun r => ceil_div (r - now) 60000) <$> resetTime in
          (<[ip := kept]> cache,
           TooManyRequests
             ("Rate limit exceeded. Try again in "
                +:+ show_number waitTimeMinutes +:+ " minutes.")
             waitTimeMinutes resetTime)
        else
          (<[ip := kept ++ [now]]> cache,
           Next (Counted requestCount (IP_RATE_LIMIT - requestCount) ip))
    end.

(** The periodic clean-up, run every five minutes. *)
Definition sweep (cache : gmap string (list Z)) (now : Z)
  : gmap string (list Z) :=
  let cutoff := now - window in
  omap (fun l =>
          match filter (fun timestamp => cutoff < timestamp) l with
          | [] => None
          | kept => Some kept
          end) cache.

(** The server's life as seen by the limiter: requests and sweeps. *)
Inductive action :=
| Request (now : Z) (req : request)
| Sweep (now : Z).

Definition time_of (a : action) : Z :=
  match a with
  | Request now _ => now
  | Sweep now => now
  end.

Definition step (IP_RATE_LIMIT : Z) (cache : gmap string (list Z))
    (a : action) : gmap string (list Z) * option outcome :=
  match a with
  | Request now req =>
      let '(cache', o) := middleware IP_RATE_LIMIT cache now req in
      (cache', Some o)
  | Sweep now => (sweep cache now, None)
  end.

Fixpoint run (IP_RATE_LIMIT : Z) (cache : gmap string (list Z))
    (acts : list action) : gmap string (list Z) * list (option outcome) :=
  match acts with
  | [] => (cache, [])
  | a :: acts' =>
      let '(cache1, o) := step IP_RATE_LIMIT cache a in
      let '(cache2, os) := run IP_RATE_LIMIT cache1 acts' in
      (cache2, o :: os)
  end.

(** The timestamps the cache holds for a client: none when it has no
    entry. *)
Definition timestamps (cache : gmap string (list Z)) (ip : string)
  : list Z :=
  default [] (cache !! ip).

(** The instants at which requests of client [ip] passed the admission
    check, read off a run and its outcomes. *)
Fixpoint admitted (ip : string) (acts : list action)
    (outs : list (option outcome)) : list Z :=
  match acts, outs with
  | Request now _ :: acts', Some (Next (Counted _ _ ip')) :: outs' =>
      if String.eqb ip' ip then now :: admitted ip acts' outs'
      else admitted ip acts' outs'
  | _ :: acts', _ :: outs' => admitted ip acts' outs'
  | _, _ => []
  end.

(** The timestamps above [c] that a request at instant [now] with
    outcome [o] adds to the entry of [ip]. *)
Definition credit (ip : string) (c now : Z) (o : outcome) : list Z :=
  match o with
  | Next (Counted _ _ ip') =>
      if String.eqb ip' ip then filter (fun timestamp => c < timestamp) [now]
      else []
  | _ => []
  end.

End RateLimiter.

(** ** Conversation store *)

Module Store.

Local Open Scope Z_scope.

(** A row of the [chat_messages] table, with the columns the server
    reads; [created_at] is the column the history query orders by. *)
Record ChatRow := {
  session_id : string;
  role : string;
  content : string;
  created_at : Z
}.

(** The Supabase client: the table it fronts, and whether queries
    currently succeed. *)
Record Supabase := {
  chat_messages : list ChatRow;
  available : bool
}.

Definition older (a b : ChatRow) : Prop := created_at a <= created_at b.

#[global] Instance older_dec : RelDecision older.
Proof. intros a b. unfold older. apply _. Defined.

(** [.select('*').eq('session_id', sessionId)
     .order('created_at', { ascending: true }).limit(50)]:
    the matching rows in ascending order of [created_at], cut to the
    first fifty. The database fixes no order among rows created at the
    same instant; here they come as the sort leaves them. *)
Definition select_history (table : list ChatRow) (sessionId : string)
  : list ChatRow :=
  take 50
    (merge_sort older
       (List.filter (fun r => String.eqb (session_id r) sessionId) table)).

Definition getChatHistory (supabase : option Supabase) (sessionId : string)
  : list ChatRow :=
  match supabase with
  | None => []
  | Some db =>
      if available db then select_history (chat_messages db) sessionId
      else []
  end.

End Store.

(** ** Canonical chat messages *)

Module Message.

Record t := { role : string; content : string }.

Definition is_system (m : t) : bool := String.eqb (role m) "system".

End Message.

(** ** Gemini adapter ([utils/providers/gemini.js]) *)

Module Gemini.

Local Open Scope Z_scope.

(** Enumerations of the [@google/generative-ai] SDK that the adapter
    names. *)
Inductive HarmCategory :=
| HARM_CATEGORY_UNSPECIFIED
| HARM_CATEGORY_HATE_SPEECH
| HARM_CATEGORY_SEXUALLY_EXPLICIT
| HARM_CATEGORY_HARASSMENT
| HARM_CATEGORY_DANGEROUS_CONTENT.

Inductive HarmBlockThreshold :=
| HARM_BLOCK_THRESHOLD_UNSPECIFIED
| BLOCK_LOW_AND_ABOVE
| BLOCK_MEDIUM_AND_ABOVE
| BLOCK_ONLY_HIGH
| BLOCK_NONE.

Record SafetySetting := {
  category : HarmCategory;
  threshold : HarmBlockThreshold
}.

(** [{ role, parts: [{ text }, ...] }], the parts given by their text. *)
Record Content := { role : string; parts : list string }.

Record GenerationConfig := {
  temperature : Q;
  topP : Q;
  topK : Z;
  maxOutputTokens : Z
}.

(** The argument of [model.startChat]. *)
Record StartChatParams := {
  generationConfig : GenerationConfig;
  safetySettings : list SafetySetting;
  history : list Content;
  systemInstruction : option Content
}.

(** The [options] argument of [generateResponse]. *)
Record Options := { maxTokens : option Z; opt_temperature : option Q }.

(** A chat session: the model it was opened on and its parameters. *)
Record ChatSession := { model : string; params : StartChatParams }.

(** What the SDK answers to [chatSession.sendMessage]: an error, or a
    response with its text and, possibly, a token count. *)
Inductive SdkResult :=
| SdkError (message : string)
| SdkResponse (text : string) (totalTokenCount : option Z).

(** What [generateResponse] does: return, rethrow an error of the SDK, or
    throw a TypeError of its own on reading [.parts] of [undefined]. *)
Inductive Result :=
| Returned (text : string) (total_tokens : Z)
| Threw (message : string)
| TypeError.

(** [messages.find(m => m.role === 'system')?.content] *)
Definition systemInstruction_of (messages : list Message.t)
  : option string :=
  Message.content <$> List.find Message.is_system messages.

(** [messages.filter(m => m.role !== 'system').map(...)] *)
Definition chatMessages_of (messages : list Message.t) : list Content :=
  map (fun m =>
         {| role := if String.eqb (Message.role m) "assistant"
                    then "model" else "user";
            parts := [Message.content m] |})
      (List.filter (fun m => negb (Message.is_system m)) messages).

Definition safetySettings_fixed : list SafetySetting :=
  [ {| category := HARM_CATEGORY_HARASSMENT;
       threshold := BLOCK_MEDIUM_AND_ABOVE |};
    {| category := HARM_CATEGORY_HATE_SPEECH;
       threshold := BLOCK_MEDIUM_AND_ABOVE |};
    {| category := HARM_CATEGORY_SEXUALLY_EXPLICIT;
       threshold := BLOCK_MEDIUM_AND_ABOVE |};
    {| category := HARM_CATEGORY_DANGEROUS_CONTENT;
       threshold := BLOCK_MEDIUM_AND_ABOVE |} ].

(** [l.slice(0, -1)] *)
Definition slice_0_m1 {A} (l : list A) : list A :=
  take (length l - 1)%nat l.

(** The session [generateResponse] opens. *)
Definition startChat (modelName : option string)
    (messages : list Message.t) (options : Options) : ChatSession :=
  let systemInstruction := systemInstruction_of messages in
  let chatMessages := chatMessages_of messages in
  {| model := default "gemini-1.5-pro"
                (JS.or_else modelName (Some "gemini-1.5-pro"));
     params :=
       {| generationConfig :=
            {| temperature := default (7 # 10) (opt_temperature options);
               topP := 95 # 100;
               topK := 40;
               maxOutputTokens := default 8192 (maxTokens options) |};
          safetySettings := safetySettings_fixed;
          history := slice_0_m1 chatMessages;
          systemInstruction :=
            if JS.truthy systemInstruction
            then Some {| role := "system";
                         parts := [default "" systemInstruction] |}
            else None |} |}.

(** [chatMessages[chatMessages.length - 1].parts[0].text]; [None] when
    the array is empty and the read throws. *)
Definition lastMessage_of (messages : list Message.t) : option string :=
  match last (chatMessages_of messages) with
  | Some c => head (parts c)
  | None => None
  end.

Definition generateResponse
    (sendMessage : ChatSession -> string -> SdkResult)
    (modelName : option string) (messages : list Message.t)
    (options : Options) : Result :=
  let chatSession := startChat modelName messages options in
  match lastMessage_of messages with
  | None => TypeError
  | Some lastMessage =>
      match sendMessage chatSession lastMessage with
      | SdkError e => Threw e
      | SdkResponse text count => Returned text (JS.num_or count 0)
      end
  end.

End Gemini.

(** ** The gateway: [/api/ask-ai] and [/api/test-connection] *)

Module Gateway.

Local Open Scope Z_scope.

(** The JSON body of an OpenAI-style chat-completion call and the
    headers that vary. *)
Record FetchRequest := {
  url : string;
  authorization : string;
  http_referer : option string;
  x_title : option string;
  model : option string;
  messages : list Message.t;
  max_tokens : Z;
  temperature : Q;
  openrouter_sampling : bool;   (* top_p 1, both penalties 0 *)
  timeout : Z
}.

(** What the handler observes of the call. *)
Inductive FetchResult :=
| Rejected (message : string)
    (* fetch, or reading the body of an ok response, threw *)
| NotOk (status : Z) (statusText : string) (error_message : option string)
    (* !response.ok, with errorData.error?.message *)
| Ok (content : option string) (total_tokens : option Z).
    (* data.choices?.[0]?.message?.content, data.usage?.total_tokens *)

(** Everything outside the process. [TEMPLATES] ([utils/templates.js])
    is given by the system prompt of each template, [None] where the
    template or its prompt is missing. *)
Record World := {
  parseFloat : option string -> option Q;
  TEMPLATES_systemPrompt : string -> option string;
  fetch : FetchRequest -> FetchResult;
  sendMessage : Gemini.ChatSession -> string -> Gemini.SdkResult
}.

(** Calls that leave the process, in the order they are made. The
    [timestamp] written with a saved message is the wall clock and is
    left out. *)
Inductive event :=
| GetChatHistory (sessionId : string)
| SaveMessage (session_id role content : string)
| Fetch (providerKey : string) (req : FetchRequest)
| GeminiGenerate (providerKey : string) (modelName : option string)
    (messages : list Message.t) (options : Gemini.Options).

(** Computations that log their calls. *)
Definition Eff (A : Type) : Type := A * list event.

Definition ret {A} (a : A) : Eff A := (a, []).

Definition bind {A B} (m : Eff A) (k : A -> Eff B) : Eff B :=
  let '(a, t1) := m in
  let '(b, t2) := k a in
  (b, t1 ++ t2).

Definition tell (e : event) : Eff unit := (tt, [e]).

Notation "x <- m ;; k" := (bind m (fun x => k))
  (at level 20, m at level 99, k at level 200, only parsing).
Notation "m ;; k" := (bind m (fun _ => k))
  (at level 100, k at level 200, only parsing, right associativity).

Inductive Body :=
| Message (message : string)
| Failure (message : string) (providersAttempted : list (option string))
| Answer (response : string) (modelUsed providerUsed : option string)
    (tokensUsed : Z)
| Connection (message : string) (provider model : option string)
    (response : string)
| ConnectionError (message : string) (provider : option string).

Record Response := { status : Z; body : Body }.

Definition FULL_STACK_SYSTEM_PROMPT : string :=
"You are an expert full-stack developer. 
Always generate a complete, production-ready full-stack application based on the requested tech stack.
The output MUST follow this specific format for each file:

# /path/to/file.ext
```extension
file content here
```

You must include:
1. /frontend (React/Next.js/etc. with Tailwind CSS)
2. /backend (Node.js/Express/Flask/etc.)
3. Database schema (prisma/schema.prisma or SQLite/SQL)
4. Full package.json files for both frontend and backend
5. Dockerfile and docker-compose.yml
6. A detailed README.md with setup and run commands.

Focus on clean, modular code and follow best practices for the chosen stack.".

(** [req.body] of [/api/ask-ai]. *)
Record AskAi := {
  prompt : option string;
  requestedProvider : option string;
  requestedModel : option string;
  sessionId : option string;
  templateId : option string;
  stack : option string;
  maxTokens : option Z;
  req_temperature : option Q
}.

Section Handlers.

Variable W : World.
Variable env : gmap string string.
Variable supabase : option Store.Supabase.

Let config := Env.load (parseFloat W) env.

Definition saveMessage (session_id role content : string) : Eff unit :=
  match supabase with
  | None => ret tt
  | Some _ => tell (SaveMessage session_id role content)
  end.

Definition getChatHistory (sessionId : string)
  : Eff (list Store.ChatRow) :=
  match supabase with
  | None => ret []
  | Some _ =>
      tell (GetChatHistory sessionId) ;;
      ret (Store.getChatHistory supabase sessionId)
  end.

(** The candidate list: the requested provider when the registry reads
    something for it, then every other registry key whose API key is
    set. *)
Definition providersToTry (requested : option string) : list string :=
  (match requested with
   | Some k =>
       if JS.truthy requested && bool_decide (is_Some (Registry.get k))
       then [k] else []
   | None => []
   end)
  ++ List.filter
       (fun key => negb (bool_decide (requested = Some key))
                   && Env.configured env key)
       Registry.keys.

Definition systemMessage (r : AskAi) : Message.t :=
  let systemPrompt :=
    match templateId r with
    | Some id =>
        if JS.truthy (templateId r)
           && JS.truthy (TEMPLATES_systemPrompt W id)
        then default "" (TEMPLATES_systemPrompt W id)
               +:+ "

" +:+ FULL_STACK_SYSTEM_PROMPT
        else FULL_STACK_SYSTEM_PROMPT
    | None => FULL_STACK_SYSTEM_PROMPT
    end in
  {| Message.role := "system";
     Message.content :=
       if JS.truthy (stack r)
       then "Project Stack: " +:+ default "" (stack r) +:+ "

" +:+ systemPrompt
       else systemPrompt |}.

Definition modelToUse (r : AskAi) (c : Registry.ProviderConfig)
  : option string :=
  JS.or_else (requestedModel r)
    (JS.or_else (Env.read env (Registry.modelEnv c))
       (Registry.defaultModel c)).

Definition maxTokensToUse (r : AskAi) : Z :=
  JS.num_or (maxTokens r) (Env.DEFAULT_MAX_TOKENS config).

Definition temperatureToUse (r : AskAi) : Q :=
  match req_temperature r with
  | Some t => t
  | None => Env.DEFAULT_TEMPERATURE config
  end.

(** One pass of the body of the attempt loop for a provider whose key
    is set: the adapter call, and either the answer with its token
    count or the error recorded in [lastError]. *)
Definition callProvider (r : AskAi) (msgs : list Message.t)
    (providerKey : string) (c : Registry.ProviderConfig)
    (apiKey : string) : Eff (string * Z + string) :=
  let modelToUse := modelToUse r c in
  let named e := JS.template (Registry.name c) +:+ ": " +:+ e in
  let checked (aiResponse : option string) (tokensUsed : Z) :=
    if JS.blank aiResponse then inr (named "Empty response received")
    else inl (default "" aiResponse, tokensUsed) in
  if String.eqb providerKey "gemini" then
    let options :=
      {| Gemini.maxTokens := Some (maxTokensToUse r);
         Gemini.opt_temperature := Some (temperatureToUse r) |} in
    tell (GeminiGenerate providerKey modelToUse msgs options) ;;
    ret match Gemini.generateResponse (sendMessage W)
                modelToUse msgs options with
        | Gemini.Returned text tokens => checked (Some text) tokens
        | Gemini.Threw e => inr (named e)
        | Gemini.TypeError =>
            inr (named "Cannot read properties of undefined (reading 'parts')")
        end
  else
    let openrouter := String.eqb providerKey "openrouter" in
    let req :=
      {| url := JS.template (Registry.baseUrl c) +:+ "/chat/completions";
         authorization := "Bearer " +:+ apiKey;
         http_referer :=
           if openrouter
           then JS.or_else (env !! "SITE_URL")
                  (Some "https://localhost:3000")
           else None;
         x_title := if openrouter then Some "DeepSite 2.0" else None;
         model := modelToUse;
         messages := msgs;
         max_tokens := maxTokensToUse r;
         temperature := temperatureToUse r;
         openrouter_sampling := openrouter;
         timeout := 120000 |} in
    tell (Fetch providerKey req) ;;
    ret match fetch W req with
        | Rejected e => inr (named e)
        | NotOk _ statusText e =>
            inr (named (default "" (JS.or_else e (Some statusText))))
        | Ok content total =>
            checked content (JS.num_or total 0)
        end.

(** [for (const providerKey of providersToTry) { ... }] followed by
    the response sent when the loop runs out. [all] is the whole
    candidate list, reported when every provider failed. *)
Fixpoint attempt (r : AskAi) (msgs : list Message.t) (all : list string)
    (keys : list string) (lastError : option string) : Eff Response :=
  match keys with
  | [] =>
      ret {| status := 500;
             body := Failure
               ("All AI providers failed. Last error: "
                  +:+ default "null" lastError)
               (map (fun key => Registry.get key ≫= Registry.name) all) |}
  | providerKey :: rest =>
      match Registry.get providerKey with
      | None =>
          (* reading a field of undefined: the handler's outer catch *)
          ret {| status := 500;
                 body := Message
                   "Cannot read properties of undefined (reading 'apiKeyEnv')" |}
      | Some providerConfig =>
          let apiKey := Env.read env (Registry.apiKeyEnv providerConfig) in
          if negb (JS.truthy apiKey) then
            attempt r msgs all rest lastError
          else
            res <- callProvider r msgs providerKey providerConfig
                     (default "" apiKey) ;;
            match res with
            | inr e => attempt r msgs all rest (Some e)
            | inl (aiResponse, tokensUsed) =>
                (if JS.truthy (sessionId r) && bool_decide (is_Some supabase)
                 then saveMessage (default "" (sessionId r))
                        "assistant" aiResponse
                 else ret tt) ;;
                ret {| status := 200;
                       body := Answer aiResponse
                                 (modelToUse r providerConfig)
                                 (Registry.name providerConfig)
                                 tokensUsed |}
            end
      end
  end.

(** The conversation sent to the adapters: the system message, the
    stored history, the new user message. *)
Definition compose (r : AskAi) (history : list Store.ChatRow)
  : list Message.t :=
  systemMessage r
  :: map (fun msg => {| Message.role := Store.role msg;
                        Message.content := Store.content msg |}) history
  ++ [ {| Message.role := "user";
          Message.content := default "" (prompt r) |} ].

(** [app.post("/api/ask-ai", ...)] *)
Definition ask_ai (r : AskAi) : Eff Response :=
  if JS.blank (prompt r) then
    ret {| status := 400; body := Message "Missing or empty prompt" |}
  else
    let candidates := providersToTry (requestedProvider r) in
    if bool_decide (candidates = []) then
      ret {| status := 500;
             body := Message "No AI providers configured with API keys" |}
    else
      history <-
        (if JS.truthy (sessionId r) && bool_decide (is_Some supabase)
         then getChatHistory (default "" (sessionId r))
         else ret []) ;;
      let msgs := compose r history in
      (if JS.truthy (sessionId r) && bool_decide (is_Some supabase)
       then saveMessage (default "" (sessionId r)) "user"
              (default "" (prompt r))
       else ret tt) ;;
      attempt r msgs candidates candidates None.

(** [req.body] of [/api/test-connection]. *)
Record TestConnection := {
  tc_provider : option string;
  tc_model : option string
}.

Definition ping : list Message.t :=
  [ {| Message.role := "user"; Message.content := "Ping" |} ].

(** [app.post("/api/test-connection", ...)] *)
Definition test_connection (r : TestConnection) : Eff Response :=
  match
    match tc_provider r with
    | Some k =>
        if JS.truthy (tc_provider r)
        then (fun c => (k, c)) <$> Registry.get k else None
    | None => None
    end
  with
  | None =>
      ret {| status := 400; body := Message "Invalid or missing provider" |}
  | Some (provider, providerConfig) =>
      let apiKey := Env.read env (Registry.apiKeyEnv providerConfig) in
      if negb (JS.truthy apiKey) then
        ret {| status := 400;
               body := Message (JS.template (Registry.name providerConfig)
                                  +:+ " API key not configured") |}
      else
        let testModel :=
          JS.or_else (tc_model r)
            (JS.or_else (Env.read env (Registry.modelEnv providerConfig))
               (Registry.defaultModel providerConfig)) in
        if String.eqb provider "gemini" then
          let options := {| Gemini.maxTokens := Some 10;
                            Gemini.opt_temperature := None |} in
          tell (GeminiGenerate provider testModel ping options) ;;
          ret match Gemini.generateResponse (sendMessage W)
                      testModel ping options with
              | Gemini.Returned text _ =>
                  {| status := 200;
                     body := Connection "Connection successful"
                               (Registry.name providerConfig) testModel
                               text |}
              | Gemini.Threw e =>
                  {| status := 500;
                     body := ConnectionError
                       (default "" (JS.or_else (Some e)
                                      (Some "Connection test failed")))
                       (Registry.name providerConfig) |}
              | Gemini.TypeError =>
                  {| status := 500;
                     body := ConnectionError
                       "Cannot read properties of undefined (reading 'parts')"
                       (Registry.name providerConfig) |}
              end
        else
          let req :=
            {| url := JS.template (Registry.baseUrl providerConfig)
                        +:+ "/chat/completions";
               authorization := "Bearer " +:+ default "" apiKey;
               http_referer :=
                 if String.eqb provider "openrouter"
                 then Some "https://localhost:3000" else None;
               x_title := None;
               model := testModel;
               messages :=
                 [ {| Message.role := "user";
                      Message.content :=
                        "Hello, respond with 'Connection successful'" |} ];
               max_tokens := 50;
               temperature := 0;
               openrouter_sampling := false;
               timeout := 15000 |} in
          tell (Fetch provider req) ;;
          ret match fetch W req with
              | Rejected e =>
                  {| status := 500;
                     body := ConnectionError
                       (default "" (JS.or_else (Some e)
                                      (Some "Connection test failed")))
                       (Registry.name providerConfig) |}
              | NotOk st statusText e =>
                  {| status := st;
                     body := ConnectionError
                       (default ("API error: " +:+ pretty st +:+ " "
                                   +:+ statusText)
                          (if JS.truthy e then e else None))
                       (Registry.name providerConfig) |}
              | Ok content _ =>
                  {| status := 200;
                     body := Connection "Connection successful"
                               (Registry.name providerConfig) testModel
                               (default "No response"
                                  (if JS.truthy content then content
                                   else None)) |}
              end
  end.

End Handlers.

End Gateway.

(** ** Reading a trace *)

Module Trace.

Import Gateway.

(** The provider an adapter call is made for. *)
Definition provider_of (e : event) : option string :=
  match e with
  | Fetch k _ => Some k
  | GeminiGenerate k _ _ _ => Some k
  | _ => None
  end.

(** The providers whose adapter was invoked, in order. *)
Definition invoked (tr : list event) : list string := omap provider_of tr.

Definition model_of (e : event) : option string :=
  match e with
  | Fetch _ req => model req
  | GeminiGenerate _ m _ _ => m
  | _ => None
  end.

Definition maxTokens_of (e : event) : option Z :=
  match e with
  | Fetch _ req => Some (max_tokens req)
  | GeminiGenerate _ _ _ o => Gemini.maxTokens o
  | _ => None
  end.

Definition temperature_of (e : event) : option Q :=
  match e with
  | Fetch _ req => Some (temperature req)
  | GeminiGenerate _ _ _ o => Gemini.opt_temperature o
  | _ => None
  end.

Definition messages_of (e : event) : list Message.t :=
  match e with
  | Fetch _ req => messages req
  | GeminiGenerate _ _ msgs _ => msgs
  | _ => []
  end.

(** The turns written to the store, in order: session, role, content. *)
Definition saved (tr : list event) : list (string * string * string) :=
  omap (fun e => match e with
                 | SaveMessage s r c => Some (s, r, c)
                 | _ => None
                 end) tr.

(** The usable answer the outside world gives to an adapter call: the
    text, when it is not blank, with the token count. A call without one
    has failed. *)
Definition answer_of (W : World) (e : event) : option (string * Z) :=
  match e with
  | Fetch _ req =>
      match fetch W req with
      | Ok content total =>
          if JS.blank content then None
          else Some (default "" content, JS.num_or total 0)
      | _ => None
      end
  | GeminiGenerate _ m msgs o =>
      match Gemini.generateResponse (sendMessage W) m msgs o with
      | Gemini.Returned text tokens =>
          if JS.blank (Some text) then None else Some (text, tokens)
      | _ => None
      end
  | _ => None
  end.

(** An adapter call made for request [r] with conversation [msgs]: it is
    for a provider the registry reads, whose API key is set, and carries
    the model and generation options the handler resolves for it. *)
Definition resolved (W : World) (env : gmap string string) (r : AskAi)
    (msgs : list Message.t) (e : event) : Prop :=
  exists k c,
    provider_of e = Some k
    /\ Registry.get k = Some c
    /\ JS.truthy (Env.read env (Registry.apiKeyEnv c)) = true
    /\ model_of e = modelToUse env r c
    /\ maxTokens_of e = Some (maxTokensToUse W env r)
    /\ temperature_of e = Some (temperatureToUse W env r)
    /\ messages_of e = msgs.

(** Whether the handler reads and writes the store for [r]. *)
Definition remembers (supabase : option Store.Supabase) (r : AskAi) : bool :=
  JS.truthy (sessionId r) && bool_decide (is_Some supabase).

(** The stored turns the handler loads for [r]. *)
Definition history_for (supabase : option Store.Supabase) (r : AskAi)
  : list Store.ChatRow :=
  if remembers supabase r
  then Store.getChatHistory supabase (default "" (sessionId r))
  else [].

(** The store calls made before the attempt loop. *)
Definition prelude (supabase : option Store.Supabase) (r : AskAi)
  : list event :=
  if remembers supabase r
  then [ GetChatHistory (default "" (sessionId r));
         SaveMessage (default "" (sessionId r)) "user"
           (default "" (prompt r)) ]
  else [].

(** The store call made after an answer [text]. *)
Definition epilogue (supabase : option Store.Supabase) (r : AskAi)
    (text : string) : list event :=
  if remembers supabase r
  then [ SaveMessage (default "" (sessionId r)) "assistant" text ]
  else [].

(** The adapter calls of a trace. *)
Definition calls (tr : list event) : list event :=
  List.filter (fun e => match provider_of e with
                        | Some _ => true
                        | None => false
                        end) tr.

(** The rule by which the model of a call to a provider with entry [c] is
    chosen: the request's model when it is a non-empty string, else the
    provider's model variable when it is set and not empty, else the
    provider's default model. *)
Definition model_rule (env : gmap string string) (r : AskAi)
    (c : Registry.ProviderConfig) (m : option string) : Prop :=
  (forall x, requestedModel r = Some x -> x <> "" -> m = Some x)
  /\ (JS.truthy (requestedModel r) = false ->
      forall x, Env.read env (Registry.modelEnv c) = Some x -> x <> "" ->
                m = Some x)
  /\ (JS.truthy (requestedModel r) = false ->
      JS.truthy (Env.read env (Registry.modelEnv c)) = false ->
      m = Registry.defaultModel c).

(** The rule for the token limit: the request's [maxTokens] when present
    and not zero, else the server default. *)
Definition maxTokens_rule (config : Env.Config) (r : AskAi)
    (n : option Z) : Prop :=
  (forall x, maxTokens r = Some x -> x <> 0%Z -> n = Some x)
  /\ (maxTokens r = None \/ maxTokens r = Some 0%Z ->
      n = Some (Env.DEFAULT_MAX_TOKENS config)).

(** The rule for the temperature: the request's [temperature] whenever the
    field is present, zero included, else the server default. *)
Definition temperature_rule (config : Env.Config) (r : AskAi)
    (t : option Q) : Prop :=
  (forall x, req_temperature r = Some x -> t = Some x)
  /\ (req_temperature r = None -> t = Some (Env.DEFAULT_TEMPERATURE config)).

(** The server defaults: the value of the environment variable when it
    parses to a number other than zero (for the token limit, an integer
    of magnitude up to 2^53, which [parseInt] returns exactly), and 8000
    tokens and temperature 0.7 when it does not parse to a number, as
    when the variable is not set. *)
Definition defaults_rule (W : World) (env : gmap string string) : Prop :=
  let config := Env.load (parseFloat W) env in
  (forall n, JS.parseInt (env !! "DEFAULT_MAX_TOKENS") = Some n -> n <> 0%Z ->
             (Z.abs n <= 2 ^ 53)%Z ->
             Env.DEFAULT_MAX_TOKENS config = n)
  /\ (JS.parseInt (env !! "DEFAULT_MAX_TOKENS") = None ->
      Env.DEFAULT_MAX_TOKENS config = 8000%Z)
  /\ (env !! "DEFAULT_MAX_TOKENS" = None ->
      Env.DEFAULT_MAX_TOKENS config = 8000%Z)
  /\ (forall q, parseFloat W (env !! "DEFAULT_TEMPERATURE") = Some q ->
                Qeq_bool q 0 = false ->
                Env.DEFAULT_TEMPERATURE config = q)
  /\ (parseFloat W (env !! "DEFAULT_TEMPERATURE") = None ->
      Env.DEFAULT_TEMPERATURE config = 7 # 10)
  /\ (env !! "DEFAULT_TEMPERATURE" = None ->
      Env.DEFAULT_TEMPERATURE config = 7 # 10).

End Trace.

(** ** Concrete deployments used as test points *)

Module Scenario.

Import Gateway.

Local Open Scope Z_scope.

(** Groq answers, every other provider is unreachable; no template. *)
Definition world : World :=
  {| parseFloat := fun _ => None;
     TEMPLATES_systemPrompt := fun _ => None;
     fetch := fun req =>
       if String.eqb (url req)
            "https://api.groq.com/openai/v1/chat/completions"
       then Ok (Some "<html></html>") (Some 42)
       else Rejected "connect ECONNREFUSED";
     sendMessage := fun _ _ => Gemini.SdkError "fetch failed" |}.


Definition request (p : option string) : AskAi :=
  {| prompt := p; requestedProvider := None; requestedModel := None;
     sessionId := None; templateId := None; stack := None;
     maxTokens := None; req_temperature := None |}.

Definition with_provider (k : string) (r : AskAi) : AskAi :=
  {| prompt := prompt r; requestedProvider := Some k;
     requestedModel := requestedModel r; sessionId := sessionId r;
     templateId := templateId r; stack := stack r;
     maxTokens := maxTokens r; req_temperature := req_temperature r |}.

Definition with_session (s : string) (r : AskAi) : AskAi :=
  {| prompt := prompt r; requestedProvider := requestedProvider r;
     requestedModel := requestedModel r; sessionId := Some s;
     templateId := templateId r; stack := stack r;
     maxTokens := maxTokens r; req_temperature := req_temperature r |}.

Definition with_maxTokens (n : Z) (r : AskAi) : AskAi :=
  {| prompt := prompt r; requestedProvider := requestedProvider r;
     requestedModel := requestedModel r; sessionId := sessionId r;
     templateId := templateId r; stack := stack r;
     maxTokens := Some n; req_temperature := req_temperature r |}.

Definition no_keys : gmap string string := ∅.

Definition groq_only : gmap string string := {[ "GROQ_API_KEY" := "gsk" ]}.

Definition openai_and_groq : gmap string string :=
  {[ "OPENAI_API_KEY" := "sk"; "GROQ_API_KEY" := "gsk" ]}.

Definition empty_store : option Store.Supabase :=
  Some {| Store.chat_messages := []; Store.available := true |}.

(** A client behind a proxy asking for the chat endpoint. *)
Definition client : RateLimiter.request :=
  {| RateLimiter.path := "/api/ask-ai";
     RateLimiter.x_forwarded_for := Some "1.2.3.4";
     RateLimiter.connection_remoteAddress := Some "10.0.0.1";
     RateLimiter.socket_remoteAddress := Some "10.0.0.1" |}.

(** [n] turns of one session, created at instants 1 to [n]. *)
Definition turns (n : nat) : list Store.ChatRow :=
  map (fun i => {| Store.session_id := "s";
                   Store.role := if Z.even i then "assistant" else "user";
                   Store.content := pretty i;
                   Store.created_at := i |})
      (seqZ 1 (Z.of_nat n)).

End Scenario.

(** ** The specification's wording, where it is compared with the code *)

Module Claimed.

(** "System-role content is passed via the system-instruction field":
    the content of every system-role message of the list is a part of the
    session's system instruction. *)
Definition system_content_forwarded (messages : list Message.t)
    (session : Gemini.ChatSession) : bool :=
  forallb
    (fun m =>
       if Message.is_system m then
         match Gemini.systemInstruction (Gemini.params session) with
         | Some c => existsb (String.eqb (Message.content m)) (Gemini.parts c)
         | None => false
         end
       else true)
    messages.

(** "The request's explicit maxTokens if present, else the environment
    default". *)
Definition maxTokens (r : Gateway.AskAi) (config : Env.Config) : Z :=
  match Gateway.maxTokens r with
  | Some n => n
  | None => Env.DEFAULT_MAX_TOKENS config
  end.

End Claimed.

(** ** The registry helpers of [utils/providers.js] *)

Module Catalog.

(** The [models] field of each entry of [PROVIDERS], in declaration
    order. *)
Definition MODELS : list (string * list string) :=
  [ ("openai", ["gpt-4o"; "gpt-4o-mini"; "gpt-4-turbo"; "gpt-4";
                "gpt-3.5-turbo"]);
    ("openrouter", ["qwen/qwen3-235b-a22b-thinking-2507";
                    "deepseek/deepseek-chat-v3.1";
                    "openai/gpt-oss-120b";
                    "x-ai/grok-code-fast-1";
                    "mistralai/codestral-2508";
                    "anthropic/claude-3-5-haiku";
                    "anthropic/claude-3-5-sonnet";
                    "meta-llama/llama-3.3-70b-instruct";
                    "google/gemini-2.0-flash-exp";
                    "nvidia/llama-3.1-nemotron-70b-instruct"]);
    ("xai", ["grok-4"; "grok-beta"; "grok-vision-beta"]);
    ("groq", ["llama-3.3-70b-versatile"; "llama-3.1-70b-versatile";
              "llama-3.1-8b-instant"; "mixtral-8x7b-32768"; "gemma2-9b-it";
              "llama-3.2-90b-vision-preview";
              "llama-3.2-11b-vision-preview"]);
    ("perplexity", ["llama-3.1-sonar-large-128k-online";
                    "llama-3.1-sonar-small-128k-online";
                    "llama-3.1-sonar-large-128k-chat";
                    "llama-3.1-sonar-small-128k-chat";
                    "llama-3.1-8b-instruct";
                    "llama-3.1-70b-instruct"]);
    ("gemini", ["gemini-1.5-pro"; "gemini-1.5-flash";
                "gemini-2.0-flash-exp"]) ].

(** The [description] field of each entry. *)
Definition DESCRIPTIONS : list (string * string) :=
  [ ("openai", "OpenAI's GPT models");
    ("openrouter", "Access multiple AI models through OpenRouter");
    ("xai", "XAI's Grok models with real-time information access");
    ("groq", "Ultra-fast AI inference with Groq's hardware");
    ("perplexity", "AI with real-time web search capabilities");
    ("gemini", "Google's latest AI models") ].

Fixpoint assoc {A} (l : list (string * A)) (k : string) : option A :=
  match l with
  | (k', a) :: l' => if String.eqb k k' then Some a else assoc l' k
  | [] => None
  end.

(** [PROVIDERS[k].models]; a member inherited from [Object.prototype]
    has none. *)
Definition models_of (k : string) : option (list string) := assoc MODELS k.

Definition description_of (k : string) : option string :=
  assoc DESCRIPTIONS k.

(** An element of the list [getConfiguredProviders] returns. *)
Record ConfiguredProvider := {
  id : string;
  name : option string;
  description : option string;
  models : option (list string);
  defaultModel : option string
}.

(** [getConfiguredProviders()]: the entries whose API key is set and not
    empty. *)
Definition getConfiguredProviders (env : gmap string string)
  : list ConfiguredProvider :=
  map (fun '(k, provider) =>
         {| id := k;
            name := Registry.name provider;
            description := description_of k;
            models := models_of k;
            defaultModel := Registry.defaultModel provider |})
      (List.filter
         (fun '(_, provider) =>
            JS.truthy (Env.read env (Registry.apiKeyEnv provider)))
         Registry.PROVIDERS).

(** The result of [validateProviderConfig]: [{ valid: true }],
    [{ valid: false, error }], or a TypeError thrown on reading
    [.includes] of an undefined [models]. *)
Inductive Validation :=
| Valid
| Invalid (error : string)
| TypeError.

Definition validateProviderConfig (env : gmap string string)
    (providerId modelId : option string) : Validation :=
  match Registry.get (JS.template providerId) with
  | None => Invalid ("Unknown provider: " +:+ JS.template providerId)
  | Some provider =>
      if negb (JS.truthy (Env.read env (Registry.apiKeyEnv provider))) then
        Invalid ("API key not configured for "
                   +:+ JS.template (Registry.name provider))
      else if JS.truthy modelId then
        match models_of (JS.template providerId) with
        | None => TypeError
        | Some ms =>
            if existsb (String.eqb (default "" modelId)) ms then Valid
            else Invalid ("Model " +:+ default "" modelId
                            +:+ " not available for "
                            +:+ JS.template (Registry.name provider))
        end
      else Valid
  end.

End Catalog.

(** ** The status endpoint [/api/check-env] *)

Module Status.

Local Open Scope Z_scope.

(** The status reported for one provider. *)
Record ProviderStatus := {
  name : option string;
  apiKeyConfigured : bool;
  modelConfigured : bool;
  baseUrl : option string;
  defaultModel : option string;
  model : option string
}.

(** The body of the response; its [timestamp] is the wall clock and is
    left out. [PORT] is the variable when set and not empty, else the
    number 3000. *)
Record CheckEnv := {
  env : list (string * ProviderStatus);
  supabase : bool;
  rateLimiting_enabled : bool;
  rateLimiting_limit : Z;
  server_status : string;
  server_port : string + Z;
  server_nodeEnv : string
}.

Definition provider_status (e : gmap string string)
    (provider : Registry.ProviderConfig) : ProviderStatus :=
  {| name := Registry.name provider;
     apiKeyConfigured := JS.truthy (Env.read e (Registry.apiKeyEnv provider));
     modelConfigured := JS.truthy (Env.read e (Registry.modelEnv provider));
     baseUrl := Registry.baseUrl provider;
     defaultModel := Registry.defaultModel provider;
     model := JS.or_else (Env.read e (Registry.modelEnv provider))
                (Registry.defaultModel provider) |}.

(** [app.get("/api/check-env", ...)] *)
Definition check_env (W : Gateway.World) (e : gmap string string)
    (store : option Store.Supabase) : CheckEnv :=
  let config := Env.load (Gateway.parseFloat W) e in
  {| env := map (fun '(key, provider) => (key, provider_status e provider))
              Registry.PROVIDERS;
     supabase := bool_decide (is_Some store);
     rateLimiting_enabled := 0 <? Env.IP_RATE_LIMIT config;
     rateLimiting_limit := Env.IP_RATE_LIMIT config;
     server_status := "running";
     server_port := if JS.truthy (e !! "PORT")
                    then inl (default "" (e !! "PORT")) else inr 3000;
     server_nodeEnv := default "development"
                         (JS.or_else (e !! "NODE_ENV") (Some "development")) |}.

End Status.

(** ** The chat client's request ([callAi] of the AskAI component) *)

Module Client.

(** [ModelParameters], with the fields [callAi] reads. *)
Record ModelParameters := {
  model : option string;
  maxTokens : option Z;
  temperature : option Q
}.

(** The state and properties of the component that [callAi] reads. *)
Record ChatState := {
  isAiWorking : bool;
  prompt : string;
  sessionId : string;
  selectedProvider : string;
  selectedStack : string;
  selectedTemplateId : option string;
  modelParams : option ModelParameters
}.

(** The body [callAi] posts to [/api/ask-ai]; [None] when it returns
    without sending: a request is under way, the prompt is blank or there
    is no session id. A field spread from a falsy value is not sent. *)
Definition requestBody (s : ChatState) : option Gateway.AskAi :=
  if isAiWorking s || JS.blank (Some (prompt s))
     || negb (JS.truthy (Some (sessionId s)))
  then None
  else
    Some
      {| Gateway.prompt := Some (JS.trim (prompt s));
         Gateway.requestedProvider := Some (selectedProvider s);
         Gateway.requestedModel :=
           match modelParams s with
           | Some mp => if JS.truthy (model mp) then model mp else None
           | None => None
           end;
         Gateway.sessionId := Some (sessionId s);
         Gateway.templateId :=
           if JS.truthy (selectedTemplateId s) then selectedTemplateId s
           else None;
         Gateway.stack := Some (selectedStack s);
         Gateway.maxTokens :=
           match modelParams s with
           | Some mp =>
               match maxTokens mp with
               | Some n => if Z.eqb n 0 then None else Some n
               | None => None
               end
           | None => None
           end;
         Gateway.req_temperature :=
           match modelParams s with
           | Some mp => temperature mp
           | None => None
           end |}.

End Client.

(** ** The connection test of the settings dialog ([testConnection] of
    the Settings component) *)

Module Settings.

(** The model parameters the dialog keeps. *)
Record ModelParameters := {
  max_tokens : Z;
  temperature : Q;
  api_key : option string;
  base_url : option string;
  model : option string
}.

(** What the dialog reads of [envConfig]: whether each field is truthy. *)
Record EnvConfig := {
  apiKey : bool;
  baseUrl : bool;
  env_model : bool
}.

(** The payload, after the deletions; a deleted or undefined field is
    [None] and is not sent. *)
Record Payload := {
  payload_api_key : option string;
  payload_base_url : option string;
  payload_model : option string
}.

Definition payload (params : ModelParameters) (envConfig : EnvConfig)
  : Payload :=
  let keep (v : option string) (provided : bool) :=
    if negb (JS.truthy v) && provided then None else v in
  {| payload_api_key := keep (api_key params) (apiKey envConfig);
     payload_base_url := keep (base_url params) (baseUrl envConfig);
     payload_model := keep (model params) (env_model envConfig) |}.

(** [const { provider, model } = req.body] on the posted payload: the
    payload has no [provider] field. *)
Definition request (p : Payload) : Gateway.TestConnection :=
  {| Gateway.tc_provider := None; Gateway.tc_model := payload_model p |}.

(** [testStatus]. *)
Record TestStatus := {
  loading : bool;
  tested : bool;
  success : bool;
  message : string
}.

(** [res.ok]. *)
Definition res_ok (res : Gateway.Response) : bool :=
  (200 <=? Gateway.status res)%Z && (Gateway.status res <=? 299)%Z.

(** [data.ok] and [data.message] of a reply of the server. *)
Definition data_ok (b : Gateway.Body) : bool :=
  match b with
  | Gateway.Answer _ _ _ _ | Gateway.Connection _ _ _ _ => true
  | _ => false
  end.

Definition data_message (b : Gateway.Body) : option string :=
  match b with
  | Gateway.Message m | Gateway.Failure m _ | Gateway.Connection m _ _ _
  | Gateway.ConnectionError m _ => Some m
  | Gateway.Answer _ _ _ _ => None
  end.

(** The status the dialog shows for the reply [res]. *)
Definition shown (res : Gateway.Response) : TestStatus :=
  if res_ok res && data_ok (Gateway.body res) then
    {| loading := false; tested := true; success := true;
       message := "Connection successful" |}
  else
    {| loading := false; tested := true; success := false;
       message := default "Connection failed"
                    (JS.or_else (data_message (Gateway.body res))
                       (Some "Connection failed")) |}.

(** [testConnection], for a request that reaches the handler. *)
Definition testConnection (W : Gateway.World) (env : gmap string string)
    (params : ModelParameters) (envConfig : EnvConfig)
  : Gateway.Eff TestStatus :=
  let '(res, trace) :=
    Gateway.test_connection W env (request (payload params envConfig)) in
  (shown res, trace).

End Settings.

(** ** The adapter calls on the wire *)

Module Wire.

(** What an adapter call of the attempt loop looks like: an OpenAI-style
    call is for a provider other than Gemini, goes to its base URL with
    its API key as bearer token, and carries the OpenRouter extras for
    OpenRouter only; a Gemini call is for Gemini. *)
Definition wired (env : gmap string string) (e : Gateway.event) : Prop :=
  match e with
  | Gateway.Fetch k req =>
      k <> "gemini"
      /\ exists c key,
           Registry.get k = Some c
           /\ Env.read env (Registry.apiKeyEnv c) = Some key
           /\ key <> ""
           /\ Gateway.url req
              = JS.template (Registry.baseUrl c) +:+ "/chat/completions"
           /\ Gateway.authorization req = "Bearer " +:+ key
           /\ Gateway.timeout req = 120000%Z
           /\ Gateway.openrouter_sampling req = String.eqb k "openrouter"
           /\ (Gateway.x_title req
               = if String.eqb k "openrouter" then Some "DeepSite 2.0"
                 else None)
           /\ (k <> "openrouter" -> Gateway.http_referer req = None)
  | Gateway.GeminiGenerate k _ _ _ => k = "gemini"
  | _ => True
  end.

End Wire.

(** * Properties *)

(** ** JavaScript primitives *)

Example parseInt_examples :
  JS.parseInt (Some "42") = Some 42%Z /\ JS.parseInt (Some "  -7px") = Some (-7)%Z
  /\ JS.parseInt (Some "0x1f") = Some 31%Z /\ JS.parseInt None = None
  /\ JS.parseInt (Some "") = None /\ JS.parseInt (Some "0") = Some 0%Z.
Proof. repeat split; reflexivity. Qed.

Example trim_examples :
  JS.trim "  a b  " = "a b" /\ JS.trim "   " = "" /\ JS.blank (Some " ") = true
  /\ JS.blank None = true /\ JS.blank (Some " x") = false.
Proof. repeat split; reflexivity. Qed.

Lemma trimStart_cases (s : string) :
  (JS.trimStart s = "" /\ JS.whitespace_only s = true)
  \/ (exists c r, JS.trimStart s = String c r /\ JS.is_white_space c = false
                  /\ JS.whitespace_only s = false).
Proof.
  induction s as [|c s IH]; simpl.
  - left; split; reflexivity.
  - destruct (JS.is_white_space c) eqn:Hc; simpl.
    + exact IH.
    + right. exists c, s. repeat split; assumption.
Qed.

Lemma trimEnd_keeps_head (c : ascii) (r : string) :
  JS.is_white_space c = false -> JS.trimEnd (String c r) <> "".
Proof. intros Hc. simpl. rewrite Hc. simpl. discriminate. Qed.

(** [trim] leaves nothing exactly for strings of white space. *)
Lemma trim_empty_iff (s : string) :
  JS.trim s = "" <-> JS.whitespace_only s = true.
Proof.
  unfold JS.trim.
  destruct (trimStart_cases s) as [[E H] | (c & r & E & Hc & H)]; rewrite E.
  - split; [intros _; exact H | reflexivity].
  - split.
    + intros K. exfalso. exact (trimEnd_keeps_head c r Hc K).
    + rewrite H. discriminate.
Qed.

Lemma eqb_empty_iff (s : string) : String.eqb s "" = true <-> s = "".
Proof. apply String.eqb_eq. Qed.

(** The prompt test [!prompt?.trim()] holds exactly for an absent prompt
    and for a prompt of white space only. *)
Lemma blank_iff (v : option string) :
  JS.blank v = true
  <-> v = None \/ exists s, v = Some s /\ JS.whitespace_only s = true.
Proof.
  unfold JS.blank. destruct v as [s|]; simpl.
  - rewrite negb_involutive, eqb_empty_iff, trim_empty_iff. split.
    + intros H. right. exists s. split; [reflexivity | exact H].
    + intros [H | (s' & H & Hw)]; [discriminate | congruence].
  - split; [intros _; left; reflexivity | reflexivity].
Qed.

(** ** Prompt validation *)

(** C6. A request to /api/ask-ai whose prompt is absent, empty or made of
    white space only is answered 400 "Missing or empty prompt", and the
    handler makes no outside call at all: no provider adapter is invoked,
    the chat history is not read and nothing is saved. *)
Theorem ask_ai_blank_prompt_rejected
    (W : Gateway.World) (env : gmap string string)
    (supabase : option Store.Supabase) (r : Gateway.AskAi) :
  (Gateway.prompt r = None
   \/ exists s, Gateway.prompt r = Some s /\ JS.whitespace_only s = true) ->
  Gateway.ask_ai W env supabase r
  = ({| Gateway.status := 400;
        Gateway.body := Gateway.Message "Missing or empty prompt" |}, []).
Proof.
  intros H. apply blank_iff in H.
  unfold Gateway.ask_ai. rewrite H. reflexivity.
Qed.

Lemma ask_ai_blank_prompt_rejected_witness :
  Gateway.ask_ai Scenario.world Scenario.openai_and_groq Scenario.empty_store
    (Scenario.with_session "s" (Scenario.request (Some "  ")))
  = ({| Gateway.status := 400;
        Gateway.body := Gateway.Message "Missing or empty prompt" |}, []).
Proof.
  apply ask_ai_blank_prompt_rejected.
  right. exists "  ". split; reflexivity.
Defined.

(** ** Start-up configuration and the disabled limiter *)

(** The constant [IP_RATE_LIMIT] is never zero, whatever the environment
    holds: a value that parses to zero is replaced by 100. *)
Lemma IP_RATE_LIMIT_never_zero
    (parseFloat : option string -> option Q) (env : gmap string string) :
  Env.IP_RATE_LIMIT (Env.load parseFloat env) <> 0%Z.
Proof.
  unfold Env.load, JS.num_or; simpl.
  destruct (JS.parseInt (env !! "IP_RATE_LIMIT")) as [v|]; [|discriminate].
  destruct (Z.eqb_spec v 0); [discriminate | assumption].
Qed.

(** When the constant is zero or negative the middleware lets every
    request through and leaves the cache alone. *)
Lemma middleware_disabled (N : Z) (cache : gmap string (list Z)) (now : Z)
    (req : RateLimiter.request) :
  (N <= 0)%Z ->
  RateLimiter.middleware N cache now req
  = (cache, RateLimiter.Next RateLimiter.Unlimited).
Proof.
  intros H. unfold RateLimiter.middleware.
  destruct (Z.leb_spec N 0); [reflexivity | lia].
Qed.

Lemma middleware_disabled_witness :
  RateLimiter.middleware (-1) ∅ 0 Scenario.client
  = (∅, RateLimiter.Next RateLimiter.Unlimited).
Proof. apply middleware_disabled. lia. Defined.

(** C3. With [IP_RATE_LIMIT=0] in the environment the limiter is not
    disabled: the constant becomes 100, the timestamps of the client are
    recorded, and its 101st request within the hour is answered 429. *)
Theorem IP_RATE_LIMIT_zero_still_limits :
  let limit :=
    Env.IP_RATE_LIMIT
      (Env.load (Gateway.parseFloat Scenario.world)
         {[ "IP_RATE_LIMIT" := "0" ]}) in
  let result :=
    RateLimiter.run limit ∅
      (replicate 101 (RateLimiter.Request 0 Scenario.client)) in
  limit = 100%Z
  /\ last (snd result)
     = Some (Some (RateLimiter.TooManyRequests
                     "Rate limit exceeded. Try again in 60 minutes."
                     (Some 60%Z) (Some 3600000%Z)))
  /\ fst result !! "1.2.3.4" = Some (replicate 100 0%Z).
Proof. vm_compute. repeat split; reflexivity. Qed.

(** ** History retrieval *)

#[local] Instance older_total : Total Store.older.
Proof. intros a b. unfold Store.older. lia. Qed.

#[local] Instance older_trans : Transitive Store.older.
Proof. intros a b c. unfold Store.older. lia. Qed.

(** At most fifty turns come back, however many are stored. *)
Lemma getChatHistory_length (supabase : option Store.Supabase)
    (sessionId : string) :
  length (Store.getChatHistory supabase sessionId) <= 50.
Proof.
  unfold Store.getChatHistory, Store.select_history.
  destruct supabase as [db|]; simpl; [|lia].
  destruct (Store.available db); simpl; [|lia].
  rewrite length_take. lia.
Qed.

(** They come oldest first. *)
Lemma getChatHistory_sorted (supabase : option Store.Supabase)
    (sessionId : string) :
  StronglySorted Store.older (Store.getChatHistory supabase sessionId).
Proof.
  unfold Store.getChatHistory, Store.select_history.
  destruct supabase as [db|]; simpl; [|constructor].
  destruct (Store.available db); simpl; [|constructor].
  set (l := merge_sort _ _).
  assert (H : StronglySorted Store.older l)
    by (apply StronglySorted_merge_sort; apply _).
  rewrite <- (take_drop 50 l) in H.
  apply StronglySorted_app_1_l in H. exact H.
Qed.

(** They all belong to the session asked for. *)
Lemma getChatHistory_session (supabase : option Store.Supabase)
    (sessionId : string) (r : Store.ChatRow) :
  r ∈ Store.getChatHistory supabase sessionId ->
  Store.session_id r = sessionId.
Proof.
  unfold Store.getChatHistory, Store.select_history.
  destruct supabase as [db|]; simpl; [|intros H; inversion H].
  destruct (Store.available db); simpl; [|intros H; inversion H].
  intros H. apply subseteq_take in H.
  rewrite merge_sort_Permutation in H.
  apply list_elem_of_In, filter_In in H. destruct H as [_ H].
  apply String.eqb_eq in H. exact H.
Qed.

(** C4. With 51 turns stored for a session, created at instants 1 to 51,
    the history holds the turns of instants 1 to 50: the fifty oldest. The
    most recent turn, of instant 51, is not returned. *)
Theorem getChatHistory_returns_oldest_fifty :
  let db := Some {| Store.chat_messages := Scenario.turns 51;
                    Store.available := true |} in
  let history := Store.getChatHistory db "s" in
  map Store.created_at history = seqZ 1 50
  /\ history = Scenario.turns 50
  /\ existsb (fun r => Z.eqb (Store.created_at r) 51) history = false.
Proof. vm_compute. repeat split; reflexivity. Qed.

(** ** Gemini adapter *)

Lemma chatMessages_of_app (l1 l2 : list Message.t) :
  Gemini.chatMessages_of (l1 ++ l2)
  = Gemini.chatMessages_of l1 ++ Gemini.chatMessages_of l2.
Proof.
  unfold Gemini.chatMessages_of. rewrite List.filter_app, map_app. reflexivity.
Qed.

Lemma chatMessages_of_all_system (msgs : list Message.t) :
  (forall m, In m msgs -> Message.is_system m = true) ->
  Gemini.chatMessages_of msgs = [].
Proof.
  unfold Gemini.chatMessages_of. induction msgs as [|m msgs IH]; intros H.
  - reflexivity.
  - simpl. rewrite (H m (or_introl eq_refl)). simpl.
    apply IH. intros m' Hm'. apply H. right. exact Hm'.
Qed.

(** The non-system messages of a list that has one: the earlier ones and
    the last. *)
Lemma non_system_split (msgs : list Message.t) :
  (exists m, In m msgs /\ Message.is_system m = false) ->
  exists earlier lastm,
    List.filter (fun m => negb (Message.is_system m)) msgs
    = earlier ++ [lastm]
    /\ Message.is_system lastm = false.
Proof.
  intros (m & Hin & Hm).
  assert (Hf : In m (List.filter (fun m => negb (Message.is_system m)) msgs)).
  { apply filter_In. split; [exact Hin | rewrite Hm; reflexivity]. }
  destruct (List.filter _ msgs) as [|x l] eqn:E using rev_ind.
  - destruct Hf.
  - exists l, x. split; [reflexivity|].
    assert (Hx : In x (List.filter (fun m => negb (Message.is_system m)) msgs)).
    { rewrite E. apply in_or_app. right. left. reflexivity. }
    apply filter_In in Hx. destruct Hx as [_ Hx].
    destruct (Message.is_system x); [discriminate | reflexivity].
Qed.

Lemma slice_0_m1_snoc {A} (l : list A) (x : A) :
  Gemini.slice_0_m1 (l ++ [x]) = l.
Proof.
  unfold Gemini.slice_0_m1. rewrite length_app. simpl.
  replace (length l + 1 - 1) with (length l) by lia.
  rewrite take_app_length. reflexivity.
Qed.

(** C9, as the adapter has it. For every message list, model name and
    options: the main array (history and final message) is made of the
    non-system messages, in order, an assistant message under the role
    "model" and any other under "user", so that no system-role message is
    in it; the system-instruction field carries the content of the first
    system-role message when that content is not empty, and is absent
    otherwise; topP is 0.95, topK is 40, and the safety settings are the
    four categories harassment, hate speech, sexually explicit and
    dangerous content, each at block-medium-and-above, whatever the
    options. *)
Theorem gemini_translation (modelName : option string)
    (msgs : list Message.t) (options : Gemini.Options) :
  let session := Gemini.startChat modelName msgs options in
  let p := Gemini.params session in
  let chat := Gemini.chatMessages_of msgs in
  Forall2
    (fun m c =>
       Gemini.parts c = [Message.content m]
       /\ (Message.role m = "assistant" -> Gemini.role c = "model")
       /\ (Message.role m <> "assistant" -> Gemini.role c = "user"))
    (List.filter (fun m => negb (Message.is_system m)) msgs) chat
  /\ Forall (fun c => Gemini.role c <> "system") chat
  /\ (chat = []
      \/ exists c, chat = Gemini.history p ++ [c]
                   /\ Gemini.lastMessage_of msgs = head (Gemini.parts c))
  /\ (forall before m after,
        msgs = before ++ m :: after ->
        Forall (fun x => Message.is_system x = false) before ->
        Message.is_system m = true ->
        Gemini.systemInstruction p
        = if String.eqb (Message.content m) "" then None
          else Some {| Gemini.role := "system";
                       Gemini.parts := [Message.content m] |})
  /\ (Forall (fun x => Message.is_system x = false) msgs ->
      Gemini.systemInstruction p = None)
  /\ Qeq (Gemini.topP (Gemini.generationConfig p)) (95 # 100)
  /\ Gemini.topK (Gemini.generationConfig p) = 40%Z
  /\ map Gemini.category (Gemini.safetySettings p)
     = [ Gemini.HARM_CATEGORY_HARASSMENT; Gemini.HARM_CATEGORY_HATE_SPEECH;
         Gemini.HARM_CATEGORY_SEXUALLY_EXPLICIT;
         Gemini.HARM_CATEGORY_DANGEROUS_CONTENT ]
  /\ Forall (fun x => Gemini.threshold x = Gemini.BLOCK_MEDIUM_AND_ABOVE)
       (Gemini.safetySettings p).
Proof.
  cbv zeta. repeat apply conj.
  - unfold Gemini.chatMessages_of.
    induction (List.filter _ msgs) as [|m l IH]; simpl; constructor; [|exact IH].
    simpl. split; [reflexivity|]. split; intros H.
    + rewrite H. reflexivity.
    + destruct (String.eqb_spec (Message.role m) "assistant");
        [contradiction | reflexivity].
  - unfold Gemini.chatMessages_of. apply Forall_forall. intros c Hc.
    apply list_elem_of_In, in_map_iff in Hc. destruct Hc as (m & <- & _). simpl.
    destruct (String.eqb (Message.role m) "assistant"); discriminate.
  - unfold Gemini.lastMessage_of. simpl.
    destruct (Gemini.chatMessages_of msgs) as [|x l] eqn:E using rev_ind.
    + left. reflexivity.
    + right. exists x. rewrite slice_0_m1_snoc, last_snoc. split; reflexivity.
  - intros before m after -> Hb Hm. simpl.
    unfold Gemini.systemInstruction_of.
    assert (E : List.find Message.is_system (before ++ m :: after) = Some m).
    { clear -Hb Hm. induction Hb as [|x l Hx _ IH]; simpl.
      - rewrite Hm. reflexivity.
      - rewrite Hx. exact IH. }
    rewrite E. simpl.
    destruct (String.eqb (Message.content m) ""); reflexivity.
  - intros H. simpl. unfold Gemini.systemInstruction_of.
    assert (E : List.find Message.is_system msgs = None).
    { induction H as [|x l Hx _ IH]; simpl; [reflexivity|].
      rewrite Hx. exact IH. }
    rewrite E. reflexivity.
  - reflexivity.
  - reflexivity.
  - reflexivity.
  - simpl. repeat constructor.
Qed.

(** The theorem on a short conversation: the system message goes to the
    system instruction, the assistant turn to the history under "model",
    and the user turn is the message sent. *)
Lemma gemini_translation_witness :
  let msgs := [ {| Message.role := "system"; Message.content := "A" |};
                {| Message.role := "assistant"; Message.content := "x" |};
                {| Message.role := "user"; Message.content := "hi" |} ] in
  let p :=
    Gemini.params
      (Gemini.startChat None msgs
         {| Gemini.maxTokens := None; Gemini.opt_temperature := None |}) in
  Gemini.systemInstruction p
  = Some {| Gemini.role := "system"; Gemini.parts := ["A"] |}
  /\ Gemini.history p = [ {| Gemini.role := "model"; Gemini.parts := ["x"] |} ]
  /\ Gemini.lastMessage_of msgs = Some "hi".
Proof.
  split; [|split; reflexivity].
  apply (proj1 (proj2 (proj2 (proj2
           (gemini_translation None
              [ {| Message.role := "system"; Message.content := "A" |};
                {| Message.role := "assistant"; Message.content := "x" |};
                {| Message.role := "user"; Message.content := "hi" |} ]
              {| Gemini.maxTokens := None;
                 Gemini.opt_temperature := None |}))))
           [] {| Message.role := "system"; Message.content := "A" |}
           [ {| Message.role := "assistant"; Message.content := "x" |};
             {| Message.role := "user"; Message.content := "hi" |} ]).
  - reflexivity.
  - constructor.
  - reflexivity.
Defined.

(** C9, as the specification words it, fails on a list with two system
    messages: only "A" reaches the system instruction, and "B" is passed
    nowhere. *)
Lemma gemini_second_system_message_dropped :
  let msgs := [ {| Message.role := "system"; Message.content := "A" |};
                {| Message.role := "system"; Message.content := "B" |};
                {| Message.role := "user"; Message.content := "hi" |} ] in
  let session :=
    Gemini.startChat None msgs
      {| Gemini.maxTokens := None; Gemini.opt_temperature := None |} in
  Claimed.system_content_forwarded msgs session = false
  /\ Gemini.systemInstruction (Gemini.params session)
     = Some {| Gemini.role := "system"; Gemini.parts := ["A"] |}
  /\ Gemini.history (Gemini.params session) = []
  /\ Gemini.lastMessage_of msgs = Some "hi".
Proof. repeat split; reflexivity. Qed.

(** With a non-system message in the list, [generateResponse] sends the
    last of them to a session whose history holds the earlier ones, and
    does not throw on its own. *)
Lemma generateResponse_safe
    (send : Gemini.ChatSession -> string -> Gemini.SdkResult)
    (modelName : option string) (msgs : list Message.t)
    (options : Gemini.Options) :
  (exists m, In m msgs /\ Message.is_system m = false) ->
  exists earlier lastm,
    List.filter (fun m => negb (Message.is_system m)) msgs
    = earlier ++ [lastm]
    /\ Gemini.history (Gemini.params (Gemini.startChat modelName msgs options))
       = Gemini.chatMessages_of earlier
    /\ Gemini.lastMessage_of msgs = Some (Message.content lastm)
    /\ Gemini.generateResponse send modelName msgs options
       = match send (Gemini.startChat modelName msgs options)
                 (Message.content lastm) with
         | Gemini.SdkError e => Gemini.Threw e
         | Gemini.SdkResponse text count =>
             Gemini.Returned text (JS.num_or count 0)
         end
    /\ Gemini.generateResponse send modelName msgs options <> Gemini.TypeError.
Proof.
  intros H. destruct (non_system_split msgs H) as (earlier & lastm & E & Hl).
  exists earlier, lastm.
  assert (Hchat : Gemini.chatMessages_of msgs
                  = Gemini.chatMessages_of earlier
                    ++ [ {| Gemini.role :=
                              if String.eqb (Message.role lastm) "assistant"
                              then "model" else "user";
                            Gemini.parts := [Message.content lastm] |} ]).
  { unfold Gemini.chatMessages_of at 1. rewrite E, map_app. simpl.
    f_equal. unfold Gemini.chatMessages_of. f_equal.
    assert (Hall : forall x, In x earlier -> negb (Message.is_system x) = true).
    { intros x Hx.
      assert (Hx' : In x (List.filter (fun m => negb (Message.is_system m)) msgs))
        by (rewrite E; apply in_or_app; left; exact Hx).
      apply filter_In in Hx'. tauto. }
    clear -Hall. induction earlier as [|x l IH]; simpl; [reflexivity|].
    rewrite (Hall x (or_introl eq_refl)). f_equal.
    apply IH. intros y Hy. apply Hall. right. exact Hy. }
  assert (Hlast : Gemini.lastMessage_of msgs = Some (Message.content lastm)).
  { unfold Gemini.lastMessage_of. rewrite Hchat, last_snoc. reflexivity. }
  assert (Hgen : Gemini.generateResponse send modelName msgs options
       = match send (Gemini.startChat modelName msgs options)
                 (Message.content lastm) with
         | Gemini.SdkError e => Gemini.Threw e
         | Gemini.SdkResponse text count =>
             Gemini.Returned text (JS.num_or count 0)
         end).
  { unfold Gemini.generateResponse. rewrite Hlast. reflexivity. }
  repeat split.
  - exact E.
  - simpl. rewrite Hchat, slice_0_m1_snoc. reflexivity.
  - exact Hlast.
  - exact Hgen.
  - rewrite Hgen. destruct (send _ _); discriminate.
Qed.

(** With system-role messages only, it reads [.parts] of [undefined]. *)
Lemma generateResponse_crash
    (send : Gemini.ChatSession -> string -> Gemini.SdkResult)
    (modelName : option string) (msgs : list Message.t)
    (options : Gemini.Options) :
  (forall m, In m msgs -> Message.is_system m = true) ->
  Gemini.generateResponse send modelName msgs options = Gemini.TypeError.
Proof.
  intros H. unfold Gemini.generateResponse, Gemini.lastMessage_of.
  rewrite (chatMessages_of_all_system msgs H). reflexivity.
Qed.

(** ** The attempt loop *)

Section AttemptLoop.

Variable W : Gateway.World.
Variable env : gmap string string.
Variable supabase : option Store.Supabase.
Variable r : Gateway.AskAi.

(** One adapter call: a single event, resolved as the handler resolves
    it, and a result that follows the answer given to that call. *)
Lemma callProvider_spec (msgs : list Message.t) (k : string)
    (c : Registry.ProviderConfig) (apiKey : string) :
  exists e,
    snd (Gateway.callProvider W env r msgs k c apiKey) = [e]
    /\ Trace.provider_of e = Some k
    /\ Trace.model_of e = Gateway.modelToUse env r c
    /\ Trace.maxTokens_of e = Some (Gateway.maxTokensToUse W env r)
    /\ Trace.temperature_of e = Some (Gateway.temperatureToUse W env r)
    /\ Trace.messages_of e = msgs
    /\ match Trace.answer_of W e with
       | Some a => fst (Gateway.callProvider W env r msgs k c apiKey) = inl a
       | None =>
           exists err,
             fst (Gateway.callProvider W env r msgs k c apiKey) = inr err
       end.
Proof.
  unfold Gateway.callProvider.
  destruct (String.eqb k "gemini"); simpl.
  - eexists. split; [reflexivity|]. repeat split. simpl.
    destruct (Gemini.generateResponse _ _ _ _) as [text tokens|e|]; simpl.
    + destruct (JS.blank (Some text)); simpl; eauto.
    + eauto.
    + eauto.
  - eexists. split; [reflexivity|]. repeat split. simpl.
    destruct (Gateway.fetch W _) as [e|st txt e|content total]; simpl.
    + eauto.
    + eauto.
    + destruct (JS.blank content); simpl; eauto.
Qed.

Lemma bind_pair {A B} (a : A) (t : list Gateway.event)
    (k : A -> Gateway.Eff B) :
  Gateway.bind (a, t) k = (fst (k a), t ++ snd (k a)).
Proof. unfold Gateway.bind. destruct (k a). reflexivity. Qed.

Lemma saveMessage_assistant (text : string) :
  snd (if JS.truthy (Gateway.sessionId r) && bool_decide (is_Some supabase)
       then Gateway.saveMessage supabase
              (default "" (Gateway.sessionId r)) "assistant" text
       else Gateway.ret tt)
  = Trace.epilogue supabase r text.
Proof.
  unfold Trace.epilogue, Trace.remembers, Gateway.saveMessage.
  destruct (JS.truthy (Gateway.sessionId r)); simpl; [|reflexivity].
  destruct supabase; reflexivity.
Qed.

Lemma invoked_app (t1 t2 : list Gateway.event) :
  Trace.invoked (t1 ++ t2) = Trace.invoked t1 ++ Trace.invoked t2.
Proof. unfold Trace.invoked. apply omap_app. Qed.

Lemma invoked_epilogue (text : string) :
  Trace.invoked (Trace.epilogue supabase r text) = [].
Proof. unfold Trace.epilogue. destruct (Trace.remembers _ _); reflexivity. Qed.

Lemma invoked_prelude : Trace.invoked (Trace.prelude supabase r) = [].
Proof. unfold Trace.prelude. destruct (Trace.remembers _ _); reflexivity. Qed.

(** What a run of the loop over [keys] does. Either every call fails:
    the calls are those of all the candidates whose key is set, in order,
    and the response is the 500 "All AI providers failed". Or the calls
    end with the first one that is answered: those before it failed, the
    response carries its text, its model and the name of its provider,
    and the assistant turn is saved after it. *)
Lemma attempt_spec (msgs : list Message.t) (all keys : list string)
    (lastError : option string) :
  Forall (fun k => is_Some (Registry.get k)) keys ->
  exists calls,
    Forall (Trace.resolved W env r msgs) calls
    /\ Trace.invoked calls `prefix_of` List.filter (Env.configured env) keys
    /\ ((exists err,
           Gateway.attempt W env supabase r msgs all keys lastError
           = ({| Gateway.status := 500;
                 Gateway.body :=
                   Gateway.Failure
                     ("All AI providers failed. Last error: "
                        +:+ default "null" err)
                     (map (fun key => Registry.get key ≫= Registry.name) all) |},
              calls)
           /\ Forall (fun e => Trace.answer_of W e = None) calls
           /\ Trace.invoked calls = List.filter (Env.configured env) keys
           /\ (calls = [] -> err = lastError))
        \/ (exists before e text tokens k c,
              calls = before ++ [e]
              /\ Forall (fun e => Trace.answer_of W e = None) before
              /\ Trace.answer_of W e = Some (text, tokens)
              /\ Trace.provider_of e = Some k
              /\ Registry.get k = Some c
              /\ Gateway.attempt W env supabase r msgs all keys lastError
                 = ({| Gateway.status := 200;
                       Gateway.body :=
                         Gateway.Answer text (Trace.model_of e)
                           (Registry.name c) tokens |},
                    calls ++ Trace.epilogue supabase r text))).
Proof.
  intros Hkeys. revert lastError.
  induction Hkeys as [|k rest [c Hc] _ IH]; intros lastError.
  - exists []. split; [constructor|]. split; [apply prefix_nil|].
    left. exists lastError. repeat split; constructor.
  - assert (Hconf : Env.configured env k
                    = JS.truthy (Env.read env (Registry.apiKeyEnv c)))
      by (unfold Env.configured; rewrite Hc; reflexivity).
    cbn [Gateway.attempt List.filter]. rewrite Hc, Hconf.
    destruct (JS.truthy (Env.read env (Registry.apiKeyEnv c))) eqn:Hkey;
      cbn [negb].
    + destruct (callProvider_spec msgs k c
                  (default "" (Env.read env (Registry.apiKeyEnv c))))
        as (e & Htr & Hk & Hm & Ht & Hq & Hmsgs & Hans).
      assert (He : Trace.resolved W env r msgs e).
      { exists k, c. repeat split; assumption. }
      destruct (Gateway.callProvider W env r msgs k c _) as [res tr].
      simpl in Htr, Hans. subst tr. rewrite bind_pair.
      destruct (Trace.answer_of W e) as [[text tokens]|] eqn:Ha.
      * subst res. cbv beta iota. exists [e].
        split; [constructor; [exact He | constructor]|].
        split.
        { unfold Trace.invoked. simpl. rewrite Hk. simpl.
          apply prefix_cons, prefix_nil. }
        right. exists [], e, text, tokens, k, c.
        repeat split; try assumption; try constructor.
        unfold Gateway.bind, Gateway.ret.
        pose proof (saveMessage_assistant text) as Hs.
        destruct (if JS.truthy (Gateway.sessionId r) && _ then _ else _)
          as [u tr].
        simpl in Hs. subst tr. simpl.
        rewrite app_nil_r, <- Hm. reflexivity.
      * destruct Hans as [err ->]. cbv beta iota.
        destruct (IH (Some err)) as (calls & Hres & Hpre & Hcase).
        exists (e :: calls).
        split; [constructor; assumption|].
        split.
        { unfold Trace.invoked. simpl. rewrite Hk. simpl.
          apply prefix_cons. exact Hpre. }
        destruct Hcase as [(err' & Hrun & Hfail & Hinv & Hnil)
                          |(before & e' & text & tokens & k' & c' & Hcalls
                            & Hfail & Ha' & Hk' & Hc' & Hrun)].
        -- left. exists err'. rewrite Hrun. cbn [fst snd app].
           repeat split.
           ++ constructor; assumption.
           ++ unfold Trace.invoked. simpl. rewrite Hk. simpl. f_equal.
              exact Hinv.
           ++ discriminate.
        -- right. exists (e :: before), e', text, tokens, k', c'.
           rewrite Hrun, Hcalls. cbn [fst snd app].
           repeat split; try assumption.
           constructor; assumption.
    + destruct (IH lastError) as (calls & Hres & Hpre & Hcase).
      exists calls. split; [exact Hres|]. split; [exact Hpre|]. exact Hcase.
Qed.

End AttemptLoop.

(** ** The handler of /api/ask-ai *)

Lemma registry_keys_known :
  Forall (fun k => is_Some (Registry.get k)) Registry.keys.
Proof. repeat constructor; eexists; reflexivity. Qed.

Lemma candidates_known (env : gmap string string)
    (requested : option string) :
  Forall (fun k => is_Some (Registry.get k))
    (Gateway.providersToTry env requested).
Proof.
  unfold Gateway.providersToTry. apply Forall_app. split.
  - destruct requested as [k|]; [|constructor].
    destruct (JS.truthy (Some k)); simpl; [|constructor].
    destruct (bool_decide_reflect (is_Some (Registry.get k))); simpl;
      repeat constructor; assumption.
  - apply Forall_forall. intros k Hk.
    apply list_elem_of_In, filter_In in Hk. destruct Hk as [Hk _].
    pose proof registry_keys_known as H.
    rewrite Forall_forall in H. apply H, list_elem_of_In. exact Hk.
Qed.

Section AskAi.

Variable W : Gateway.World.
Variable env : gmap string string.
Variable supabase : option Store.Supabase.
Variable r : Gateway.AskAi.

Let candidates := Gateway.providersToTry env (Gateway.requestedProvider r).
Let msgs := Gateway.compose W r (Trace.history_for supabase r).

(** Past validation and the empty-list check, the handler reads the
    history and saves the user turn when it has a session and a store,
    and then runs the loop. *)
Lemma ask_ai_unfold :
  JS.blank (Gateway.prompt r) = false ->
  candidates <> [] ->
  Gateway.ask_ai W env supabase r
  = (fst (Gateway.attempt W env supabase r msgs candidates candidates None),
     Trace.prelude supabase r
     ++ snd (Gateway.attempt W env supabase r msgs candidates candidates None)).
Proof.
  intros Hp Hc. unfold Gateway.ask_ai. rewrite Hp.
  fold candidates. rewrite bool_decide_eq_false_2 by exact Hc.
  subst msgs. unfold Trace.history_for, Trace.prelude, Trace.remembers.
  unfold Gateway.getChatHistory, Gateway.saveMessage.
  destruct (JS.truthy (Gateway.sessionId r)); simpl.
  - destruct supabase as [db|]; simpl.
    + unfold Gateway.bind, Gateway.tell, Gateway.ret. simpl.
      destruct (Gateway.attempt _ _ _ _ _ _ _ _). reflexivity.
    + unfold Gateway.bind, Gateway.ret. simpl.
      destruct (Gateway.attempt _ _ _ _ _ _ _ _). reflexivity.
  - unfold Gateway.bind, Gateway.ret. simpl.
    destruct (Gateway.attempt _ _ _ _ _ _ _ _). reflexivity.
Qed.

(** The whole handler on a request with a prompt and a candidate. *)
Lemma ask_ai_spec :
  JS.blank (Gateway.prompt r) = false ->
  candidates <> [] ->
  exists calls,
    Forall (Trace.resolved W env r msgs) calls
    /\ Trace.invoked calls
       `prefix_of` List.filter (Env.configured env) candidates
    /\ ((exists err,
           Gateway.ask_ai W env supabase r
           = ({| Gateway.status := 500;
                 Gateway.body :=
                   Gateway.Failure
                     ("All AI providers failed. Last error: "
                        +:+ default "null" err)
                     (map (fun key => Registry.get key ≫= Registry.name)
                        candidates) |},
              Trace.prelude supabase r ++ calls)
           /\ Forall (fun e => Trace.answer_of W e = None) calls
           /\ Trace.invoked calls
              = List.filter (Env.configured env) candidates)
        \/ (exists before e text tokens k c,
              calls = before ++ [e]
              /\ Forall (fun e => Trace.answer_of W e = None) before
              /\ Trace.answer_of W e = Some (text, tokens)
              /\ Trace.provider_of e = Some k
              /\ Registry.get k = Some c
              /\ Gateway.ask_ai W env supabase r
                 = ({| Gateway.status := 200;
                       Gateway.body :=
                         Gateway.Answer text (Trace.model_of e)
                           (Registry.name c) tokens |},
                    Trace.prelude supabase r ++ calls
                    ++ Trace.epilogue supabase r text))).
Proof.
  intros Hp Hc. rewrite (ask_ai_unfold Hp Hc).
  destruct (attempt_spec W env supabase r msgs candidates candidates None
              (candidates_known env (Gateway.requestedProvider r)))
    as (calls & Hres & Hpre & Hcase).
  exists calls. split; [exact Hres|]. split; [exact Hpre|].
  destruct Hcase as [(err & Hrun & Hfail & Hinv & _)
                    |(before & e & text & tokens & k & c & Hcalls
                      & Hfail & Ha & Hk & Hg & Hrun)].
  - left. exists err. rewrite Hrun. simpl. repeat split; assumption.
  - right. exists before, e, text, tokens, k, c. rewrite Hrun. simpl.
    repeat split; assumption.
Qed.

(** Every adapter call of the handler is a resolved one. *)
Lemma ask_ai_calls_resolved (e : Gateway.event) :
  In e (snd (Gateway.ask_ai W env supabase r)) ->
  is_Some (Trace.provider_of e) ->
  Trace.resolved W env r msgs e.
Proof.
  intros Hin Hcall.
  destruct (JS.blank (Gateway.prompt r)) eqn:Hp.
  { unfold Gateway.ask_ai in Hin. rewrite Hp in Hin. destruct Hin. }
  destruct (decide (candidates = [])) as [Hc|Hc].
  { unfold Gateway.ask_ai in Hin. rewrite Hp in Hin. fold candidates in Hin.
    rewrite bool_decide_eq_true_2 in Hin by exact Hc. destruct Hin. }
  destruct (ask_ai_spec Hp Hc) as (calls & Hres & _ & Hcase).
  assert (Hnot_pre : ~ In e (Trace.prelude supabase r)).
  { unfold Trace.prelude. destruct (Trace.remembers _ _); simpl;
      [|tauto].
    intros [<-|[<-|[]]]; destruct Hcall as [? Hcall]; discriminate. }
  assert (Hnot_epi : forall text, ~ In e (Trace.epilogue supabase r text)).
  { intros text. unfold Trace.epilogue. destruct (Trace.remembers _ _); simpl;
      [|tauto].
    intros [<-|[]]; destruct Hcall as [? Hcall]; discriminate. }
  rewrite Forall_forall in Hres.
  destruct Hcase as [(err & Hrun & _)
                    |(before & e' & text & tokens & k & c & _ & _ & _ & _ & _
                      & Hrun)];
    rewrite Hrun in Hin; simpl in Hin;
    (apply in_app_or in Hin; destruct Hin as [Hin|Hin];
     [exfalso; exact (Hnot_pre Hin)|]).
  - apply Hres, list_elem_of_In; exact Hin.
  - apply in_app_or in Hin; destruct Hin as [Hin|Hin].
    + apply Hres, list_elem_of_In; exact Hin.
    + exfalso; exact (Hnot_epi _ Hin).
Qed.

End AskAi.

(** ** Candidate providers and the requested provider *)

Lemma own_get (k : string) (c : Registry.ProviderConfig) :
  Registry.own Registry.PROVIDERS k = Some c -> Registry.get k = Some c.
Proof. intros H. unfold Registry.get. rewrite H. reflexivity. Qed.

Lemma own_key_not_empty (k : string) (c : Registry.ProviderConfig) :
  Registry.own Registry.PROVIDERS k = Some c -> JS.truthy (Some k) = true.
Proof.
  intros H. simpl. destruct (String.eqb_spec k ""); [|reflexivity].
  subst k. discriminate H.
Qed.

(** Among the candidates, those whose key is set are the configured
    registry entries, when the requested provider is not one of them. *)
Lemma configured_candidates (env : gmap string string) (k : string)
    (l : list string) :
  Env.configured env k = false ->
  List.filter (Env.configured env)
    (List.filter
       (fun key => negb (bool_decide (Some k = Some key))
                   && Env.configured env key) l)
  = List.filter (Env.configured env) l.
Proof.
  intros Hk. induction l as [|x l IH]; simpl; [reflexivity|].
  destruct (Env.configured env x) eqn:Hx.
  - rewrite bool_decide_eq_false_2; simpl.
    + rewrite Hx, IH. reflexivity.
    + intros [= ->]. congruence.
  - rewrite andb_false_r. exact IH.
Qed.

(** C1, as the handler has it. When the request names a registry provider
    whose API-key variable is not set, the adapter of that provider is
    never invoked; the providers whose adapter is invoked are, in order,
    an initial segment of the configured registry entries in declaration
    order, and all of them when no call is answered. *)
Theorem unconfigured_requested_provider_skipped
    (W : Gateway.World) (env : gmap string string)
    (supabase : option Store.Supabase) (r : Gateway.AskAi)
    (k : string) (c : Registry.ProviderConfig) :
  Gateway.requestedProvider r = Some k ->
  Registry.own Registry.PROVIDERS k = Some c ->
  JS.truthy (Env.read env (Registry.apiKeyEnv c)) = false ->
  let result := Gateway.ask_ai W env supabase r in
  ~ In k (Trace.invoked (snd result))
  /\ Trace.invoked (snd result)
     `prefix_of` List.filter (Env.configured env) Registry.keys
  /\ (JS.blank (Gateway.prompt r) = false ->
      Gateway.status (fst result) <> 200%Z ->
      Trace.invoked (snd result)
      = List.filter (Env.configured env) Registry.keys).
Proof.
  intros Hreq Hown Hkey. cbv zeta.
  assert (Hget : Registry.get k = Some c) by (apply own_get; exact Hown).
  assert (Hconf : Env.configured env k = false)
    by (unfold Env.configured; rewrite Hget; exact Hkey).
  assert (Hnot : ~ In k (List.filter (Env.configured env) Registry.keys)).
  { intros H. apply filter_In in H. destruct H as [_ H]. congruence. }
  assert (Hcand : List.filter (Env.configured env)
                    (Gateway.providersToTry env (Gateway.requestedProvider r))
                  = List.filter (Env.configured env) Registry.keys).
  { rewrite Hreq. unfold Gateway.providersToTry.
    rewrite (own_key_not_empty k c Hown), Hget.
    rewrite bool_decide_eq_true_2 by (eexists; reflexivity).
    cbn [andb app List.filter]. rewrite Hconf.
    apply configured_candidates. exact Hconf. }
  assert (Hne : Gateway.providersToTry env (Gateway.requestedProvider r) <> []).
  { rewrite Hreq. unfold Gateway.providersToTry.
    rewrite (own_key_not_empty k c Hown), Hget.
    rewrite bool_decide_eq_true_2 by (eexists; reflexivity).
    cbn [andb app]. discriminate. }
  destruct (JS.blank (Gateway.prompt r)) eqn:Hp.
  { unfold Gateway.ask_ai. rewrite Hp. simpl.
    repeat split; [tauto | apply prefix_nil | discriminate]. }
  destruct (ask_ai_spec W env supabase r Hp Hne) as (calls & _ & Hpre & Hcase).
  rewrite Hcand in Hpre, Hcase.
  assert (Hinv : Trace.invoked (snd (Gateway.ask_ai W env supabase r))
                 = Trace.invoked calls).
  { destruct Hcase as [(err & -> & _)
                      |(before & e & text & tokens & k' & c' & _ & _ & _ & _
                        & _ & ->)]; simpl;
      rewrite !invoked_app, ?invoked_prelude, ?invoked_epilogue, ?app_nil_r;
      reflexivity. }
  rewrite Hinv. repeat split.
  - intros Hin. apply Hnot.
    destruct Hpre as [rest ->]. apply in_or_app. left. exact Hin.
  - exact Hpre.
  - intros _ Hst.
    destruct Hcase as [(err & _ & _ & Heq)
                      |(before & e & text & tokens & k' & c' & _ & _ & _ & _
                        & _ & Hrun)].
    + exact Heq.
    + rewrite Hrun in Hst. simpl in Hst. contradiction.
Qed.

Lemma unconfigured_requested_provider_skipped_witness :
  let result :=
    Gateway.ask_ai Scenario.world Scenario.groq_only None
      (Scenario.with_provider "openai" (Scenario.request (Some "hi"))) in
  ~ In "openai" (Trace.invoked (snd result))
  /\ Trace.invoked (snd result)
     `prefix_of` List.filter (Env.configured Scenario.groq_only) Registry.keys
  /\ (JS.blank (Some "hi") = false ->
      Gateway.status (fst result) <> 200%Z ->
      Trace.invoked (snd result)
      = List.filter (Env.configured Scenario.groq_only) Registry.keys).
Proof.
  apply (unconfigured_requested_provider_skipped
           Scenario.world Scenario.groq_only None
           (Scenario.with_provider "openai" (Scenario.request (Some "hi")))
           "openai"
           (Registry.entry "OpenAI" "OPENAI_API_KEY" "OPENAI_MODEL"
              (Some "https://api.openai.com/v1") "gpt-4o"));
    reflexivity.
Defined.

(** C1, as the specification words it, fails: a requested provider without
    an API key is not dropped from the candidate list. It stays first in
    [providersToTry], ahead of the configured provider. *)
Lemma unconfigured_requested_provider_is_candidate :
  Env.configured Scenario.groq_only "openai" = false
  /\ Gateway.providersToTry Scenario.groq_only (Some "openai")
     = ["openai"; "groq"]
  /\ existsb (String.eqb "openai")
       (Gateway.providersToTry Scenario.groq_only (Some "openai")) = true.
Proof. vm_compute. repeat split; reflexivity. Qed.

(** ** No provider configured *)

(** When no registry entry has its key set and the request names no
    provider the registry reads, the handler fails fast. *)
Lemma no_provider_configured_fast
    (W : Gateway.World) (env : gmap string string)
    (supabase : option Store.Supabase) (r : Gateway.AskAi) :
  JS.blank (Gateway.prompt r) = false ->
  List.filter (Env.configured env) Registry.keys = [] ->
  (Gateway.requestedProvider r = None
   \/ exists k, Gateway.requestedProvider r = Some k
                /\ Registry.get k = None) ->
  Gateway.ask_ai W env supabase r
  = ({| Gateway.status := 500;
        Gateway.body :=
          Gateway.Message "No AI providers configured with API keys" |}, []).
Proof.
  intros Hp Hnone Hreq. unfold Gateway.ask_ai. rewrite Hp.
  assert (E : Gateway.providersToTry env (Gateway.requestedProvider r) = []).
  { unfold Gateway.providersToTry.
    assert (Hf : forall q, List.filter
              (fun key => negb (bool_decide (q = Some key))
                          && Env.configured env key) Registry.keys = []).
    { intros q. revert Hnone. generalize Registry.keys.
      induction l as [|x l IH]; simpl; [reflexivity|].
      destruct (Env.configured env x); [discriminate|].
      rewrite andb_false_r. exact IH. }
    rewrite Hf, app_nil_r.
    destruct Hreq as [-> | (k & -> & Hk)]; [reflexivity|].
    rewrite Hk. rewrite bool_decide_eq_false_2 by (intros [? H]; discriminate).
    rewrite andb_false_r. reflexivity. }
  rewrite E. reflexivity.
Qed.

Lemma no_provider_configured_fast_witness :
  Gateway.ask_ai Scenario.world Scenario.no_keys Scenario.empty_store
    (Scenario.request (Some "hi"))
  = ({| Gateway.status := 500;
        Gateway.body :=
          Gateway.Message "No AI providers configured with API keys" |}, []).
Proof.
  apply no_provider_configured_fast; [reflexivity | reflexivity |].
  left. reflexivity.
Defined.

(** C7. With no API key in the environment, a request that names a
    registry provider does not get the "No AI providers configured"
    answer: the candidate list holds the named provider, the loop skips
    it, and the handler answers 500 "All AI providers failed. Last error:
    null", listing the provider as attempted. No adapter is invoked. *)
Theorem no_keys_named_provider_all_failed :
  let result :=
    Gateway.ask_ai Scenario.world Scenario.no_keys None
      (Scenario.with_provider "openai" (Scenario.request (Some "hi"))) in
  List.filter (Env.configured Scenario.no_keys) Registry.keys = []
  /\ result
     = ({| Gateway.status := 500;
           Gateway.body :=
             Gateway.Failure "All AI providers failed. Last error: null"
               [Some "OpenAI"] |}, [])
  /\ JS.includes "All AI providers failed. Last error: null"
       "No AI providers configured" = false.
Proof. vm_compute. repeat split; reflexivity. Qed.

(** ** Persisted turns and the answering provider *)

Lemma resolved_is_call (W : Gateway.World) (env : gmap string string)
    (r : Gateway.AskAi) (msgs : list Message.t) (l : list Gateway.event) :
  Forall (Trace.resolved W env r msgs) l ->
  Trace.calls l = l /\ Trace.saved l = [].
Proof.
  induction 1 as [|e l (k & c & Hk & _) _ [IH1 IH2]]; [split; reflexivity|].
  unfold Trace.calls, Trace.saved in *. simpl. rewrite Hk, IH1.
  split; [reflexivity|].
  destruct e; try discriminate; exact IH2.
Qed.

Lemma calls_app (t1 t2 : list Gateway.event) :
  Trace.calls (t1 ++ t2) = Trace.calls t1 ++ Trace.calls t2.
Proof. unfold Trace.calls. apply List.filter_app. Qed.




(** The same deployment, run: OpenAI fails, Groq answers, the response
    names Groq and its model, and one user turn and one assistant turn
    are saved. *)
Example fallback_to_second_provider :
  let result :=
    Gateway.ask_ai Scenario.world Scenario.openai_and_groq
      Scenario.empty_store
      (Scenario.with_session "s" (Scenario.request (Some "hi"))) in
  fst result
  = {| Gateway.status := 200;
       Gateway.body :=
         Gateway.Answer "<html></html>" (Some "llama-3.3-70b-versatile")
           (Some "Groq") 42 |}
  /\ Trace.invoked (snd result) = ["openai"; "groq"]
  /\ Trace.saved (snd result)
     = [("s", "user", "hi"); ("s", "assistant", "<html></html>")].
Proof. vm_compute. repeat split; reflexivity. Qed.


(** ** Model and generation options *)

Lemma modelToUse_rule (env : gmap string string) (r : Gateway.AskAi)
    (c : Registry.ProviderConfig) :
  Trace.model_rule env r c (Gateway.modelToUse env r c).
Proof.
  unfold Trace.model_rule, Gateway.modelToUse, JS.or_else. repeat split.
  - intros x Hx Hne. rewrite Hx. simpl.
    destruct (String.eqb_spec x ""); [contradiction | reflexivity].
  - intros Hreq x Hx Hne. rewrite Hreq, Hx. simpl.
    destruct (String.eqb_spec x ""); [contradiction | reflexivity].
  - intros Hreq Henv. rewrite Hreq, Henv. reflexivity.
Qed.

Lemma maxTokensToUse_rule (W : Gateway.World) (env : gmap string string)
    (r : Gateway.AskAi) :
  Trace.maxTokens_rule (Env.load (Gateway.parseFloat W) env) r
    (Some (Gateway.maxTokensToUse W env r)).
Proof.
  unfold Trace.maxTokens_rule, Gateway.maxTokensToUse, JS.num_or. split.
  - intros x Hx Hne. rewrite Hx.
    destruct (Z.eqb_spec x 0); [contradiction | reflexivity].
  - intros [H | H]; rewrite H; reflexivity.
Qed.

Lemma temperatureToUse_rule (W : Gateway.World) (env : gmap string string)
    (r : Gateway.AskAi) :
  Trace.temperature_rule (Env.load (Gateway.parseFloat W) env) r
    (Some (Gateway.temperatureToUse W env r)).
Proof.
  unfold Trace.temperature_rule, Gateway.temperatureToUse.
  split; [intros x H | intros H]; rewrite H; reflexivity.
Qed.

(** The defaults, for a [parseFloat] that reads [undefined] as NaN, as
    the builtin does. *)
Lemma load_defaults_rule (W : Gateway.World) (env : gmap string string) :
  Gateway.parseFloat W None = None ->
  Trace.defaults_rule W env.
Proof.
  intros HNaN.
  unfold Trace.defaults_rule, Env.load, JS.num_or, Env.float_or. simpl.
  repeat split.
  - intros n Hn Hne _. rewrite Hn.
    destruct (Z.eqb_spec n 0); [contradiction | reflexivity].
  - intros H. rewrite H. reflexivity.
  - intros H. rewrite H. reflexivity.
  - intros q Hq Hne. rewrite Hq, Hne. reflexivity.
  - intros H. rewrite H. reflexivity.
  - intros H. rewrite H, HNaN. reflexivity.
Qed.

(** C8, as the handler has it. Every adapter call of /api/ask-ai is for a
    provider the registry reads, and is given: as model, the request's
    model when it is a non-empty string, else the provider's model
    variable when set and not empty, else the provider's default model;
    as token limit, the request's maxTokens when present and not zero,
    else the server default; as temperature, the request's temperature
    whenever present, else the server default. The server defaults are
    the environment values when they parse to a number other than zero,
    and 8000 tokens and 0.7 when they do not parse to a number, and so
    when the variables are not set: [parseInt(undefined)] is NaN by
    computation, [parseFloat(undefined)] is NaN by the hypothesis on the
    builtin. *)
Theorem adapter_call_arguments
    (W : Gateway.World) (env : gmap string string)
    (supabase : option Store.Supabase) (r : Gateway.AskAi)
    (e : Gateway.event) (k : string) :
  Gateway.parseFloat W None = None ->
  In e (snd (Gateway.ask_ai W env supabase r)) ->
  Trace.provider_of e = Some k ->
  exists c,
    Registry.get k = Some c
    /\ Trace.model_rule env r c (Trace.model_of e)
    /\ Trace.maxTokens_rule (Env.load (Gateway.parseFloat W) env) r
         (Trace.maxTokens_of e)
    /\ Trace.temperature_rule (Env.load (Gateway.parseFloat W) env) r
         (Trace.temperature_of e)
    /\ Trace.defaults_rule W env.
Proof.
  intros HNaN Hin Hk.
  destruct (ask_ai_calls_resolved W env supabase r e Hin)
    as (k' & c & Hk' & Hget & _ & Hm & Ht & Hq & _).
  { rewrite Hk. eexists; reflexivity. }
  assert (k' = k) by congruence. subst k'.
  exists c. split; [exact Hget|].
  rewrite Hm, Ht, Hq.
  split; [apply modelToUse_rule|].
  split; [apply maxTokensToUse_rule|].
  split; [apply temperatureToUse_rule | apply load_defaults_rule; exact HNaN].
Qed.

(** Groq alone is configured and neither default is set in the
    environment: the one call is given 8000 tokens and temperature 0.7. *)
Lemma adapter_call_arguments_witness :
  let r := Scenario.request (Some "hi") in
  let env := Scenario.groq_only in
  let e := hd (Gateway.GetChatHistory "")
             (snd (Gateway.ask_ai Scenario.world env None r)) in
  Trace.maxTokens_of e = Some 8000%Z
  /\ Trace.temperature_of e = Some (7 # 10).
Proof.
  cbv zeta.
  destruct (adapter_call_arguments Scenario.world Scenario.groq_only None
              (Scenario.request (Some "hi"))
              (hd (Gateway.GetChatHistory "")
                 (snd (Gateway.ask_ai Scenario.world Scenario.groq_only None
                         (Scenario.request (Some "hi")))))
              "groq" eq_refl)
    as (c & _ & _ & [_ Htok] & [_ Htemp] & (_ & _ & Hd & _ & _ & Hq)).
  - vm_compute. left. reflexivity.
  - reflexivity.
  - rewrite (Htok (or_introl eq_refl)), (Htemp eq_refl).
    rewrite (Hd eq_refl), (Hq eq_refl). split; reflexivity.
Defined.

(** The call of that deployment: Groq's default model, 8000 tokens and
    temperature 0.7. *)
Example default_arguments :
  map (fun e => (Trace.provider_of e, Trace.model_of e,
                 Trace.maxTokens_of e, Trace.temperature_of e))
      (snd (Gateway.ask_ai Scenario.world Scenario.groq_only None
              (Scenario.request (Some "hi"))))
  = [(Some "groq", Some "llama-3.3-70b-versatile", Some 8000%Z,
      Some (7 # 10))].
Proof. vm_compute. reflexivity. Qed.

(** C8, as the specification words it, fails on an explicit [maxTokens] of
    zero: the field is present, and the adapter is given the default of
    8000 tokens instead. *)
Lemma explicit_zero_maxTokens_replaced :
  let r := Scenario.with_maxTokens 0 (Scenario.request (Some "hi")) in
  let env := Scenario.groq_only in
  Gateway.maxTokens r = Some 0%Z
  /\ Claimed.maxTokens r (Env.load (Gateway.parseFloat Scenario.world) env)
     = 0%Z
  /\ map Trace.maxTokens_of
       (snd (Gateway.ask_ai Scenario.world env None r))
     = [Some 8000%Z].
Proof. vm_compute. repeat split; reflexivity. Qed.

(** ** The Gemini call sites of the gateway *)

Lemma compose_has_user_prompt (W : Gateway.World) (r : Gateway.AskAi)
    (history : list Store.ChatRow) :
  last (Gateway.compose W r history)
  = Some {| Message.role := "user";
            Message.content := default "" (Gateway.prompt r) |}
  /\ exists u, In u (Gateway.compose W r history)
               /\ Message.is_system u = false.
Proof.
  unfold Gateway.compose. split.
  - rewrite app_comm_cons, last_snoc. reflexivity.
  - eexists. split.
    + right. apply in_or_app. right. left. reflexivity.
    + reflexivity.
Qed.

Lemma test_connection_gemini_call (W : Gateway.World)
    (env : gmap string string) (r : Gateway.TestConnection)
    (k : string) (m : option string) (msgs : list Message.t)
    (o : Gemini.Options) :
  In (Gateway.GeminiGenerate k m msgs o)
     (snd (Gateway.test_connection W env r)) ->
  msgs = Gateway.ping.
Proof.
  unfold Gateway.test_connection. intros H.
  destruct (Gateway.tc_provider r) as [p|]; [|destruct H].
  destruct (JS.truthy (Some p)); [|destruct H].
  destruct (Registry.get p) as [c|]; [|destruct H]. simpl in H.
  destruct (negb (JS.truthy (Env.read env (Registry.apiKeyEnv c))));
    [destruct H|].
  destruct (String.eqb p "gemini"); simpl in H;
    destruct H as [H|[]]; [|discriminate H].
  injection H as _ _ <- _. reflexivity.
Qed.

(** C10. [generateResponse] needs a non-system message in its list: when
    there is one it sends the last non-system message to a session whose
    history holds the earlier ones, and throws nothing of its own; when
    the list holds system-role messages only it reads a property of
    [undefined] and throws. Both call sites of the gateway pass such a
    list: /api/ask-ai ends its list with the user prompt, and
    /api/test-connection sends the fixed user message "Ping". So no
    Gemini call of either handler takes the throwing branch. *)
Theorem gemini_crash_unreachable :
  (forall send modelName msgs options,
     (exists m, In m msgs /\ Message.is_system m = false) ->
     exists earlier lastm,
       List.filter (fun m => negb (Message.is_system m)) msgs
       = earlier ++ [lastm]
       /\ Gemini.history
            (Gemini.params (Gemini.startChat modelName msgs options))
          = Gemini.chatMessages_of earlier
       /\ Gemini.generateResponse send modelName msgs options
          = match send (Gemini.startChat modelName msgs options)
                    (Message.content lastm) with
            | Gemini.SdkError e => Gemini.Threw e
            | Gemini.SdkResponse text count =>
                Gemini.Returned text (JS.num_or count 0)
            end)
  /\ (forall send modelName msgs options,
        (forall m, In m msgs -> Message.is_system m = true) ->
        Gemini.generateResponse send modelName msgs options
        = Gemini.TypeError)
  /\ (forall W env supabase r k m msgs o,
        In (Gateway.GeminiGenerate k m msgs o)
           (snd (Gateway.ask_ai W env supabase r)) ->
        last msgs
        = Some {| Message.role := "user";
                  Message.content := default "" (Gateway.prompt r) |}
        /\ Gemini.generateResponse (Gateway.sendMessage W) m msgs o
           <> Gemini.TypeError)
  /\ (forall W env r k m msgs o,
        In (Gateway.GeminiGenerate k m msgs o)
           (snd (Gateway.test_connection W env r)) ->
        msgs = [ {| Message.role := "user"; Message.content := "Ping" |} ]
        /\ Gemini.generateResponse (Gateway.sendMessage W) m msgs o
           <> Gemini.TypeError).
Proof.
  repeat apply conj.
  - intros send modelName msgs options H.
    destruct (generateResponse_safe send modelName msgs options H)
      as (earlier & lastm & H1 & H2 & _ & H4 & _).
    exists earlier, lastm. repeat split; assumption.
  - exact generateResponse_crash.
  - intros W env supabase r k m msgs o Hin.
    destruct (ask_ai_calls_resolved W env supabase r _ Hin)
      as (k' & c & _ & _ & _ & _ & _ & _ & Hmsgs).
    { eexists; reflexivity. }
    simpl in Hmsgs. subst msgs.
    destruct (compose_has_user_prompt W r (Trace.history_for supabase r))
      as [Hlast Hu].
    split; [exact Hlast|].
    destruct (generateResponse_safe (Gateway.sendMessage W) m _ o Hu)
      as (_ & _ & _ & _ & _ & _ & Hsafe).
    exact Hsafe.
  - intros W env r k m msgs o Hin.
    apply test_connection_gemini_call in Hin. subst msgs.
    split; [reflexivity|].
    assert (Hu : exists u, In u Gateway.ping /\ Message.is_system u = false).
    { eexists. split; [left; reflexivity | reflexivity]. }
    destruct (generateResponse_safe (Gateway.sendMessage W) m _ o Hu)
      as (_ & _ & _ & _ & _ & _ & Hsafe).
    exact Hsafe.
Qed.

(** The theorem at a deployment with a Gemini key: the one Gemini call of
    the handler carries the user prompt last and does not crash. *)
Lemma gemini_crash_unreachable_witness :
  let env : gmap string string := {[ "GEMINI_API_KEY" := "g" ]} in
  let r := Scenario.request (Some "hi") in
  let msgs := Gateway.compose Scenario.world r [] in
  last msgs = Some {| Message.role := "user"; Message.content := "hi" |}
  /\ Gemini.generateResponse (Gateway.sendMessage Scenario.world)
       (Some "gemini-1.5-pro") msgs
       {| Gemini.maxTokens := Some 8000%Z;
          Gemini.opt_temperature := Some (7 # 10) |}
     <> Gemini.TypeError.
Proof.
  apply (proj1 (proj2 (proj2 gemini_crash_unreachable))
           Scenario.world {[ "GEMINI_API_KEY" := "g" ]} None
           (Scenario.request (Some "hi")) "gemini").
  vm_compute. left. reflexivity.
Defined.

(** ** The sliding window *)

Section Window.

Local Open Scope Z_scope.

Lemma filter_after_purge (c1 c2 : Z) (l : list Z) :
  c1 <= c2 ->
  filter (fun timestamp => c2 < timestamp)
    (filter (fun timestamp => c1 < timestamp) l)
  = filter (fun timestamp => c2 < timestamp) l.
Proof.
  intros H. induction l as [|x l IH]; [reflexivity|].
  rewrite !filter_cons. repeat case_decide; try lia.
  - rewrite filter_cons. rewrite decide_True by assumption. f_equal. exact IH.
  - rewrite filter_cons. rewrite decide_False by assumption. exact IH.
  - exact IH.
Qed.

Lemma Math_min_spec (l : list Z) (m : Z) :
  RateLimiter.Math_min l = Some m ->
  m ∈ l /\ Forall (fun x => m <= x) l.
Proof.
  destruct l as [|x l]; [discriminate|]. simpl. intros [= <-].
  induction l as [|y l [IH1 IH2]]; simpl.
  - split; [left | repeat constructor; lia].
  - apply Forall_cons in IH2. destruct IH2 as [Hx Hl].
    destruct (Z.min_spec y (foldr Z.min x l)) as [[Hlt ->] | [Hle ->]].
    + split; [right; left|].
      constructor; [lia|]. constructor; [lia|].
      eapply Forall_impl; [exact Hl|]. simpl. intros; lia.
    + split.
      * apply elem_of_cons in IH1. destruct IH1 as [->|IH1];
          [left | right; right; exact IH1].
      * constructor; [exact Hx|]. constructor; [lia | exact Hl].
Qed.

Lemma ceil_div_positive (a : Z) :
  0 < a -> 1 <= RateLimiter.ceil_div a 60000.
Proof.
  intros H. unfold RateLimiter.ceil_div.
  assert ((- a) / 60000 < 0) by (apply Z.div_lt_upper_bound; lia).
  lia.
Qed.

(** [ceil_div a 60000] is the least number of minutes that covers [a]
    milliseconds. *)
Lemma ceil_div_spec (a : Z) :
  60000 * (RateLimiter.ceil_div a 60000 - 1) < a
  <= 60000 * RateLimiter.ceil_div a 60000.
Proof.
  unfold RateLimiter.ceil_div.
  pose proof (Z.div_mod (- a) 60000 ltac:(lia)).
  pose proof (Z.mod_pos_bound (- a) 60000 ltac:(lia)).
  lia.
Qed.

Lemma filter_all (P : Z -> Prop) `{forall x, Decision (P x)} (l : list Z) :
  Forall P l -> filter P l = l.
Proof.
  induction 1 as [|x l Hx _ IH]; [reflexivity|].
  rewrite filter_cons, decide_True by exact Hx. f_equal. exact IH.
Qed.

Lemma length_filter_Z (P : Z -> Prop) `{forall x, Decision (P x)}
    (l : list Z) (N : Z) :
  Z.of_nat (length l) <= N -> Z.of_nat (length (filter P l)) <= N.
Proof. intros Hl. pose proof (length_filter P l). lia. Qed.

(** Entries of at most [N] timestamps stay so through one pass of the
    middleware. *)
Lemma middleware_bounded (N : Z) (cache : gmap string (list Z)) (now : Z)
    (req : RateLimiter.request) :
  (forall ip l, cache !! ip = Some l -> Z.of_nat (length l) <= N) ->
  forall ip l,
    fst (RateLimiter.middleware N cache now req) !! ip = Some l ->
    Z.of_nat (length l) <= N.
Proof.
  intros Hb ip l. unfold RateLimiter.middleware.
  destruct (Z.leb_spec N 0) as [|HN]; [apply Hb|].
  destruct (RateLimiter.is_static _); [apply Hb|].
  set (ip0 := RateLimiter.clientIp req).
  destruct (match cache !! ip0 with
            | Some l => Some l
            | None => if JS.inherited ip0 then None else Some []
            end) as [l0|] eqn:E; [|apply Hb].
  assert (Hl0 : Z.of_nat (length l0) <= N \/ l0 = []).
  { destruct (cache !! ip0) as [l1|] eqn:E1.
    - injection E as <-. left. eapply Hb. exact E1.
    - destruct (JS.inherited ip0); [discriminate|].
      injection E as <-. right. reflexivity. }
  destruct (Z.leb_spec N (Z.of_nat (length
              (filter (fun timestamp => now - RateLimiter.window < timestamp)
                 l0)))) as [Hle|Hlt]; cbn [fst].
  - destruct (decide (ip0 = ip)) as [->|Hne].
    + rewrite lookup_insert_eq. intros [= <-].
      destruct Hl0 as [Hl0 | ->]; [apply length_filter_Z; exact Hl0|].
      rewrite filter_nil in Hle |- *. simpl in Hle |- *. lia.
    + rewrite lookup_insert_ne by exact Hne. apply Hb.
  - destruct (decide (ip0 = ip)) as [->|Hne].
    + rewrite lookup_insert_eq. intros [= <-].
      rewrite length_app. simpl. lia.
    + rewrite lookup_insert_ne by exact Hne. apply Hb.
Qed.

Lemma sweep_lookup (cache : gmap string (list Z)) (now : Z) (ip : string)
    (l : list Z) :
  RateLimiter.sweep cache now !! ip = Some l <->
  exists l0, cache !! ip = Some l0
             /\ l = filter
                      (fun timestamp => now - RateLimiter.window < timestamp)
                      l0
             /\ l <> [].
Proof.
  unfold RateLimiter.sweep. rewrite lookup_omap.
  destruct (cache !! ip) as [l0|]; simpl.
  - destruct (filter _ l0) as [|x k] eqn:E.
    + split; [discriminate|]. intros (l1 & [= <-] & -> & Hne).
      rewrite E in Hne. contradiction.
    + split.
      * intros [= <-]. exists l0. rewrite E. repeat split. discriminate.
      * intros (l1 & [= <-] & -> & _). rewrite E. reflexivity.
  - split; [discriminate|]. intros (l1 & H & _). discriminate H.
Qed.

(** Through a run, no entry grows beyond the capacity. *)
Lemma run_timestamps_bounded (N : Z) (acts : list RateLimiter.action)
    (cache : gmap string (list Z)) (ip : string) :
  0 <= N ->
  (forall ip l, cache !! ip = Some l -> Z.of_nat (length l) <= N) ->
  Z.of_nat
    (length (RateLimiter.timestamps (fst (RateLimiter.run N cache acts)) ip))
  <= N.
Proof.
  intros HN Hb.
  assert (Hrun : forall l,
            fst (RateLimiter.run N cache acts) !! ip = Some l ->
            Z.of_nat (length l) <= N).
  { revert cache Hb. induction acts as [|a acts IH]; intros cache Hb l.
    - apply Hb.
    - cbn [RateLimiter.run].
      destruct a as [now req | now]; cbn [RateLimiter.step].
      + pose proof (middleware_bounded N cache now req Hb) as H1.
        destruct (RateLimiter.middleware N cache now req) as [cache1 o].
        specialize (IH cache1 H1 l).
        destruct (RateLimiter.run N cache1 acts) as [cache2 os]. exact IH.
      + assert (H1 : forall ip l,
                  RateLimiter.sweep cache now !! ip = Some l ->
                  Z.of_nat (length l) <= N).
        { intros ip' l' Hl. apply sweep_lookup in Hl.
          destruct Hl as (l0 & Hl0 & -> & _).
          apply length_filter_Z. eapply Hb. exact Hl0. }
        specialize (IH _ H1 l).
        destruct (RateLimiter.run N (RateLimiter.sweep cache now) acts)
          as [cache2 os]. exact IH. }
  unfold RateLimiter.timestamps.
  destruct (fst (RateLimiter.run N cache acts) !! ip) as [l|];
    [apply Hrun; reflexivity | simpl; lia].
Qed.

(** One pass of the middleware at instant [now], seen through a
    threshold [c] not older than the purge: the entry of every client
    keeps its timestamps above [c], and gains [now] when the request is
    admitted for that client. *)
Lemma middleware_above (N : Z) (cache : gmap string (list Z)) (now : Z)
    (req : RateLimiter.request) (c : Z) (ip : string) :
  now - RateLimiter.window <= c ->
  filter (fun timestamp => c < timestamp)
    (RateLimiter.timestamps (fst (RateLimiter.middleware N cache now req)) ip)
  = filter (fun timestamp => c < timestamp) (RateLimiter.timestamps cache ip)
    ++ RateLimiter.credit ip c now
         (snd (RateLimiter.middleware N cache now req)).
Proof.
  intros Hc. unfold RateLimiter.middleware.
  destruct (N <=? 0); [simpl; rewrite app_nil_r; reflexivity|].
  destruct (RateLimiter.is_static _); [simpl; rewrite app_nil_r; reflexivity|].
  set (ip0 := RateLimiter.clientIp req).
  assert (Hentry :
    forall l,
      match cache !! ip0 with
      | Some l => Some l
      | None => if JS.inherited ip0 then None else Some []
      end = Some l ->
      RateLimiter.timestamps cache ip0 = l).
  { intros l. unfold RateLimiter.timestamps.
    destruct (cache !! ip0); [intros [= ->]; reflexivity|].
    destruct (JS.inherited ip0); [discriminate | intros [= <-]; reflexivity]. }
  destruct (match cache !! ip0 with
            | Some l => Some l
            | None => if JS.inherited ip0 then None else Some []
            end) as [l|] eqn:E;
    [|simpl; rewrite app_nil_r; reflexivity].
  specialize (Hentry l eq_refl).
  destruct (N <=? Z.of_nat (length (filter _ l))); simpl.
  - rewrite app_nil_r. unfold RateLimiter.timestamps in *.
    destruct (decide (ip0 = ip)) as [->|Hne].
    + rewrite lookup_insert_eq. simpl. rewrite Hentry.
      apply filter_after_purge. exact Hc.
    + rewrite lookup_insert_ne by exact Hne. reflexivity.
  - unfold RateLimiter.timestamps in *.
    destruct (String.eqb_spec ip0 ip) as [->|Hne].
    + rewrite lookup_insert_eq. simpl. rewrite Hentry.
      rewrite filter_app, filter_after_purge by exact Hc. reflexivity.
    + rewrite lookup_insert_ne by exact Hne. rewrite app_nil_r. reflexivity.
Qed.

(** A sweep purges every entry, and drops the empty ones. *)
Lemma sweep_timestamps (cache : gmap string (list Z)) (now : Z)
    (ip : string) :
  RateLimiter.timestamps (RateLimiter.sweep cache now) ip
  = filter (fun timestamp => now - RateLimiter.window < timestamp)
      (RateLimiter.timestamps cache ip).
Proof.
  unfold RateLimiter.timestamps, RateLimiter.sweep.
  rewrite lookup_omap. destruct (cache !! ip) as [l|]; simpl; [|reflexivity].
  destruct (filter _ l); reflexivity.
Qed.

(** Over a run none of whose actions is later than [c + window], the
    entry of a client holds, above [c], what it held before and the
    instants at which its requests were admitted. *)
Lemma run_above (N : Z) (acts : list RateLimiter.action)
    (cache : gmap string (list Z)) (c : Z) (ip : string) :
  Forall (fun a => RateLimiter.time_of a - RateLimiter.window <= c) acts ->
  filter (fun timestamp => c < timestamp)
    (RateLimiter.timestamps (fst (RateLimiter.run N cache acts)) ip)
  = filter (fun timestamp => c < timestamp) (RateLimiter.timestamps cache ip)
    ++ filter (fun timestamp => c < timestamp)
         (RateLimiter.admitted ip acts (snd (RateLimiter.run N cache acts))).
Proof.
  intros H. revert cache.
  induction H as [|a acts Ha _ IH]; intros cache.
  - simpl. rewrite app_nil_r. reflexivity.
  - cbn [RateLimiter.run].
    destruct a as [now req | now]; cbn [RateLimiter.step].
    + pose proof (middleware_above N cache now req c ip Ha) as Hm.
      destruct (RateLimiter.middleware N cache now req) as [cache1 o].
      simpl in Hm. specialize (IH cache1).
      destruct (RateLimiter.run N cache1 acts) as [cache2 os].
      simpl in IH |- *. rewrite IH, Hm, <- app_assoc. f_equal.
      unfold RateLimiter.credit.
      destruct o as [[|n1 n2 ip']| |]; try reflexivity.
      destruct (String.eqb ip' ip); [|reflexivity].
      rewrite filter_cons, filter_nil. rewrite filter_cons.
      case_decide; reflexivity.
    + specialize (IH (RateLimiter.sweep cache now)).
      destruct (RateLimiter.run N (RateLimiter.sweep cache now) acts)
        as [cache2 os].
      simpl in IH |- *. rewrite IH, sweep_timestamps.
      rewrite filter_after_purge by exact Ha. reflexivity.
Qed.

(** What the middleware decides for a client whose entry reads [l]. *)
Lemma middleware_decision (N : Z) (cache : gmap string (list Z)) (now : Z)
    (req : RateLimiter.request) (l : list Z) :
  0 < N ->
  RateLimiter.is_static (RateLimiter.path req) = false ->
  (cache !! RateLimiter.clientIp req = Some l
   \/ (cache !! RateLimiter.clientIp req = None /\ l = []
       /\ JS.inherited (RateLimiter.clientIp req) = false)) ->
  let ip := RateLimiter.clientIp req in
  let kept :=
    filter (fun timestamp => now - RateLimiter.window < timestamp) l in
  let count := Z.of_nat (length kept) in
  RateLimiter.middleware N cache now req
  = if N <=? count then
      (<[ip := kept]> cache,
       RateLimiter.TooManyRequests
         ("Rate limit exceeded. Try again in "
            +:+ RateLimiter.show_number
                  ((fun r => RateLimiter.ceil_div (r - now) 60000)
                     <$> ((fun m => m + RateLimiter.window)
                            <$> RateLimiter.Math_min kept))
            +:+ " minutes.")
         ((fun r => RateLimiter.ceil_div (r - now) 60000)
            <$> ((fun m => m + RateLimiter.window)
                   <$> RateLimiter.Math_min kept))
         ((fun m => m + RateLimiter.window) <$> RateLimiter.Math_min kept))
    else
      (<[ip := kept ++ [now]]> cache,
       RateLimiter.Next (RateLimiter.Counted count (N - count) ip)).
Proof.
  intros HN Hs Hl. cbv zeta. unfold RateLimiter.middleware.
  destruct (Z.leb_spec N 0); [lia|]. rewrite Hs.
  destruct Hl as [-> | (-> & -> & ->)]; reflexivity.
Qed.

Lemma timestamps_insert (cache : gmap string (list Z)) (ip : string)
    (l : list Z) :
  RateLimiter.timestamps (<[ip := l]> cache) ip = l.
Proof. unfold RateLimiter.timestamps. rewrite lookup_insert_eq. reflexivity. Qed.

Lemma timestamps_lookup (cache : gmap string (list Z)) (ip : string)
    (o : option (list Z)) :
  cache !! ip = o -> RateLimiter.timestamps cache ip = default [] o.
Proof. intros <-. reflexivity. Qed.

(** C5. With a positive capacity [N], on every admission check (a request
    for a path that is not a static file) the timestamps of the client
    that are not younger than one hour are purged first: those left are
    all later than [now - 3600000], and the request is rejected exactly
    when [N] or more are left. On a server whose cache holds no entry
    longer than [N], the empty cache of a fresh server in particular, a
    client with [N] requests admitted within the hour before [t] is
    answered 429 at [t]: exactly [N] timestamps are left, the reset time
    is one hour after the oldest of them, and the wait is the number of
    minutes from [t] to the reset time rounded up, the least number of
    minutes that covers it, at least one. The client stays rejected, with
    the same reset time, at every instant before the reset time, and is
    admitted again at every instant from the reset time on, the instant
    being recorded. The other clients and the periodic sweeps of the run
    change nothing to this. *)
Theorem rate_limiter_window (N : Z) (cache : gmap string (list Z))
    (acts : list RateLimiter.action) (t : Z)
    (req : RateLimiter.request) :
  0 < N ->
  RateLimiter.is_static (RateLimiter.path req) = false ->
  (forall ip l, cache !! ip = Some l -> Z.of_nat (length l) <= N) ->
  Forall (fun a => RateLimiter.time_of a <= t) acts ->
  let ip := RateLimiter.clientIp req in
  let before := RateLimiter.run N cache acts in
  let check := RateLimiter.middleware N (fst before) t req in
  N <= Z.of_nat
         (length
            (filter (fun timestamp => t - RateLimiter.window < timestamp)
               (RateLimiter.admitted ip acts (snd before)))) ->
  (forall cache0 now req0,
     RateLimiter.is_static (RateLimiter.path req0) = false ->
     let result := RateLimiter.middleware N cache0 now req0 in
     Forall (fun timestamp => now - RateLimiter.window < timestamp)
       (RateLimiter.timestamps (fst result) (RateLimiter.clientIp req0))
     /\ ((exists message wait reset,
            snd result = RateLimiter.TooManyRequests message wait reset)
         <-> N <= Z.of_nat
                    (length
                       (filter
                          (fun timestamp =>
                             now - RateLimiter.window < timestamp)
                          (RateLimiter.timestamps cache0
                             (RateLimiter.clientIp req0))))))
  /\ (exists kept oldest,
        kept = filter (fun timestamp => t - RateLimiter.window < timestamp)
                 (RateLimiter.timestamps (fst before) ip)
        /\ Z.of_nat (length kept) = N
        /\ oldest ∈ kept
        /\ Forall (fun timestamp => oldest <= timestamp) kept
        /\ let reset := oldest + RateLimiter.window in
           let wait := RateLimiter.ceil_div (reset - t) 60000 in
           snd check
           = RateLimiter.TooManyRequests
               ("Rate limit exceeded. Try again in " +:+ pretty wait
                  +:+ " minutes.")
               (Some wait) (Some reset)
           /\ 1 <= wait
           /\ 60000 * (wait - 1) < reset - t <= 60000 * wait
           /\ (forall t', t' < reset ->
                 exists message wait',
                   snd (RateLimiter.middleware N (fst check) t' req)
                   = RateLimiter.TooManyRequests message wait' (Some reset))
           /\ (forall t', reset <= t' ->
                 let again := RateLimiter.middleware N (fst check) t' req in
                 exists left_over,
                   left_over
                   = filter
                       (fun timestamp => t' - RateLimiter.window < timestamp)
                       (RateLimiter.timestamps (fst check) ip)
                   /\ Z.of_nat (length left_over) < N
                   /\ snd again
                      = RateLimiter.Next
                          (RateLimiter.Counted (Z.of_nat (length left_over))
                             (N - Z.of_nat (length left_over)) ip)
                   /\ fst again !! ip = Some (left_over ++ [t']))).
Proof.
  intros HN Hs Hb Ht. cbv zeta. intros Hcount.
  (* the purge and the decision, at any check *)
  assert (Hpurge :
    forall cache0 now req0,
      RateLimiter.is_static (RateLimiter.path req0) = false ->
      Forall (fun timestamp => now - RateLimiter.window < timestamp)
        (RateLimiter.timestamps
           (fst (RateLimiter.middleware N cache0 now req0))
           (RateLimiter.clientIp req0))
      /\ ((exists message wait reset,
             snd (RateLimiter.middleware N cache0 now req0)
             = RateLimiter.TooManyRequests message wait reset)
          <-> N <= Z.of_nat
                     (length
                        (filter
                           (fun timestamp =>
                              now - RateLimiter.window < timestamp)
                           (RateLimiter.timestamps cache0
                              (RateLimiter.clientIp req0)))))).
  { intros cache0 now req0 Hs0.
    destruct (cache0 !! RateLimiter.clientIp req0) as [l|] eqn:E;
      [|destruct (JS.inherited (RateLimiter.clientIp req0)) eqn:Ei].
    - rewrite (middleware_decision N cache0 now req0 l HN Hs0)
        by (left; exact E).
      rewrite (timestamps_lookup cache0 _ _ E). cbn [from_option id].
      destruct (Z.leb_spec N
                  (Z.of_nat (length
                     (filter (fun timestamp =>
                                now - RateLimiter.window < timestamp) l))));
        cbn [fst snd]; rewrite timestamps_insert.
      + split.
        * apply Forall_forall. intros x Hx.
          apply list_elem_of_filter in Hx. tauto.
        * split; [intros _; assumption | intros _; eauto].
      + split.
        * apply Forall_app. split.
          -- apply Forall_forall. intros x Hx.
             apply list_elem_of_filter in Hx. tauto.
          -- repeat constructor. unfold RateLimiter.window. lia.
        * split; [intros (? & ? & ? & ?); discriminate | lia].
    - unfold RateLimiter.middleware.
      destruct (Z.leb_spec N 0); [lia|]. rewrite Hs0, E, Ei. cbn [fst snd].
      rewrite (timestamps_lookup cache0 _ _ E). simpl.
      split; [constructor|].
      split; [intros (? & ? & ? & ?); discriminate | lia].
    - rewrite (middleware_decision N cache0 now req0 [] HN Hs0)
        by (right; repeat split; assumption).
      rewrite (timestamps_lookup cache0 _ _ E).
      cbn [from_option id]. rewrite !filter_nil. cbn [length].
      change (Z.of_nat 0) with 0.
      destruct (Z.leb_spec N 0); [lia|]. cbn [fst snd app].
      rewrite timestamps_insert.
      split; [repeat constructor; unfold RateLimiter.window; lia|].
      split; [intros (? & ? & ? & ?); discriminate | lia]. }
  split; [exact Hpurge|].
  (* the entry of the client after the run *)
  set (ip := RateLimiter.clientIp req) in *.
  set (cache1 := fst (RateLimiter.run N cache acts)) in *.
  set (kept := filter (fun timestamp => t - RateLimiter.window < timestamp)
                 (RateLimiter.timestamps cache1 ip)).
  assert (Hkept : N <= Z.of_nat (length kept)).
  { subst kept cache1.
    rewrite (run_above N acts cache (t - RateLimiter.window) ip).
    - rewrite length_app. lia.
    - eapply Forall_impl; [exact Ht|]. simpl. intros a Ha. lia. }
  assert (Hfull : Z.of_nat (length kept) = N).
  { apply Z.le_antisymm; [|exact Hkept].
    subst kept cache1. apply length_filter_Z.
    apply run_timestamps_bounded; [lia | exact Hb]. }
  assert (Hentry : cache1 !! ip = Some (RateLimiter.timestamps cache1 ip)).
  { unfold RateLimiter.timestamps. subst kept.
    unfold RateLimiter.timestamps in Hkept.
    destruct (cache1 !! ip); [reflexivity|]. cbn in Hkept. lia. }
  assert (Hcheck := middleware_decision N cache1 t req
                      (RateLimiter.timestamps cache1 ip) HN Hs
                      (or_introl Hentry)).
  cbv zeta in Hcheck. fold ip in Hcheck. fold kept in Hcheck.
  destruct (Z.leb_spec N (Z.of_nat (length kept))); [|lia].
  destruct (RateLimiter.Math_min kept) as [oldest|] eqn:Emin.
  2:{ destruct kept; [simpl in Hkept; lia | discriminate Emin]. }
  destruct (Math_min_spec kept oldest Emin) as [Hin Hmin].
  assert (Hyoung : t - RateLimiter.window < oldest).
  { subst kept. apply list_elem_of_filter in Hin. tauto. }
  rewrite Hcheck. cbn [fst snd fmap option_fmap option_map].
  rewrite timestamps_insert.
  exists kept, oldest. split; [reflexivity|].
  split; [exact Hfull|]. split; [exact Hin|]. split; [exact Hmin|].
  split; [reflexivity|].
  split; [apply ceil_div_positive; lia|].
  split; [apply ceil_div_spec|].
  split.
  - (* before the reset time *)
    intros t' Ht'.
    rewrite (middleware_decision N (<[ip:=kept]> cache1) t' req kept HN Hs)
      by (left; apply lookup_insert_eq).
    rewrite (filter_all (fun timestamp => t' - RateLimiter.window < timestamp)
               kept)
      by (eapply Forall_impl; [exact Hmin|]; simpl; intros x Hx; lia).
    destruct (Z.leb_spec N (Z.of_nat (length kept))); [|lia].
    rewrite Emin. cbn [snd fmap option_fmap option_map].
    eexists _, _. reflexivity.
  - (* from the reset time on *)
    intros t' Ht'.
    rewrite (middleware_decision N (<[ip:=kept]> cache1) t' req kept HN Hs)
      by (left; apply lookup_insert_eq).
    fold ip.
    assert (Hless :
      Z.of_nat
        (length
           (filter (fun timestamp => t' - RateLimiter.window < timestamp)
              kept)) < N).
    { assert (Hold : ~ t' - RateLimiter.window < oldest) by lia.
      pose proof (length_filter_lt
                    (fun timestamp => t' - RateLimiter.window < timestamp)
                    kept oldest Hin Hold). lia. }
    destruct (Z.leb_spec N
                (Z.of_nat
                   (length
                      (filter
                         (fun timestamp =>
                            t' - RateLimiter.window < timestamp)
                         kept)))); [lia|].
    cbn [fst snd]. rewrite lookup_insert_eq.
    eexists. split; [reflexivity|]. split; [exact Hless|].
    split; reflexivity.
Qed.

End Window.

(** The theorem at capacity 2 on a fresh server: two requests of client
    1.2.3.4 admitted at instants 0 and 1000, a third one rejected at 2000
    with reset time 3600000 and a wait of 60 minutes; the client is still
    rejected at 3599999 and is admitted at 3600000, where one timestamp is
    left. *)
Lemma rate_limiter_window_witness :
  let N := 2%Z in
  let req := Scenario.client in
  let t := 2000%Z in
  let ip := RateLimiter.clientIp req in
  let before :=
    RateLimiter.run N ∅
      [RateLimiter.Request 0 req; RateLimiter.Request 1000 req] in
  let check := RateLimiter.middleware N (fst before) t req in
  exists kept oldest,
    kept = filter (fun timestamp => (t - RateLimiter.window < timestamp)%Z)
             (RateLimiter.timestamps (fst before) ip)
    /\ Z.of_nat (length kept) = N
    /\ oldest ∈ kept
    /\ Forall (fun timestamp => (oldest <= timestamp)%Z) kept
    /\ let reset := (oldest + RateLimiter.window)%Z in
       let wait := RateLimiter.ceil_div (reset - t) 60000 in
       snd check
       = RateLimiter.TooManyRequests
           ("Rate limit exceeded. Try again in " +:+ pretty wait
              +:+ " minutes.")
           (Some wait) (Some reset)
       /\ (1 <= wait)%Z
       /\ (60000 * (wait - 1) < reset - t <= 60000 * wait)%Z
       /\ (forall t', (t' < reset)%Z ->
             exists message wait',
               snd (RateLimiter.middleware N (fst check) t' req)
               = RateLimiter.TooManyRequests message wait' (Some reset))
       /\ (forall t', (reset <= t')%Z ->
             let again := RateLimiter.middleware N (fst check) t' req in
             exists left_over,
               left_over
               = filter
                   (fun timestamp => (t' - RateLimiter.window < timestamp)%Z)
                   (RateLimiter.timestamps (fst check) ip)
               /\ (Z.of_nat (length left_over) < N)%Z
               /\ snd again
                  = RateLimiter.Next
                      (RateLimiter.Counted (Z.of_nat (length left_over))
                         (N - Z.of_nat (length left_over)) ip)
               /\ fst again !! ip = Some (left_over ++ [t'])).
Proof.
  refine (proj2 (rate_limiter_window 2 ∅
                   [RateLimiter.Request 0 Scenario.client;
                    RateLimiter.Request 1000 Scenario.client]
                   2000 Scenario.client _ _ _ _ _)).
  - lia.
  - reflexivity.
  - intros ip l H. rewrite lookup_empty in H. discriminate H.
  - repeat constructor; simpl; lia.
  - vm_compute. discriminate.
Defined.

(** The same run, evaluated: the fourth request finds one timestamp left
    and is admitted. *)
Example readmitted_after_expiry :
  RateLimiter.run 2 ∅
    [RateLimiter.Request 0 Scenario.client;
     RateLimiter.Request 1000 Scenario.client;
     RateLimiter.Request 2000 Scenario.client;
     RateLimiter.Request 3600500 Scenario.client]
  = ({[ "1.2.3.4" := [1000%Z; 3600500%Z] ]},
     [ Some (RateLimiter.Next (RateLimiter.Counted 0 2 "1.2.3.4"));
       Some (RateLimiter.Next (RateLimiter.Counted 1 1 "1.2.3.4"));
       Some (RateLimiter.TooManyRequests
               "Rate limit exceeded. Try again in 60 minutes."
               (Some 60%Z) (Some 3600000%Z));
       Some (RateLimiter.Next (RateLimiter.Counted 1 1 "1.2.3.4")) ]).
Proof. vm_compute. reflexivity. Qed.

(** The scenario of the specification: capacity 2 and three calls of one
    client within a minute. The first two pass, the third is answered 429
    with a wait of 60 minutes. *)
Example three_calls_within_a_minute :
  snd (RateLimiter.run 2 ∅
         [RateLimiter.Request 0 Scenario.client;
          RateLimiter.Request 20000 Scenario.client;
          RateLimiter.Request 40000 Scenario.client])
  = [ Some (RateLimiter.Next (RateLimiter.Counted 0 2 "1.2.3.4"));
      Some (RateLimiter.Next (RateLimiter.Counted 1 1 "1.2.3.4"));
      Some (RateLimiter.TooManyRequests
              "Rate limit exceeded. Try again in 60 minutes."
              (Some 60%Z) (Some 3600000%Z)) ].
Proof. vm_compute. reflexivity. Qed.

(** Requests for static files are let through without being counted, and
    a client named after a member of [Object.prototype] makes the
    middleware throw. *)
Example static_and_inherited :
  RateLimiter.middleware 1 ∅ 0
    {| RateLimiter.path := "/assets/index.js";
       RateLimiter.x_forwarded_for := None;
       RateLimiter.connection_remoteAddress := None;
       RateLimiter.socket_remoteAddress := None |}
  = (∅, RateLimiter.Next RateLimiter.Unlimited)
  /\ snd (RateLimiter.middleware 1 ∅ 0
            {| RateLimiter.path := "/api/ask-ai";
               RateLimiter.x_forwarded_for := Some "constructor";
               RateLimiter.connection_remoteAddress := None;
               RateLimiter.socket_remoteAddress := None |})
     = RateLimiter.TypeError.
Proof. split; reflexivity. Qed.

(** * Further properties of the gateway *)

(** ** The client of a request *)

Lemma or_else_truthy_r (a b : option string) :
  JS.truthy b = true -> JS.truthy (JS.or_else a b) = true.
Proof.
  intros H. unfold JS.or_else. destruct (JS.truthy a) eqn:E; assumption.
Qed.

Lemma truthy_Some (s : string) : JS.truthy (Some s) = true <-> s <> "".
Proof.
  simpl. destruct (String.eqb_spec s ""); simpl; split; intros; congruence.
Qed.

(** The rate-limiting bucket of a request is never the empty string: it is
    the part of the [x-forwarded-for] header before its first comma when
    that part is not empty; else the connection's remote address when it
    is not empty; else the socket's remote address when it is not empty;
    and ["unknown"] when none of them is usable. *)
Theorem clientIp_never_empty (req : RateLimiter.request) :
  let no_header :=
    RateLimiter.x_forwarded_for req = None
    \/ exists h, RateLimiter.x_forwarded_for req = Some h
                 /\ JS.before_comma h = "" in
  RateLimiter.clientIp req <> ""
  /\ (forall h, RateLimiter.x_forwarded_for req = Some h ->
                JS.before_comma h <> "" ->
                RateLimiter.clientIp req = JS.before_comma h)
  /\ (no_header ->
      forall a, RateLimiter.connection_remoteAddress req = Some a ->
                a <> "" ->
                RateLimiter.clientIp req = a)
  /\ (no_header ->
      JS.truthy (RateLimiter.connection_remoteAddress req) = false ->
      forall a, RateLimiter.socket_remoteAddress req = Some a ->
                a <> "" ->
                RateLimiter.clientIp req = a)
  /\ (no_header ->
      JS.truthy (RateLimiter.connection_remoteAddress req) = false ->
      JS.truthy (RateLimiter.socket_remoteAddress req) = false ->
      RateLimiter.clientIp req = "unknown").
Proof.
  cbv zeta.
  assert (Hheader :
    RateLimiter.x_forwarded_for req = None
    \/ (exists h, RateLimiter.x_forwarded_for req = Some h
                  /\ JS.before_comma h = "") ->
    JS.truthy (JS.before_comma <$> RateLimiter.x_forwarded_for req) = false).
  { intros [-> | (h & -> & Hh)]; [reflexivity|].
    simpl. rewrite Hh. reflexivity. }
  unfold RateLimiter.clientIp. split; [|split; [|split; [|split]]].
  - set (o := JS.or_else _ _).
    assert (H : JS.truthy o = true)
      by (subst o; do 3 apply or_else_truthy_r; reflexivity).
    destruct o as [s|]; [|discriminate H]. simpl.
    apply truthy_Some. exact H.
  - intros h Hh Hne. rewrite Hh. unfold JS.or_else at 1. simpl.
    destruct (String.eqb_spec (JS.before_comma h) ""); [contradiction|].
    reflexivity.
  - intros Hx a Ha Hne. unfold JS.or_else at 1. rewrite (Hheader Hx).
    unfold JS.or_else at 1.
    rewrite Ha, (proj2 (truthy_Some a) Hne). reflexivity.
  - intros Hx Hc a Ha Hne. unfold JS.or_else at 1. rewrite (Hheader Hx).
    unfold JS.or_else at 1. rewrite Hc.
    unfold JS.or_else at 1.
    rewrite Ha, (proj2 (truthy_Some a) Hne). reflexivity.
  - intros Hx Hc Hs.
    unfold JS.or_else. rewrite (Hheader Hx), Hc, Hs. reflexivity.
Qed.

(** A request that comes without the header, over a connection from
    10.0.0.1, is counted under that address. *)
Lemma clientIp_never_empty_witness :
  RateLimiter.clientIp
    {| RateLimiter.path := "/api/ask-ai";
       RateLimiter.x_forwarded_for := None;
       RateLimiter.connection_remoteAddress := Some "10.0.0.1";
       RateLimiter.socket_remoteAddress := Some "10.0.0.1" |}
  = "10.0.0.1".
Proof.
  refine (proj1 (proj2 (proj2 (clientIp_never_empty _))) _ "10.0.0.1" _ _).
  - left. reflexivity.
  - reflexivity.
  - discriminate.
Defined.

(** ** The limiter's cache *)

Section LimiterFacts.

Local Open Scope Z_scope.

(** A request changes at most the entry of its own client: the entry of
    every other client is left as it was, whatever the outcome; and a
    request that is let through without a check (limiter disabled, static
    file) or that makes the middleware throw changes nothing at all. *)
Theorem middleware_other_clients_untouched (N : Z)
    (cache : gmap string (list Z)) (now : Z) (req : RateLimiter.request)
    (ip : string) :
  ip <> RateLimiter.clientIp req ->
  fst (RateLimiter.middleware N cache now req) !! ip = cache !! ip
  /\ (snd (RateLimiter.middleware N cache now req)
      = RateLimiter.Next RateLimiter.Unlimited
      \/ snd (RateLimiter.middleware N cache now req) = RateLimiter.TypeError ->
      fst (RateLimiter.middleware N cache now req) = cache).
Proof.
  intros Hne. unfold RateLimiter.middleware.
  destruct (N <=? 0); [split; reflexivity|].
  destruct (RateLimiter.is_static _); [split; reflexivity|].
  destruct (match cache !! RateLimiter.clientIp req with
            | Some l => Some l
            | None => if JS.inherited (RateLimiter.clientIp req)
                      then None else Some []
            end) as [l|]; [|split; reflexivity].
  destruct (N <=? Z.of_nat (length (filter _ l))); cbn [fst snd];
    (split; [apply lookup_insert_ne; intros E; apply Hne; symmetry; exact E
            | intros [H|H]; discriminate H]).
Qed.

Lemma middleware_other_clients_untouched_witness :
  fst (RateLimiter.middleware 2 {[ "5.6.7.8" := [0] ]} 1000 Scenario.client)
    !! "5.6.7.8"
  = ({[ "5.6.7.8" := [0] ]} : gmap string (list Z)) !! "5.6.7.8"
  /\ (snd (RateLimiter.middleware 2 {[ "5.6.7.8" := [0] ]} 1000
             Scenario.client)
      = RateLimiter.Next RateLimiter.Unlimited
      \/ snd (RateLimiter.middleware 2 {[ "5.6.7.8" := [0] ]} 1000
                Scenario.client) = RateLimiter.TypeError ->
      fst (RateLimiter.middleware 2 {[ "5.6.7.8" := [0] ]} 1000
             Scenario.client) = {[ "5.6.7.8" := [0] ]}).
Proof.
  apply middleware_other_clients_untouched. discriminate.
Defined.

(** Memory bound. A cache none of whose entries holds more than [N]
    timestamps, the empty cache of a fresh server in particular, keeps
    this bound through every run of requests and sweeps at capacity [N]:
    no client ever has more than [N] timestamps recorded. *)
Theorem run_entries_bounded (N : Z) (acts : list RateLimiter.action)
    (cache : gmap string (list Z)) :
  (forall ip l, cache !! ip = Some l -> Z.of_nat (length l) <= N) ->
  forall ip l,
    fst (RateLimiter.run N cache acts) !! ip = Some l ->
    Z.of_nat (length l) <= N.
Proof.
  revert cache. induction acts as [|a acts IH]; intros cache Hb.
  - exact Hb.
  - cbn [RateLimiter.run]. destruct a as [now req | now]; cbn [RateLimiter.step].
    + pose proof (middleware_bounded N cache now req Hb) as H1.
      destruct (RateLimiter.middleware N cache now req) as [cache1 o].
      specialize (IH cache1 H1).
      destruct (RateLimiter.run N cache1 acts) as [cache2 os]. exact IH.
    + assert (H1 : forall ip l, RateLimiter.sweep cache now !! ip = Some l ->
                                Z.of_nat (length l) <= N).
      { intros ip l Hl. apply sweep_lookup in Hl.
        destruct Hl as (l0 & Hl0 & -> & _).
        apply length_filter_Z. eapply Hb. exact Hl0. }
      specialize (IH _ H1).
      destruct (RateLimiter.run N (RateLimiter.sweep cache now) acts)
        as [cache2 os]. exact IH.
Qed.

Lemma run_entries_bounded_witness :
  let acts := [RateLimiter.Request 0 Scenario.client;
               RateLimiter.Request 1000 Scenario.client;
               RateLimiter.Request 2000 Scenario.client;
               RateLimiter.Sweep 3600500;
               RateLimiter.Request 3600500 Scenario.client] in
  fst (RateLimiter.run 2 ∅ acts) !! "1.2.3.4" = Some [1000; 3600500]
  /\ Z.of_nat (length [1000; 3600500]) <= 2.
Proof.
  split; [vm_compute; reflexivity|].
  apply (run_entries_bounded 2
           [RateLimiter.Request 0 Scenario.client;
            RateLimiter.Request 1000 Scenario.client;
            RateLimiter.Request 2000 Scenario.client;
            RateLimiter.Sweep 3600500;
            RateLimiter.Request 3600500 Scenario.client]
           ∅) with (ip := "1.2.3.4").
  - intros ip l H. rewrite lookup_empty in H. discriminate H.
  - vm_compute. reflexivity.
Defined.

End LimiterFacts.

(** ** Rejections, retries and sweeps *)

Section LimiterTiming.

Local Open Scope Z_scope.

Lemma ceil_div_at_most_60 (a : Z) :
  a <= 3600000 -> RateLimiter.ceil_div a 60000 <= 60.
Proof.
  intros H. unfold RateLimiter.ceil_div.
  assert (- 60 <= (- a) / 60000) by (apply Z.div_le_lower_bound; lia).
  lia.
Qed.

(** The shape of every rejection: the entry of the client after the
    purge, [kept], holds at least [N] timestamps, it is what the cache
    records for the client afterwards, and the reset time is one hour
    after its oldest timestamp. *)
Lemma rejection_inversion (N : Z) (cache cache' : gmap string (list Z))
    (now : Z) (req : RateLimiter.request) (message : string)
    (wait reset : option Z) :
  RateLimiter.middleware N cache now req
  = (cache', RateLimiter.TooManyRequests message wait reset) ->
  let ip := RateLimiter.clientIp req in
  let kept := filter (fun timestamp => now - RateLimiter.window < timestamp)
                (RateLimiter.timestamps cache ip) in
  exists oldest,
    0 < N
    /\ RateLimiter.is_static (RateLimiter.path req) = false
    /\ N <= Z.of_nat (length kept)
    /\ cache' = <[ip := kept]> cache
    /\ oldest ∈ kept
    /\ Forall (fun timestamp => oldest <= timestamp) kept
    /\ reset = Some (oldest + RateLimiter.window)
    /\ wait = Some (RateLimiter.ceil_div
                      (oldest + RateLimiter.window - now) 60000)
    /\ message = "Rate limit exceeded. Try again in "
                 +:+ RateLimiter.show_number wait +:+ " minutes.".
Proof.
  cbv zeta. unfold RateLimiter.middleware.
  destruct (Z.leb_spec N 0) as [|HN]; [discriminate|].
  destruct (RateLimiter.is_static _) eqn:Hs; [discriminate|].
  set (ip := RateLimiter.clientIp req).
  destruct (match cache !! ip with
            | Some l => Some l
            | None => if JS.inherited ip then None else Some []
            end) as [l|] eqn:E; [|discriminate].
  assert (Hl : RateLimiter.timestamps cache ip = l).
  { unfold RateLimiter.timestamps. destruct (cache !! ip) as [l1|].
    - injection E as <-. reflexivity.
    - destruct (JS.inherited ip); [discriminate|].
      injection E as <-. reflexivity. }
  rewrite Hl.
  destruct (Z.leb_spec N (Z.of_nat (length
              (filter (fun timestamp => now - RateLimiter.window < timestamp)
                 l)))) as [Hle|Hlt]; [|discriminate].
  destruct (RateLimiter.Math_min (filter _ l)) as [oldest|] eqn:Emin.
  2:{ destruct (filter _ l); [simpl in Hle; lia | discriminate Emin]. }
  destruct (Math_min_spec _ _ Emin) as [Hin Hmin].
  cbn [fmap option_fmap option_map]. intros [= <- <- <- <-].
  exists oldest. repeat split; assumption.
Qed.

(** A rejected client that had no timestamp in the future is told to wait
    between 1 and 60 minutes, and the reset time lies within the coming
    hour. *)
Theorem rejected_wait_bounds (N : Z) (cache cache' : gmap string (list Z))
    (now : Z) (req : RateLimiter.request) (message : string)
    (wait reset : option Z) :
  RateLimiter.middleware N cache now req
  = (cache', RateLimiter.TooManyRequests message wait reset) ->
  Forall (fun timestamp => timestamp <= now)
    (RateLimiter.timestamps cache (RateLimiter.clientIp req)) ->
  exists w r,
    wait = Some w /\ reset = Some r
    /\ 1 <= w <= 60
    /\ now < r <= now + RateLimiter.window
    /\ message = "Rate limit exceeded. Try again in " +:+ pretty w
                 +:+ " minutes.".
Proof.
  intros Hrun Hpast.
  destruct (rejection_inversion _ _ _ _ _ _ _ _ Hrun)
    as (oldest & _ & _ & _ & _ & Hin & _ & -> & -> & ->).
  apply list_elem_of_filter in Hin. destruct Hin as [Hyoung Hin].
  rewrite Forall_forall in Hpast. specialize (Hpast _ Hin).
  unfold RateLimiter.window in *.
  eexists _, _. split; [reflexivity|]. split; [reflexivity|].
  split.
  { split; [apply ceil_div_positive | apply ceil_div_at_most_60]; lia. }
  split; [lia | reflexivity].
Qed.

Lemma rejected_wait_bounds_witness :
  exists w r,
    Some 60 = Some w /\ Some 3600000 = Some r
    /\ 1 <= w <= 60
    /\ 2000 < r <= 2000 + RateLimiter.window
    /\ "Rate limit exceeded. Try again in 60 minutes."
       = "Rate limit exceeded. Try again in " +:+ pretty w +:+ " minutes.".
Proof.
  apply (rejected_wait_bounds 2 {[ "1.2.3.4" := [0; 1000] ]}
           {[ "1.2.3.4" := [0; 1000] ]} 2000 Scenario.client).
  - vm_compute. reflexivity.
  - vm_compute. repeat constructor; discriminate.
Defined.

(** Retrying while limited changes nothing: a client rejected with reset
    time [r] that asks again before [r] is rejected with the same reset
    time, and the cache is left exactly as the first rejection left it. *)
Theorem retry_while_limited_keeps_reset (N : Z)
    (cache cache1 : gmap string (list Z)) (t t2 : Z)
    (req : RateLimiter.request) (message : string) (wait : option Z)
    (r : Z) :
  RateLimiter.middleware N cache t req
  = (cache1, RateLimiter.TooManyRequests message wait (Some r)) ->
  t2 < r ->
  exists message2 wait2,
    RateLimiter.middleware N cache1 t2 req
    = (cache1, RateLimiter.TooManyRequests message2 wait2 (Some r)).
Proof.
  intros Hrun Ht2.
  destruct (rejection_inversion _ _ _ _ _ _ _ _ Hrun)
    as (oldest & HN & Hs & Hle & -> & Hin & Hmin & [= ->] & _ & _).
  set (ip := RateLimiter.clientIp req) in *.
  set (kept := filter _ (RateLimiter.timestamps cache ip)) in *.
  assert (Hsame : filter (fun timestamp => t2 - RateLimiter.window < timestamp)
                    kept = kept).
  { clear -Hmin Ht2. induction Hmin as [|x l Hx _ IH]; [reflexivity|].
    rewrite filter_cons, decide_True by lia. f_equal. exact IH. }
  pose proof (middleware_decision N (<[ip:=kept]> cache) t2 req kept HN Hs
                (or_introl (lookup_insert_eq _ _ _))) as Hd.
  cbv zeta in Hd. fold ip in Hd. rewrite Hsame in Hd.
  destruct (Z.leb_spec N (Z.of_nat (length kept))); [|lia].
  rewrite insert_insert_eq in Hd.
  destruct (RateLimiter.Math_min kept) as [m|] eqn:Emin.
  2:{ destruct kept; [inversion Hin | discriminate Emin]. }
  destruct (Math_min_spec _ _ Emin) as [Hmin_in Hmin_le].
  assert (m = oldest).
  { rewrite Forall_forall in Hmin, Hmin_le.
    pose proof (Hmin _ Hmin_in). pose proof (Hmin_le _ Hin). lia. }
  subst m. cbn [fmap option_fmap option_map] in Hd.
  eexists _, _. exact Hd.
Qed.

Lemma retry_while_limited_keeps_reset_witness :
  exists message2 wait2,
    RateLimiter.middleware 2 {[ "1.2.3.4" := [0; 1000] ]} 1800000
      Scenario.client
    = ({[ "1.2.3.4" := [0; 1000] ]},
       RateLimiter.TooManyRequests message2 wait2 (Some 3600000)).
Proof.
  apply (retry_while_limited_keeps_reset 2 {[ "1.2.3.4" := [0; 1000] ]}
           {[ "1.2.3.4" := [0; 1000] ]} 2000 1800000 Scenario.client
           "Rate limit exceeded. Try again in 60 minutes." (Some 60)).
  - vm_compute. reflexivity.
  - lia.
Defined.

(** After a sweep no client has an empty entry, every timestamp left is
    younger than one hour, each entry is the purge of the entry it had,
    and no entry appears that was not there. *)
Theorem sweep_leaves_live_entries (cache : gmap string (list Z)) (now : Z)
    (ip : string) (l : list Z) :
  RateLimiter.sweep cache now !! ip = Some l ->
  l <> []
  /\ Forall (fun timestamp => now - RateLimiter.window < timestamp) l
  /\ exists l0,
       cache !! ip = Some l0
       /\ l = filter (fun timestamp => now - RateLimiter.window < timestamp)
                l0.
Proof.
  intros H. apply sweep_lookup in H. destruct H as (l0 & Hl0 & -> & Hne).
  split; [exact Hne|]. split.
  - apply Forall_forall. intros x Hx. apply list_elem_of_filter in Hx. tauto.
  - exists l0. split; [exact Hl0 | reflexivity].
Qed.

Lemma sweep_leaves_live_entries_witness :
  [3000000] <> []
  /\ Forall (fun timestamp => 3600500 - RateLimiter.window < timestamp)
       [3000000]
  /\ exists l0,
       ({[ "1.2.3.4" := [0; 3000000]; "5.6.7.8" := [0] ]}
          : gmap string (list Z)) !! "1.2.3.4" = Some l0
       /\ [3000000]
          = filter (fun timestamp => 3600500 - RateLimiter.window < timestamp)
              l0.
Proof.
  apply (sweep_leaves_live_entries
           {[ "1.2.3.4" := [0; 3000000]; "5.6.7.8" := [0] ]} 3600500
           "1.2.3.4").
  vm_compute. reflexivity.
Defined.

(** A sweep never changes what the limiter decides afterwards: for a
    client whose name is not a member of [Object.prototype], a request
    checked after a sweep gets the outcome it would have got without the
    sweep, and leaves the same entry for the client. *)
Theorem sweep_transparent (N : Z) (cache : gmap string (list Z))
    (swept now : Z) (req : RateLimiter.request) :
  swept <= now ->
  JS.inherited (RateLimiter.clientIp req) = false ->
  let ip := RateLimiter.clientIp req in
  snd (RateLimiter.middleware N (RateLimiter.sweep cache swept) now req)
  = snd (RateLimiter.middleware N cache now req)
  /\ (0 < N -> RateLimiter.is_static (RateLimiter.path req) = false ->
      fst (RateLimiter.middleware N (RateLimiter.sweep cache swept) now req)
        !! ip
      = fst (RateLimiter.middleware N cache now req) !! ip).
Proof.
  intros Hle Hin. cbv zeta.
  set (ip := RateLimiter.clientIp req) in *.
  destruct (Z.leb_spec N 0) as [HN|HN].
  { unfold RateLimiter.middleware. destruct (Z.leb_spec N 0); [|lia].
    split; [reflexivity | lia]. }
  destruct (RateLimiter.is_static (RateLimiter.path req)) eqn:Hs.
  { unfold RateLimiter.middleware. destruct (Z.leb_spec N 0); [lia|].
    rewrite Hs. split; [reflexivity | discriminate]. }
  set (l := RateLimiter.timestamps cache ip).
  assert (H1 : cache !! ip = Some l \/ (cache !! ip = None /\ l = []
                                        /\ JS.inherited ip = false)).
  { subst l. unfold RateLimiter.timestamps.
    destruct (cache !! ip); [left; reflexivity|].
    right. repeat split. exact Hin. }
  set (l' := RateLimiter.timestamps (RateLimiter.sweep cache swept) ip).
  assert (H2 : RateLimiter.sweep cache swept !! ip = Some l'
               \/ (RateLimiter.sweep cache swept !! ip = None /\ l' = []
                   /\ JS.inherited ip = false)).
  { subst l'. unfold RateLimiter.timestamps.
    destruct (RateLimiter.sweep cache swept !! ip); [left; reflexivity|].
    right. repeat split. exact Hin. }
  assert (Hl' : filter (fun timestamp => now - RateLimiter.window < timestamp) l'
                = filter (fun timestamp => now - RateLimiter.window < timestamp)
                    l).
  { subst l' l. rewrite sweep_timestamps.
    apply filter_after_purge. lia. }
  rewrite (middleware_decision N _ now req l' HN Hs H2).
  rewrite (middleware_decision N cache now req l HN Hs H1).
  fold ip. rewrite Hl'.
  destruct (N <=? _); cbn [fst snd]; rewrite !lookup_insert_eq;
    split; reflexivity.
Qed.

Lemma sweep_transparent_witness :
  snd (RateLimiter.middleware 2
         (RateLimiter.sweep {[ "1.2.3.4" := [0; 1000] ]} 3600500)
         3600600 Scenario.client)
  = snd (RateLimiter.middleware 2 {[ "1.2.3.4" := [0; 1000] ]} 3600600
           Scenario.client)
  /\ (0 < 2 -> RateLimiter.is_static (RateLimiter.path Scenario.client) = false ->
      fst (RateLimiter.middleware 2
             (RateLimiter.sweep {[ "1.2.3.4" := [0; 1000] ]} 3600500)
             3600600 Scenario.client) !! "1.2.3.4"
      = fst (RateLimiter.middleware 2 {[ "1.2.3.4" := [0; 1000] ]} 3600600
               Scenario.client) !! "1.2.3.4").
Proof.
  apply (sweep_transparent 2 {[ "1.2.3.4" := [0; 1000] ]} 3600500 3600600
           Scenario.client).
  - lia.
  - reflexivity.
Defined.

(** How the limiter is switched off. The start-up constant is zero or
    less exactly when [IP_RATE_LIMIT] parses to a negative number (it is
    never zero); and the middleware lets a request through unchecked
    exactly when the constant is negative or the path is a static file. *)
Theorem limiter_disabled_iff_negative
    (parseFloat : option string -> option Q) (env : gmap string string) :
  let limit := Env.IP_RATE_LIMIT (Env.load parseFloat env) in
  (limit <= 0 <->
   exists n, JS.parseInt (env !! "IP_RATE_LIMIT") = Some n /\ n < 0)
  /\ (forall cache now req,
        snd (RateLimiter.middleware limit cache now req)
        = RateLimiter.Next RateLimiter.Unlimited
        <-> limit < 0
            \/ RateLimiter.is_static (RateLimiter.path req) = true).
Proof.
  cbv zeta. pose proof (IP_RATE_LIMIT_never_zero parseFloat env) as Hnz.
  split.
  - revert Hnz. unfold Env.load, JS.num_or. simpl.
    destruct (JS.parseInt (env !! "IP_RATE_LIMIT")) as [v|].
    + destruct (Z.eqb_spec v 0) as [Hv|Hv]; intros Hz.
      * split; [lia|]. intros (n & [= <-] & Hn). lia.
      * split; [intros H; exists v; split; [reflexivity | lia]|].
        intros (n & [= <-] & Hn). lia.
    + intros _. split; [lia|]. intros (n & H & _). discriminate H.
  - intros cache now req. unfold RateLimiter.middleware.
    destruct (Z.leb_spec (Env.IP_RATE_LIMIT (Env.load parseFloat env)) 0).
    + split; [intros _; left; lia | reflexivity].
    + destruct (RateLimiter.is_static _).
      * split; [intros _; right; reflexivity | reflexivity].
      * split.
        -- destruct (match cache !! _ with Some _ => _ | None => _ end);
             [destruct (_ <=? _)|]; discriminate.
        -- intros [H'|H']; [lia | discriminate].
Qed.

End LimiterTiming.

(** ** The candidate list *)

Lemma registry_keys_NoDup : List.NoDup Registry.keys.
Proof.
  unfold Registry.keys. simpl.
  repeat (constructor; [simpl; intuition discriminate|]). constructor.
Qed.

Lemma providersToTry_NoDup (env : gmap string string)
    (requested : option string) :
  NoDup (Gateway.providersToTry env requested).
Proof.
  unfold Gateway.providersToTry.
  set (others := List.filter _ Registry.keys).
  assert (Hnd : List.NoDup others)
    by (apply List.NoDup_filter, registry_keys_NoDup).
  assert (Hnot : forall k, requested = Some k -> ~ In k others).
  { intros k Hr Hk. apply filter_In in Hk. destruct Hk as [_ Hc].
    apply andb_true_iff in Hc. destruct Hc as [Hc _].
    apply negb_true_iff, bool_decide_eq_false in Hc. contradiction. }
  apply NoDup_ListNoDup.
  destruct requested as [k|]; [|exact Hnd].
  destruct (_ && _); [|exact Hnd].
  cbn [app]. constructor; [apply Hnot; reflexivity | exact Hnd].
Qed.

(** The candidates of a request hold no provider twice; apart from the
    requested provider, which comes first when the registry reads
    something for it, they are the registry entries whose API key is set,
    all of them, in declaration order. *)
Theorem providersToTry_shape (env : gmap string string)
    (requested : option string) :
  let candidates := Gateway.providersToTry env requested in
  NoDup candidates
  /\ (forall k, In k candidates ->
        requested = Some k
        \/ (In k Registry.keys /\ Env.configured env k = true))
  /\ (forall k, In k Registry.keys -> Env.configured env k = true ->
        In k candidates)
  /\ (forall k, requested = Some k -> k <> "" ->
        is_Some (Registry.get k) -> head candidates = Some k)
  /\ (exists others,
        (candidates = others
         \/ exists k, requested = Some k /\ candidates = k :: others)
        /\ others `sublist_of` Registry.keys).
Proof.
  cbv zeta. unfold Gateway.providersToTry.
  set (others := List.filter _ Registry.keys).
  assert (Hothers : forall k, In k others ->
            requested <> Some k /\ In k Registry.keys
            /\ Env.configured env k = true).
  { intros k Hk. apply filter_In in Hk. destruct Hk as [Hk Hc].
    apply andb_true_iff in Hc. destruct Hc as [Hr Hc].
    apply negb_true_iff, bool_decide_eq_false in Hr. tauto. }
  assert (Hnd : List.NoDup others)
    by (apply List.NoDup_filter, registry_keys_NoDup).
  assert (Hsub : others `sublist_of` Registry.keys).
  { subst others. generalize Registry.keys. induction l as [|x l IH]; simpl.
    - constructor.
    - destruct (_ && _); [apply sublist_skip | apply sublist_cons]; exact IH. }
  set (first := match requested with
                | Some k => if JS.truthy requested
                               && bool_decide (is_Some (Registry.get k))
                            then [k] else []
                | None => []
                end).
  assert (Hfirst : first = []
                   \/ exists k, requested = Some k /\ first = [k]
                                /\ k <> "" /\ is_Some (Registry.get k)).
  { subst first. destruct requested as [k|]; [|left; reflexivity].
    destruct (JS.truthy (Some k)) eqn:Ht; [|left; reflexivity].
    destruct (bool_decide_reflect (is_Some (Registry.get k)));
      [|left; reflexivity].
    right. exists k. repeat split; try assumption.
    apply truthy_Some. exact Ht. }
  repeat split.
  - apply NoDup_ListNoDup.
    destruct Hfirst as [-> | (k & Hk & -> & _)]; simpl; [exact Hnd|].
    constructor; [|exact Hnd].
    intros Hin. apply Hothers in Hin. tauto.
  - intros k Hin. apply in_app_or in Hin. destruct Hin as [Hin|Hin].
    + destruct Hfirst as [E | (k' & Hk & E & _)]; rewrite E in Hin;
        [destruct Hin|].
      destruct Hin as [<-|[]]. left. exact Hk.
    + right. apply Hothers in Hin. tauto.
  - intros k Hk Hc.
    destruct (decide (requested = Some k)) as [Hr|Hr].
    + apply in_or_app. left. subst first. rewrite Hr.
      assert (Hget : is_Some (Registry.get k)).
      { pose proof registry_keys_known as H. rewrite Forall_forall in H.
        apply H, list_elem_of_In. exact Hk. }
      assert (Ht : JS.truthy (Some k) = true).
      { apply truthy_Some. intros ->. destruct Hk as [H|[H|[H|[H|[H|[H|[]]]]]]];
          discriminate H. }
      rewrite Ht, bool_decide_eq_true_2 by exact Hget. left. reflexivity.
    + apply in_or_app. right. apply filter_In. split; [exact Hk|].
      rewrite Hc, bool_decide_eq_false_2 by exact Hr. reflexivity.
  - intros k Hr Hne Hget. subst first. rewrite Hr.
    assert (Ht : JS.truthy (Some k) = true) by (apply truthy_Some; exact Hne).
    rewrite Ht, bool_decide_eq_true_2 by exact Hget. reflexivity.
  - exists others. split; [|exact Hsub].
    destruct Hfirst as [-> | (k & Hk & -> & _)];
      [left; reflexivity | right; exists k; split; [exact Hk | reflexivity]].
Qed.

(** ** What the handler may call *)

Lemma answer_of_not_blank (W : Gateway.World) (e : Gateway.event)
    (text : string) (tokens : Z) :
  Trace.answer_of W e = Some (text, tokens) -> JS.blank (Some text) = false.
Proof.
  destruct e as [s|s1 s2 s3|k req|k m msgs o]; simpl; try discriminate.
  - destruct (Gateway.fetch W req) as [?|? ? ?|content total];
      try discriminate.
    destruct (JS.blank content) eqn:E; [discriminate|].
    intros [= <- _]. destruct content as [c|]; [exact E | discriminate E].
  - destruct (Gemini.generateResponse _ _ _ _) as [t n| |]; try discriminate.
    destruct (JS.blank (Some t)) eqn:E; [discriminate|].
    intros [= <- _]. exact E.
Qed.

Section AskAiFacts.

Variable W : Gateway.World.
Variable env : gmap string string.
Variable supabase : option Store.Supabase.
Variable r : Gateway.AskAi.

Let candidates := Gateway.providersToTry env (Gateway.requestedProvider r).
Let msgs := Gateway.compose W r (Trace.history_for supabase r).

(** The three ways the handler ends: the prompt is refused, there is no
    candidate, or the loop runs. *)
Lemma ask_ai_cases :
  (JS.blank (Gateway.prompt r) = true
   /\ Gateway.ask_ai W env supabase r
      = ({| Gateway.status := 400;
            Gateway.body := Gateway.Message "Missing or empty prompt" |}, []))
  \/ (JS.blank (Gateway.prompt r) = false /\ candidates = []
      /\ Gateway.ask_ai W env supabase r
         = ({| Gateway.status := 500;
               Gateway.body :=
                 Gateway.Message
                   "No AI providers configured with API keys" |}, []))
  \/ (JS.blank (Gateway.prompt r) = false /\ candidates <> []).
Proof.
  destruct (JS.blank (Gateway.prompt r)) eqn:Hp.
  - left. split; [reflexivity|]. unfold Gateway.ask_ai. rewrite Hp.
    reflexivity.
  - right. destruct (decide (candidates = [])) as [Hc|Hc].
    + left. repeat split; [exact Hc|]. unfold Gateway.ask_ai. rewrite Hp.
      fold candidates. rewrite bool_decide_eq_true_2 by exact Hc. reflexivity.
    + right. split; [reflexivity | exact Hc].
Qed.

(** The trace of a run of the loop: the store calls before it, the
    adapter calls, and the store call after an answer. *)
Lemma ask_ai_trace :
  JS.blank (Gateway.prompt r) = false ->
  candidates <> [] ->
  exists calls tail,
    snd (Gateway.ask_ai W env supabase r)
    = Trace.prelude supabase r ++ calls ++ tail
    /\ Forall (Trace.resolved W env r msgs) calls
    /\ Trace.invoked calls
       `prefix_of` List.filter (Env.configured env) candidates
    /\ (tail = [] \/ exists text, tail = Trace.epilogue supabase r text).
Proof.
  intros Hp Hc.
  destruct (ask_ai_spec W env supabase r Hp Hc) as (calls & Hres & Hpre & Hcase).
  destruct Hcase as [(err & Hrun & _)
                    |(before & e & text & tokens & k & c & _ & _ & _ & _ & _
                      & Hrun)]; rewrite Hrun; cbn [snd].
  - exists calls, []. rewrite app_nil_r. repeat split; try assumption.
    left. reflexivity.
  - exists calls, (Trace.epilogue supabase r text).
    repeat split; try assumption. right. exists text. reflexivity.
Qed.

End AskAiFacts.

(** No provider is called twice for one request, and none is called
    unless its API key is set: the providers whose adapter is invoked are
    distinct and all configured. *)
Theorem ask_ai_invokes_configured_once
    (W : Gateway.World) (env : gmap string string)
    (supabase : option Store.Supabase) (r : Gateway.AskAi) :
  let invoked := Trace.invoked (snd (Gateway.ask_ai W env supabase r)) in
  NoDup invoked
  /\ (forall k, In k invoked -> Env.configured env k = true)
  /\ (forall k, In k invoked ->
        In k (Gateway.providersToTry env (Gateway.requestedProvider r))).
Proof.
  cbv zeta.
  destruct (ask_ai_cases W env supabase r)
    as [[_ ->] | [(_ & _ & ->) | [Hp Hc]]];
    try (simpl; repeat split; [constructor | intros k [] | intros k []]).
  destruct (ask_ai_trace W env supabase r Hp Hc)
    as (calls & tail & -> & _ & Hpre & Htail).
  assert (Hinv : Trace.invoked (Trace.prelude supabase r ++ calls ++ tail)
                 = Trace.invoked calls).
  { rewrite !invoked_app, invoked_prelude.
    destruct Htail as [-> | [text ->]];
      [|rewrite invoked_epilogue]; rewrite app_nil_r; reflexivity. }
  rewrite Hinv.
  pose proof (providersToTry_NoDup env (Gateway.requestedProvider r)) as Hnd.
  destruct Hpre as [rest Hrest].
  assert (Hin : forall k, In k (Trace.invoked calls) ->
            In k (List.filter (Env.configured env)
                    (Gateway.providersToTry env (Gateway.requestedProvider r)))).
  { intros k Hk. rewrite Hrest. apply in_or_app. left. exact Hk. }
  repeat split.
  - apply NoDup_ListNoDup in Hnd.
    apply (List.NoDup_filter (Env.configured env)) in Hnd.
    rewrite Hrest in Hnd. apply NoDup_ListNoDup.
    apply List.NoDup_app_remove_r in Hnd. exact Hnd.
  - intros k Hk. apply Hin, filter_In in Hk. tauto.
  - intros k Hk. apply Hin, filter_In in Hk. tauto.
Qed.

(** A 200 response always carries an answer that is not blank, the one
    the last adapter call received; and the handler answers 200 for no
    other reason. *)
Theorem ask_ai_success_not_blank
    (W : Gateway.World) (env : gmap string string)
    (supabase : option Store.Supabase) (r : Gateway.AskAi) :
  Gateway.status (fst (Gateway.ask_ai W env supabase r)) = 200%Z ->
  exists text model provider tokens e,
    Gateway.body (fst (Gateway.ask_ai W env supabase r))
    = Gateway.Answer text model provider tokens
    /\ JS.trim text <> ""
    /\ last (Trace.calls (snd (Gateway.ask_ai W env supabase r))) = Some e
    /\ Trace.answer_of W e = Some (text, tokens)
    /\ Trace.model_of e = model.
Proof.
  destruct (ask_ai_cases W env supabase r)
    as [[_ ->] | [(_ & _ & ->) | [Hp Hc]]]; try discriminate.
  destruct (ask_ai_spec W env supabase r Hp Hc) as (calls & Hres & _ & Hcase).
  destruct (resolved_is_call _ _ _ _ _ Hres) as [Hcalls _].
  destruct Hcase as [(err & -> & _)
                    |(before & e & text & tokens & k & c & Hsplit & _ & Ha
                      & _ & _ & ->)]; [discriminate|].
  intros _. exists text, (Trace.model_of e), (Registry.name c), tokens, e.
  cbn [fst snd Gateway.body]. repeat split.
  - pose proof (answer_of_not_blank W e text tokens Ha) as Hb.
    unfold JS.blank in Hb. simpl in Hb.
    destruct (String.eqb_spec (JS.trim text) ""); [discriminate Hb | assumption].
  - rewrite !calls_app, Hcalls.
    assert (E1 : Trace.calls (Trace.prelude supabase r) = []).
    { unfold Trace.prelude. destruct (Trace.remembers _ _); reflexivity. }
    assert (E2 : Trace.calls (Trace.epilogue supabase r text) = []).
    { unfold Trace.epilogue. destruct (Trace.remembers _ _); reflexivity. }
    rewrite E1, E2, app_nil_r. simpl. rewrite Hsplit. apply last_snoc.
  - exact Ha.
Qed.

Lemma ask_ai_success_not_blank_witness :
  exists text model provider tokens e,
    Gateway.body
      (fst (Gateway.ask_ai Scenario.world Scenario.openai_and_groq None
              (Scenario.request (Some "hi"))))
    = Gateway.Answer text model provider tokens
    /\ JS.trim text <> ""
    /\ last (Trace.calls
               (snd (Gateway.ask_ai Scenario.world Scenario.openai_and_groq
                       None (Scenario.request (Some "hi"))))) = Some e
    /\ Trace.answer_of Scenario.world e = Some (text, tokens)
    /\ Trace.model_of e = model.
Proof.
  apply ask_ai_success_not_blank. vm_compute. reflexivity.
Defined.

(** ** The calls on the wire *)

Section Wire.

Variable W : Gateway.World.
Variable env : gmap string string.
Variable supabase : option Store.Supabase.
Variable r : Gateway.AskAi.

Lemma callProvider_wired (msgs : list Message.t) (k : string)
    (c : Registry.ProviderConfig) (key : string) :
  Registry.get k = Some c ->
  Env.read env (Registry.apiKeyEnv c) = Some key ->
  key <> "" ->
  Forall (Wire.wired env)
    (snd (Gateway.callProvider W env r msgs k c key)).
Proof.
  intros Hget Hkey Hne. unfold Gateway.callProvider.
  destruct (String.eqb_spec k "gemini") as [->|Hk]; simpl.
  - repeat constructor.
  - constructor; [|constructor]. simpl. split; [exact Hk|].
    exists c, key. repeat split; try assumption.
    intros Ho. destruct (String.eqb_spec k "openrouter");
      [contradiction | reflexivity].
Qed.

Lemma attempt_wired (msgs : list Message.t) (all keys : list string)
    (lastError : option string) :
  Forall (Wire.wired env)
    (snd (Gateway.attempt W env supabase r msgs all keys lastError)).
Proof.
  revert lastError. induction keys as [|k rest IH]; intros lastError.
  - constructor.
  - cbn [Gateway.attempt].
    destruct (Registry.get k) as [c|] eqn:Hget; [|constructor].
    destruct (Env.read env (Registry.apiKeyEnv c)) as [key|] eqn:Hkey;
      [|apply IH].
    destruct (JS.truthy (Some key)) eqn:Ht; cbn [negb]; [|apply IH].
    pose proof (callProvider_wired msgs k c key Hget Hkey
                  (proj1 (truthy_Some key) Ht)) as Hcall.
    cbn [default from_option id].
    destruct (Gateway.callProvider W env r msgs k c key) as [res tr].
    rewrite bind_pair. cbn [snd] in Hcall |- *.
    apply Forall_app. split; [exact Hcall|].
    destruct res as [[text tokens]|err]; [|apply IH].
    unfold Gateway.bind, Gateway.ret, Gateway.saveMessage, Gateway.tell.
    destruct (JS.truthy (Gateway.sessionId r) && _); [|constructor].
    destruct supabase; repeat constructor.
Qed.

End Wire.

(** The OpenAI-style calls of /api/ask-ai go to the provider's base URL
    followed by [/chat/completions], carry the provider's API key as
    bearer token and a timeout of 120 seconds, and add the OpenRouter
    title header and sampling fields for OpenRouter only; they are never
    made for Gemini, and the Gemini adapter is used for Gemini only. *)
Theorem ask_ai_calls_wired
    (W : Gateway.World) (env : gmap string string)
    (supabase : option Store.Supabase) (r : Gateway.AskAi) :
  (forall k req,
     In (Gateway.Fetch k req) (snd (Gateway.ask_ai W env supabase r)) ->
     k <> "gemini"
     /\ exists c key,
          Registry.get k = Some c
          /\ Env.read env (Registry.apiKeyEnv c) = Some key
          /\ key <> ""
          /\ Gateway.url req
             = JS.template (Registry.baseUrl c) +:+ "/chat/completions"
          /\ Gateway.authorization req = "Bearer " +:+ key
          /\ Gateway.timeout req = 120000%Z
          /\ Gateway.openrouter_sampling req = String.eqb k "openrouter"
          /\ (Gateway.x_title req
              = if String.eqb k "openrouter" then Some "DeepSite 2.0"
                else None)
          /\ (k <> "openrouter" -> Gateway.http_referer req = None))
  /\ (forall k m msgs o,
        In (Gateway.GeminiGenerate k m msgs o)
           (snd (Gateway.ask_ai W env supabase r)) ->
        k = "gemini").
Proof.
  assert (H : Forall (Wire.wired env)
                (snd (Gateway.ask_ai W env supabase r))).
  { destruct (ask_ai_cases W env supabase r)
      as [[_ ->] | [(_ & _ & ->) | [Hp Hc]]]; try constructor.
    rewrite (ask_ai_unfold W env supabase r Hp Hc). cbn [snd].
    apply Forall_app. split; [|apply attempt_wired].
    unfold Trace.prelude. destruct (Trace.remembers _ _); repeat constructor. }
  rewrite Forall_forall in H. split.
  - intros k req Hin. apply list_elem_of_In in Hin. exact (H _ Hin).
  - intros k m msgs o Hin. apply list_elem_of_In in Hin. exact (H _ Hin).
Qed.

(** ** The conversation sent to the adapters *)

(** Without a store, or without a session id, the handler is stateless:
    it reads and writes no chat turn, its only outside calls are adapter
    calls, and each of them is given the system message and the user
    prompt, nothing else. *)
Theorem ask_ai_stateless_without_store
    (W : Gateway.World) (env : gmap string string)
    (supabase : option Store.Supabase) (r : Gateway.AskAi) :
  supabase = None \/ JS.truthy (Gateway.sessionId r) = false ->
  let tr := snd (Gateway.ask_ai W env supabase r) in
  Trace.saved tr = []
  /\ Trace.calls tr = tr
  /\ Forall (fun e =>
               Trace.messages_of e
               = [ Gateway.systemMessage W r;
                   {| Message.role := "user";
                      Message.content := default "" (Gateway.prompt r) |} ])
       tr.
Proof.
  intros Hno. cbv zeta.
  assert (Hrem : Trace.remembers supabase r = false).
  { unfold Trace.remembers. destruct Hno as [-> | ->];
      [apply andb_false_r | reflexivity]. }
  destruct (ask_ai_cases W env supabase r)
    as [[_ ->] | [(_ & _ & ->) | [Hp Hc]]];
    try (repeat split; constructor).
  destruct (ask_ai_trace W env supabase r Hp Hc)
    as (calls & tail & -> & Hres & _ & Htail).
  assert (Ht : tail = []).
  { destruct Htail as [-> | [text ->]]; [reflexivity|].
    unfold Trace.epilogue. rewrite Hrem. reflexivity. }
  subst tail. unfold Trace.prelude. rewrite Hrem. rewrite app_nil_r. simpl.
  destruct (resolved_is_call _ _ _ _ _ Hres) as [Hcalls Hsaved].
  repeat split; [exact Hsaved | exact Hcalls |].
  eapply Forall_impl; [exact Hres|]. simpl.
  intros e (k & c & _ & _ & _ & _ & _ & _ & ->).
  unfold Trace.history_for. rewrite Hrem. reflexivity.
Qed.

Lemma ask_ai_stateless_without_store_witness :
  let r := Scenario.with_session "s" (Scenario.request (Some "hi")) in
  let tr := snd (Gateway.ask_ai Scenario.world Scenario.groq_only None r) in
  Trace.saved tr = []
  /\ Trace.calls tr = tr
  /\ Forall (fun e =>
               Trace.messages_of e
               = [ Gateway.systemMessage Scenario.world r;
                   {| Message.role := "user";
                      Message.content := default "" (Gateway.prompt r) |} ])
       tr.
Proof.
  apply (ask_ai_stateless_without_store Scenario.world Scenario.groq_only None
           (Scenario.with_session "s" (Scenario.request (Some "hi")))).
  left. reflexivity.
Defined.

(** Every adapter call of a request is given the same conversation: the
    system message first, then the stored turns of the session, then the
    user prompt as written. The stored turns are those [getChatHistory]
    returns for the session of the request when there is a store and a
    session id, and none otherwise; they are at most fifty, oldest first,
    all of that session. The conversation holds at most 52 messages. *)
Theorem ask_ai_conversation_shape
    (W : Gateway.World) (env : gmap string string)
    (supabase : option Store.Supabase) (r : Gateway.AskAi)
    (e : Gateway.event) :
  In e (snd (Gateway.ask_ai W env supabase r)) ->
  is_Some (Trace.provider_of e) ->
  let history := Trace.history_for supabase r in
  Trace.messages_of e
  = Gateway.systemMessage W r
    :: map (fun row => {| Message.role := Store.role row;
                          Message.content := Store.content row |}) history
    ++ [ {| Message.role := "user";
            Message.content := default "" (Gateway.prompt r) |} ]
  /\ (forall sid db,
        Gateway.sessionId r = Some sid -> sid <> "" -> supabase = Some db ->
        history = Store.getChatHistory (Some db) sid)
  /\ (JS.truthy (Gateway.sessionId r) = false \/ supabase = None ->
      history = [])
  /\ length history <= 50
  /\ StronglySorted Store.older history
  /\ Forall (fun row => Store.session_id row
                        = default "" (Gateway.sessionId r)) history
  /\ length (Trace.messages_of e) <= 52.
Proof.
  intros Hin Hcall. cbv zeta.
  destruct (ask_ai_calls_resolved W env supabase r e Hin Hcall)
    as (k & c & _ & _ & _ & _ & _ & _ & Hm).
  assert (Hlen : length (Trace.history_for supabase r) <= 50).
  { unfold Trace.history_for. destruct (Trace.remembers _ _);
      [apply getChatHistory_length | simpl; lia]. }
  split; [exact Hm|]. split; [|split; [|split; [|split; [|split]]]].
  - intros sid db Hsid Hne ->. unfold Trace.history_for, Trace.remembers.
    rewrite Hsid, (proj2 (truthy_Some sid) Hne).
    rewrite bool_decide_eq_true_2 by (eexists; reflexivity). reflexivity.
  - intros [Hs | ->]; unfold Trace.history_for, Trace.remembers.
    + rewrite Hs. reflexivity.
    + rewrite bool_decide_eq_false_2 by (intros [? H]; discriminate H).
      rewrite andb_false_r. reflexivity.
  - exact Hlen.
  - unfold Trace.history_for. destruct (Trace.remembers _ _);
      [apply getChatHistory_sorted | constructor].
  - unfold Trace.history_for. destruct (Trace.remembers _ _);
      [|constructor].
    apply Forall_forall. intros row Hrow.
    eapply getChatHistory_session. exact Hrow.
  - rewrite Hm. unfold Gateway.compose. simpl.
    rewrite length_app, length_map. simpl. lia.
Qed.

(** A session with three stored turns: the call to Groq is given the
    system message, the three turns as the store returns them, and the
    prompt. *)
Lemma ask_ai_conversation_shape_witness :
  let r := Scenario.with_session "s" (Scenario.request (Some "hi")) in
  let db := {| Store.chat_messages := Scenario.turns 3;
               Store.available := true |} in
  let e := nth 2 (snd (Gateway.ask_ai Scenario.world Scenario.groq_only
                         (Some db) r))
             (Gateway.GetChatHistory "") in
  Trace.messages_of e
  = Gateway.systemMessage Scenario.world r
    :: map (fun row => {| Message.role := Store.role row;
                          Message.content := Store.content row |})
         (Store.getChatHistory (Some db) "s")
    ++ [ {| Message.role := "user"; Message.content := "hi" |} ]
  /\ length (Store.getChatHistory (Some db) "s") = 3.
Proof.
  intros r db e.
  destruct (ask_ai_conversation_shape Scenario.world Scenario.groq_only
              (Some db) r e) as (Hm & Hs & _).
  - vm_compute. right. right. left. reflexivity.
  - vm_compute. eexists. reflexivity.
  - rewrite <- (Hs "s" db eq_refl ltac:(discriminate) eq_refl).
    split; [exact Hm | reflexivity].
Defined.

(** ** The system message *)

Lemma append_cons (c : ascii) (a b : string) :
  String c a +:+ b = String c (a +:+ b).
Proof. reflexivity. Qed.

Lemma append_assoc' (a b c : string) : (a +:+ b) +:+ c = a +:+ (b +:+ c).
Proof.
  induction a as [|x a IH]; [reflexivity|].
  rewrite !append_cons, IH. reflexivity.
Qed.

Lemma append_not_empty_r (a b : string) : b <> "" -> a +:+ b <> "".
Proof.
  intros Hb. destruct a as [|x a]; [exact Hb|].
  rewrite append_cons. discriminate.
Qed.

Lemma prefix_app (n t : string) : String.prefix n (n +:+ t) = true.
Proof.
  induction n as [|c n IH]; [destruct t; reflexivity|].
  rewrite append_cons. simpl. destruct (ascii_dec c c); [exact IH | congruence].
Qed.

Lemma includes_prefix (h n : string) :
  String.prefix n h = true -> JS.includes h n = true.
Proof. intros H. destruct h; cbn [JS.includes]; rewrite H; reflexivity. Qed.

Lemma includes_app_r (h t n : string) :
  JS.includes t n = true -> JS.includes (h +:+ t) n = true.
Proof.
  intros H. induction h as [|c h IH]; [exact H|].
  rewrite append_cons. cbn [JS.includes]. rewrite IH. apply orb_true_r.
Qed.

Lemma includes_middle (a b c : string) :
  JS.includes (a +:+ b +:+ c) b = true.
Proof. apply includes_app_r, includes_prefix, prefix_app. Qed.

Lemma includes_end (a b : string) : JS.includes (a +:+ b) b = true.
Proof.
  apply includes_app_r, includes_prefix.
  rewrite <- (prefix_app b ""). f_equal.
  induction b as [|c b IH]; [reflexivity|].
  rewrite append_cons, <- IH. reflexivity.
Qed.

(** The system message of a request ends with the fixed full-stack
    instruction. *)
Lemma systemMessage_ends_with_instruction (W : Gateway.World)
    (r : Gateway.AskAi) :
  exists before,
    Message.content (Gateway.systemMessage W r)
    = before +:+ Gateway.FULL_STACK_SYSTEM_PROMPT.
Proof.
  unfold Gateway.systemMessage. cbn [Message.content].
  set (sp := match Gateway.templateId r with
             | Some id => _
             | None => _
             end).
  assert (Hsp : exists z, sp = z +:+ Gateway.FULL_STACK_SYSTEM_PROMPT).
  { subst sp. destruct (Gateway.templateId r) as [id|]; [|exists ""; reflexivity].
    destruct (_ && _); [|exists ""; reflexivity].
    eexists. rewrite <- append_assoc'. reflexivity. }
  destruct Hsp as [z ->].
  destruct (JS.truthy (Gateway.stack r)); [|exists z; reflexivity].
  eexists. rewrite <- !append_assoc'. reflexivity.
Qed.

(** The system message has the role [system], is never empty and always
    contains the fixed full-stack instruction; it contains the prompt of
    the requested template when the catalogue has one, and starts with
    the project-stack line when the request names a stack. Every adapter
    call of the request has it as first message. *)
Theorem ask_ai_system_message
    (W : Gateway.World) (env : gmap string string)
    (supabase : option Store.Supabase) (r : Gateway.AskAi) :
  let system := Gateway.systemMessage W r in
  Message.role system = "system"
  /\ Message.content system <> ""
  /\ JS.includes (Message.content system) Gateway.FULL_STACK_SYSTEM_PROMPT
     = true
  /\ (forall id p,
        Gateway.templateId r = Some id -> id <> "" ->
        Gateway.TEMPLATES_systemPrompt W id = Some p -> p <> "" ->
        JS.includes (Message.content system) p = true)
  /\ (forall st,
        Gateway.stack r = Some st -> st <> "" ->
        String.prefix ("Project Stack: " +:+ st) (Message.content system)
        = true)
  /\ (forall e,
        In e (snd (Gateway.ask_ai W env supabase r)) ->
        is_Some (Trace.provider_of e) ->
        head (Trace.messages_of e) = Some system).
Proof.
  cbv zeta.
  destruct (systemMessage_ends_with_instruction W r) as [before Hend].
  repeat split.
  - rewrite Hend. apply append_not_empty_r. discriminate.
  - rewrite Hend. apply includes_end.
  - intros tid p Hid Hne Hp Hpne.
    unfold Gateway.systemMessage. cbn [Message.content].
    rewrite Hid, Hp.
    rewrite (proj2 (truthy_Some tid) Hne), (proj2 (truthy_Some p) Hpne).
    cbn [andb from_option id].
    destruct (JS.truthy (Gateway.stack r)).
    + do 3 apply includes_app_r. apply includes_prefix, prefix_app.
    + apply includes_prefix, prefix_app.
  - intros st Hst Hne.
    unfold Gateway.systemMessage. cbn [Message.content].
    rewrite Hst, (proj2 (truthy_Some st) Hne).
    cbn [from_option id].
    rewrite <- (append_assoc' "Project Stack: " st). apply prefix_app.
  - intros e Hin Hcall.
    destruct (ask_ai_calls_resolved W env supabase r e Hin Hcall)
      as (k & c & _ & _ & _ & _ & _ & _ & ->).
    reflexivity.
Qed.

(** The prompt of a known template reaches the provider: with a catalogue
    that has a prompt for template "landing", the one adapter call of the
    request starts with a system message that contains it. *)
Lemma ask_ai_system_message_witness :
  let W := {| Gateway.parseFloat := Gateway.parseFloat Scenario.world;
              Gateway.TEMPLATES_systemPrompt :=
                fun id => if String.eqb id "landing"
                          then Some "Build a landing page." else None;
              Gateway.fetch := Gateway.fetch Scenario.world;
              Gateway.sendMessage := Gateway.sendMessage Scenario.world |} in
  let r := {| Gateway.prompt := Some "hi";
              Gateway.requestedProvider := None;
              Gateway.requestedModel := None;
              Gateway.sessionId := None;
              Gateway.templateId := Some "landing";
              Gateway.stack := Some "SvelteKit";
              Gateway.maxTokens := None;
              Gateway.req_temperature := None |} in
  JS.includes (Message.content (Gateway.systemMessage W r))
    "Build a landing page." = true.
Proof.
  refine (proj1 (proj2 (proj2 (proj2 (ask_ai_system_message _ ∅ None _))))
            "landing" "Build a landing page." _ _ _ _);
    [reflexivity | discriminate | reflexivity | discriminate].
Defined.

(** ** Gemini behind /api/ask-ai *)

(** When /api/ask-ai calls the Gemini adapter, the session it opens has
    the handler's system message as system instruction, the resolved
    token limit and temperature in its generation config, and the message
    sent is the user prompt. *)
Theorem ask_ai_gemini_session
    (W : Gateway.World) (env : gmap string string)
    (supabase : option Store.Supabase) (r : Gateway.AskAi)
    (k : string) (m : option string) (msgs : list Message.t)
    (o : Gemini.Options) :
  In (Gateway.GeminiGenerate k m msgs o)
     (snd (Gateway.ask_ai W env supabase r)) ->
  let p := Gemini.params (Gemini.startChat m msgs o) in
  Gemini.systemInstruction p
  = Some {| Gemini.role := "system";
            Gemini.parts :=
              [Message.content (Gateway.systemMessage W r)] |}
  /\ Gemini.lastMessage_of msgs = Some (default "" (Gateway.prompt r))
  /\ Gemini.maxOutputTokens (Gemini.generationConfig p)
     = Gateway.maxTokensToUse W env r
  /\ Gemini.temperature (Gemini.generationConfig p)
     = Gateway.temperatureToUse W env r.
Proof.
  intros Hin. cbv zeta.
  destruct (ask_ai_calls_resolved W env supabase r _ Hin)
    as (k' & c & _ & _ & _ & _ & Ht & Hq & Hm).
  { eexists; reflexivity. }
  simpl in Ht, Hq, Hm. subst msgs.
  assert (Hrole : Message.role (Gateway.systemMessage W r) = "system")
    by reflexivity.
  assert (Hne : Message.content (Gateway.systemMessage W r) <> "").
  { destruct (systemMessage_ends_with_instruction W r) as [before ->].
    apply append_not_empty_r. discriminate. }
  repeat split.
  - unfold Gemini.startChat. cbn [Gemini.params Gemini.systemInstruction].
    assert (Hfind : Gemini.systemInstruction_of
                      (Gateway.compose W r (Trace.history_for supabase r))
                    = Some (Message.content (Gateway.systemMessage W r))).
    { unfold Gemini.systemInstruction_of, Gateway.compose. cbn [List.find].
      unfold Message.is_system. rewrite Hrole. reflexivity. }
    rewrite Hfind, (proj2 (truthy_Some _) Hne). reflexivity.
  - unfold Gemini.lastMessage_of, Gateway.compose.
    rewrite app_comm_cons, chatMessages_of_app.
    unfold Gemini.chatMessages_of at 2. simpl. rewrite last_snoc. reflexivity.
  - simpl. rewrite Ht. reflexivity.
  - simpl. rewrite Hq. reflexivity.
Qed.

Lemma ask_ai_gemini_session_witness :
  let env : gmap string string := {[ "GEMINI_API_KEY" := "g" ]} in
  let r := Scenario.request (Some "hi") in
  let msgs := Gateway.compose Scenario.world r [] in
  let o := {| Gemini.maxTokens := Some 8000%Z;
              Gemini.opt_temperature := Some (7 # 10) |} in
  let p := Gemini.params (Gemini.startChat (Some "gemini-1.5-pro") msgs o) in
  Gemini.systemInstruction p
  = Some {| Gemini.role := "system";
            Gemini.parts :=
              [Message.content (Gateway.systemMessage Scenario.world r)] |}
  /\ Gemini.lastMessage_of msgs = Some (default "" (Gateway.prompt r))
  /\ Gemini.maxOutputTokens (Gemini.generationConfig p)
     = Gateway.maxTokensToUse Scenario.world env r
  /\ Gemini.temperature (Gemini.generationConfig p)
     = Gateway.temperatureToUse Scenario.world env r.
Proof.
  apply (ask_ai_gemini_session Scenario.world {[ "GEMINI_API_KEY" := "g" ]}
           None (Scenario.request (Some "hi")) "gemini").
  vm_compute. left. reflexivity.
Defined.

(** ** The connection test *)

(** /api/test-connection never reads or writes the chat store and makes
    at most one adapter call. It makes none, and answers 400, when the
    provider field is missing, empty or unknown to the registry, or when
    the provider's API key is not set. Otherwise it makes exactly one
    call, for the named provider, asking for the model that /api/ask-ai
    would use for a request with the same [model] field. *)
Theorem test_connection_probe
    (W : Gateway.World) (env : gmap string string)
    (r : Gateway.TestConnection) :
  let out := Gateway.test_connection W env r in
  (snd out = []
   /\ Gateway.status (fst out) = 400%Z
   /\ (JS.truthy (Gateway.tc_provider r) = false
       \/ (exists k, Gateway.tc_provider r = Some k
                     /\ Registry.get k = None)
       \/ (exists k c, Gateway.tc_provider r = Some k
                       /\ Registry.get k = Some c
                       /\ JS.truthy (Env.read env (Registry.apiKeyEnv c))
                          = false)))
  \/ (exists e k c,
        snd out = [e]
        /\ Gateway.tc_provider r = Some k
        /\ k <> ""
        /\ Registry.get k = Some c
        /\ JS.truthy (Env.read env (Registry.apiKeyEnv c)) = true
        /\ Trace.provider_of e = Some k
        /\ (k = "gemini" <-> exists m msgs o,
                               e = Gateway.GeminiGenerate k m msgs o)
        /\ forall a : Gateway.AskAi,
             Gateway.requestedModel a = Gateway.tc_model r ->
             Trace.model_of e = Gateway.modelToUse env a c).
Proof.
  cbv zeta. unfold Gateway.test_connection.
  destruct (Gateway.tc_provider r) as [k|] eqn:Hk;
    [|left; repeat split; left; reflexivity].
  destruct (JS.truthy (Some k)) eqn:Ht;
    [|left; repeat split; left; reflexivity].
  destruct (Registry.get k) as [c|] eqn:Hc; cbn [fmap option_fmap option_map];
    [|left; repeat split; right; left; exists k; split;
        [reflexivity | exact Hc]].
  destruct (JS.truthy (Env.read env (Registry.apiKeyEnv c))) eqn:Hkey;
    cbn [negb];
    [|left; repeat split; right; right; exists k, c; repeat split;
        assumption].
  right.
  assert (Hne : k <> "") by (apply truthy_Some; exact Ht).
  destruct (String.eqb_spec k "gemini") as [Hg|Hg].
  - eexists _, k, c. repeat split; try assumption; try reflexivity.
    + intros _. eexists _, _, _. reflexivity.
    + intros _. exact Hg.
    + intros a Ha. unfold Gateway.modelToUse. rewrite Ha. reflexivity.
  - eexists _, k, c. repeat split; try assumption; try reflexivity.
    + intros Hg'. contradiction.
    + intros (m & msgs & o & H). discriminate H.
    + intros a Ha. unfold Gateway.modelToUse. rewrite Ha. reflexivity.
Qed.

(** ** The status report *)

Lemma registry_entries_known (k : string) (c : Registry.ProviderConfig) :
  In (k, c) Registry.PROVIDERS ->
  Registry.get k = Some c /\ In k Registry.keys
  /\ is_Some (Registry.apiKeyEnv c).
Proof.
  intros H. unfold Registry.PROVIDERS in H.
  repeat (destruct H as [[= <- <-]|H];
          [split; [reflexivity|]; split;
             [unfold Registry.keys; simpl; tauto | eexists; reflexivity]|]).
  destruct H.
Qed.

(** /api/check-env reports on the registry entries, in declaration order,
    and its report agrees with what the gateway does: an entry is shown
    with its key configured exactly when /api/ask-ai has it among the
    candidates of a request that names no provider; the model shown is
    the one /api/ask-ai uses for that provider when the request names no
    model; and rate limiting is shown as disabled exactly when the
    middleware lets every request through without touching its cache.
    The limit shown is never zero. *)
Theorem check_env_agrees_with_gateway
    (W : Gateway.World) (e : gmap string string)
    (store : option Store.Supabase) :
  let report := Status.check_env W e store in
  map fst (Status.env report) = Registry.keys
  /\ (forall k st, In (k, st) (Status.env report) ->
        exists c,
          Registry.get k = Some c
          /\ (Status.apiKeyConfigured st = true
              <-> In k (Gateway.providersToTry e None))
          /\ forall a : Gateway.AskAi,
               JS.truthy (Gateway.requestedModel a) = false ->
               Status.model st = Gateway.modelToUse e a c)
  /\ (Status.rateLimiting_enabled report = false
      <-> forall cache now req,
            RateLimiter.middleware (Status.rateLimiting_limit report)
              cache now req
            = (cache, RateLimiter.Next RateLimiter.Unlimited))
  /\ Status.rateLimiting_limit report <> 0%Z.
Proof.
  cbv zeta. unfold Status.check_env.
  cbn [Status.env Status.rateLimiting_enabled Status.rateLimiting_limit].
  split; [reflexivity|]. split; [|split].
  - intros k st Hin. apply in_map_iff in Hin.
    destruct Hin as ([k' c] & [= <- <-] & Hin).
    destruct (registry_entries_known k' c Hin) as (Hget & Hkeys & _).
    exists c. split; [exact Hget|]. split.
    + unfold Status.provider_status. cbn [Status.apiKeyConfigured].
      unfold Gateway.providersToTry. cbn [app].
      rewrite filter_In. unfold Env.configured. rewrite Hget.
      rewrite bool_decide_eq_false_2 by discriminate. cbn [negb andb].
      tauto.
    + intros a Ha. unfold Status.provider_status, Gateway.modelToUse.
      cbn [Status.model]. unfold JS.or_else at 2. rewrite Ha. reflexivity.
  - set (N := Env.IP_RATE_LIMIT _). split.
    + intros H cache now req. apply middleware_disabled.
      apply Z.ltb_ge. exact H.
    + intros H. specialize (H ∅ 0%Z Scenario.client).
      apply Z.ltb_ge. revert H. unfold RateLimiter.middleware.
      destruct (Z.leb_spec N 0) as [Hle|Hlt]; [intros _; exact Hle|].
      change (RateLimiter.is_static (RateLimiter.path Scenario.client))
        with false. cbn iota.
      change (RateLimiter.clientIp Scenario.client) with "1.2.3.4".
      rewrite lookup_empty.
      change (JS.inherited "1.2.3.4") with false. cbn iota beta zeta.
      destruct (_ <=? _)%Z; intros [= _ H]; discriminate H.
  - apply IP_RATE_LIMIT_never_zero.
Qed.

(** ** The registry helpers *)

Lemma configured_entries (env : gmap string string)
    (l : list (string * Registry.ProviderConfig)) :
  (forall k c, In (k, c) l -> Registry.get k = Some c) ->
  map fst
    (List.filter
       (fun '(_, provider) =>
          JS.truthy (Env.read env (Registry.apiKeyEnv provider))) l)
  = List.filter (Env.configured env) (map fst l).
Proof.
  induction l as [|[k c] l IH]; intros H; [reflexivity|].
  cbn [List.filter map fst].
  unfold Env.configured at 1. rewrite (H k c) by (left; reflexivity).
  rewrite <- IH by (intros k' c' Hin; apply H; right; exact Hin).
  destruct (JS.truthy _); reflexivity.
Qed.

Lemma default_model_listed (k : string) (c : Registry.ProviderConfig) :
  In (k, c) Registry.PROVIDERS ->
  exists ms d,
    Catalog.models_of k = Some ms /\ Registry.defaultModel c = Some d
    /\ d <> "" /\ existsb (String.eqb d) ms = true.
Proof.
  intros H. unfold Registry.PROVIDERS in H.
  repeat (destruct H as [[= <- <-]|H];
          [eexists _, _; split; [reflexivity|]; split; [reflexivity|];
           split; [discriminate | reflexivity]|]).
  destruct H.
Qed.

(** [getConfiguredProviders] lists exactly the providers that /api/ask-ai
    tries for a request naming none, in the same order, and every
    provider it lists has a model list and passes
    [validateProviderConfig], on its own and with its default model. *)
Theorem getConfiguredProviders_are_candidates (env : gmap string string) :
  map Catalog.id (Catalog.getConfiguredProviders env)
  = Gateway.providersToTry env None
  /\ forall p, In p (Catalog.getConfiguredProviders env) ->
       Env.configured env (Catalog.id p) = true
       /\ is_Some (Catalog.models p)
       /\ Catalog.validateProviderConfig env (Some (Catalog.id p)) None
          = Catalog.Valid
       /\ Catalog.validateProviderConfig env (Some (Catalog.id p))
            (Catalog.defaultModel p)
          = Catalog.Valid.
Proof.
  split.
  - unfold Catalog.getConfiguredProviders, Gateway.providersToTry.
    cbn [app]. rewrite map_map.
    transitivity
      (map fst
         (List.filter
            (fun '(_, provider) =>
               JS.truthy (Env.read env (Registry.apiKeyEnv provider)))
            Registry.PROVIDERS)).
    { apply map_ext. intros [k c]. reflexivity. }
    rewrite configured_entries
      by (intros k c Hin; apply registry_entries_known; exact Hin).
    apply List.filter_ext. intros k.
    rewrite bool_decide_eq_false_2 by discriminate. reflexivity.
  - intros p Hp. unfold Catalog.getConfiguredProviders in Hp.
    apply in_map_iff in Hp. destruct Hp as ([k c] & <- & Hin).
    apply filter_In in Hin. destruct Hin as [Hin Hkey].
    destruct (registry_entries_known k c Hin) as (Hget & _ & _).
    destruct (default_model_listed k c Hin) as (ms & d & Hms & Hd & Hne & Hex).
    cbn [Catalog.id Catalog.models Catalog.defaultModel].
    split; [unfold Env.configured; rewrite Hget; exact Hkey|].
    split; [rewrite Hms; eexists; reflexivity|].
    unfold Catalog.validateProviderConfig, JS.template.
    cbn [from_option id].
    rewrite Hget, Hkey, Hms, Hd. cbn [negb].
    rewrite (proj2 (truthy_Some d) Hne). cbn [from_option id].
    rewrite Hex. split; reflexivity.
Qed.

Lemma models_of_own (k : string) :
  is_Some (Catalog.models_of k) <-> is_Some (Registry.own Registry.PROVIDERS k).
Proof.
  unfold Catalog.models_of, Catalog.MODELS, Registry.PROVIDERS.
  cbn [Catalog.assoc Registry.own].
  repeat (destruct (String.eqb k _);
          [split; intros _; eexists; reflexivity|]).
  split; intros [? H]; discriminate H.
Qed.

(** When [validateProviderConfig] accepts, and when it throws. It answers
    valid exactly when the registry reads an entry for the provider, the
    entry's API key is set, and the model is either not given or in the
    entry's model list. It throws exactly for a name inherited from
    [Object.prototype] with a model given and the environment variable
    named "undefined" set; for a registry key it never throws. *)
Theorem validateProviderConfig_outcomes
    (env : gmap string string) (providerId modelId : option string) :
  let k := JS.template providerId in
  let out := Catalog.validateProviderConfig env providerId modelId in
  (out = Catalog.Valid
   <-> exists c,
         Registry.get k = Some c
         /\ JS.truthy (Env.read env (Registry.apiKeyEnv c)) = true
         /\ (JS.truthy modelId = false
             \/ exists ms m,
                  Catalog.models_of k = Some ms /\ modelId = Some m
                  /\ In m ms))
  /\ (out = Catalog.TypeError
      <-> Registry.own Registry.PROVIDERS k = None
          /\ JS.inherited k = true
          /\ JS.truthy (env !! "undefined") = true
          /\ JS.truthy modelId = true)
  /\ (In k Registry.keys -> out <> Catalog.TypeError).
Proof.
  cbv zeta. unfold Catalog.validateProviderConfig.
  set (k := JS.template providerId).
  assert (Hexists : forall m ms,
            existsb (String.eqb m) ms = true <-> In m ms).
  { intros m ms. rewrite existsb_exists. split.
    - intros (x & Hx & E). apply String.eqb_eq in E. subst x. exact Hx.
    - intros Hx. exists m. split; [exact Hx | apply String.eqb_refl]. }
  assert (Hthrow :
    match Registry.get k with
    | Some provider =>
        if negb (JS.truthy (Env.read env (Registry.apiKeyEnv provider)))
        then Catalog.Invalid
               ("API key not configured for "
                  +:+ JS.template (Registry.name provider))
        else if JS.truthy modelId
        then match Catalog.models_of k with
             | Some ms =>
                 if existsb (String.eqb (default "" modelId)) ms
                 then Catalog.Valid
                 else Catalog.Invalid
                        ("Model " +:+ default "" modelId
                           +:+ " not available for "
                           +:+ JS.template (Registry.name provider))
             | None => Catalog.TypeError
             end
        else Catalog.Valid
    | None => Catalog.Invalid ("Unknown provider: " +:+ k)
    end = Catalog.TypeError
    <-> Registry.own Registry.PROVIDERS k = None
        /\ JS.inherited k = true
        /\ JS.truthy (env !! "undefined") = true
        /\ JS.truthy modelId = true).
  { unfold Registry.get.
    pose proof (models_of_own k) as Hown.
    destruct (Registry.own Registry.PROVIDERS k) as [c|] eqn:Ho.
    - destruct (negb _); [split; [discriminate | intros [H _]; discriminate H]|].
      destruct (JS.truthy modelId);
        [|split; [discriminate | intros [H _]; discriminate H]].
      destruct (Catalog.models_of k) as [ms|].
      + destruct (existsb _ ms);
          split; try discriminate; intros [H _]; discriminate H.
      + exfalso. destruct (proj2 Hown) as [? H];
          [eexists; reflexivity | discriminate H].
    - destruct (JS.inherited k);
        [|split; [discriminate | intros (_ & H & _); discriminate H]].
      cbn [Registry.prototype_member Registry.apiKeyEnv].
      change (Env.read env None) with (env !! "undefined").
      destruct (JS.truthy (env !! "undefined")); cbn [negb];
        [|split; [discriminate | intros (_ & _ & H & _); discriminate H]].
      destruct (JS.truthy modelId);
        [|split; [discriminate | intros (_ & _ & _ & H); discriminate H]].
      destruct (Catalog.models_of k) as [ms|].
      + exfalso. destruct (proj1 Hown) as [? H];
          [eexists; reflexivity | discriminate H].
      + split; [intros _; repeat split | reflexivity]. }
  split; [|split].
  - clear Hthrow. destruct (Registry.get k) as [c|] eqn:Hc.
    + destruct (JS.truthy (Env.read env (Registry.apiKeyEnv c))) eqn:Hkey;
        cbn [negb].
      * destruct (JS.truthy modelId) eqn:Hm.
        -- destruct modelId as [m|]; [|discriminate Hm].
           change (default "" (Some m)) with m.
           destruct (Catalog.models_of k) as [ms|] eqn:Hms.
           ++ destruct (existsb (String.eqb m) ms) eqn:Hex.
              ** split; [intros _|reflexivity].
                 exists c. split; [reflexivity|]. split; [exact Hkey|].
                 right. exists ms, m.
                 repeat split. apply Hexists. exact Hex.
              ** split; [discriminate|].
                 intros (c' & _ & _ & [H | (ms' & m' & [= <-] & [= <-] & Hin)]);
                   [discriminate H|].
                 apply Hexists in Hin. congruence.
           ++ split; [discriminate|].
              intros (c' & _ & _ & [H | (ms' & m' & H & _)]); discriminate H.
        -- split; [intros _|reflexivity].
           exists c. split; [reflexivity|]. split; [exact Hkey|].
           left. reflexivity.
      * split; [discriminate|].
        intros (c' & [= <-] & H & _). congruence.
    + split; [discriminate|]. intros (c' & H & _). discriminate H.
  - exact Hthrow.
  - intros Hin H. apply Hthrow in H. destruct H as (Ho & _).
    unfold Registry.keys in Hin. simpl in Hin.
    repeat (destruct Hin as [Hin|Hin];
            [rewrite <- Hin in Ho; discriminate Ho|]).
    destruct Hin.
Qed.

(** ** The chat client and the gateway *)

Lemma trim_keeps_head (s : string) :
  JS.trim s <> "" ->
  exists c r, JS.trim s = String c r /\ JS.is_white_space c = false.
Proof.
  unfold JS.trim.
  destruct (trimStart_cases s) as [[E _] | (c & r & E & Hc & _)]; rewrite E.
  - intros H. contradiction H. reflexivity.
  - intros _. exists c, (JS.trimEnd r). cbn [JS.trimEnd]. rewrite Hc.
    split; reflexivity.
Qed.

(** A trimmed prompt that is not blank stays so. *)
Lemma trim_not_blank (s : string) :
  JS.blank (Some s) = false -> JS.blank (Some (JS.trim s)) = false.
Proof.
  intros H. destruct (JS.blank (Some (JS.trim s))) eqn:E; [|reflexivity].
  exfalso. apply blank_iff in E.
  destruct E as [E | (t & [= <-] & Hw)]; [discriminate E|].
  destruct (trim_keeps_head s) as (c & r & Ht & Hc).
  { intros E. apply trim_empty_iff in E.
    assert (Hb : JS.blank (Some s) = true).
    { apply blank_iff. right. exists s. split; [reflexivity | exact E]. }
    congruence. }
  rewrite Ht in Hw. cbn [JS.whitespace_only] in Hw. rewrite Hc in Hw.
  discriminate Hw.
Qed.

Lemma not_blank_not_empty (text : string) :
  JS.blank (Some text) = false -> text <> "".
Proof. intros H ->. discriminate H. Qed.

(** The fields of the body [callAi] sends. *)
Lemma requestBody_fields (s : Client.ChatState) (b : Gateway.AskAi) :
  Client.requestBody s = Some b ->
  Client.isAiWorking s = false
  /\ JS.blank (Some (Client.prompt s)) = false
  /\ JS.truthy (Some (Client.sessionId s)) = true
  /\ Gateway.prompt b = Some (JS.trim (Client.prompt s))
  /\ Gateway.sessionId b = Some (Client.sessionId s)
  /\ Gateway.requestedModel b
     = match Client.modelParams s with
       | Some mp => if JS.truthy (Client.model mp) then Client.model mp
                    else None
       | None => None
       end
  /\ Gateway.maxTokens b
     = match Client.modelParams s with
       | Some mp => match Client.maxTokens mp with
                    | Some n => if Z.eqb n 0 then None else Some n
                    | None => None
                    end
       | None => None
       end
  /\ Gateway.req_temperature b
     = match Client.modelParams s with
       | Some mp => Client.temperature mp
       | None => None
       end.
Proof.
  unfold Client.requestBody.
  destruct (Client.isAiWorking s); [discriminate|].
  destruct (JS.blank (Some (Client.prompt s))); [discriminate|].
  destruct (JS.truthy (Some (Client.sessionId s))); [|discriminate].
  cbn [orb negb]. intros [= <-]. repeat split.
Qed.

(** What the gateway does with a request of the chat client. [callAi]
    sends only when no request is under way, the prompt is not blank and
    there is a session, and it sends the prompt trimmed. The gateway
    never refuses such a request with status 400; when it answers with a
    response text the text is not empty, so the client's check of the
    response passes; with a store, a run that makes any outside call
    starts by reading the session's history and saving the trimmed prompt
    as user turn; and every adapter call ends with the trimmed prompt as
    user message and carries the model, token limit and temperature set
    in the client, for a model that is not empty, a limit that is not
    zero and any temperature. *)
Theorem client_request_served
    (W : Gateway.World) (env : gmap string string)
    (supabase : option Store.Supabase) (s : Client.ChatState)
    (b : Gateway.AskAi) :
  Client.requestBody s = Some b ->
  let out := Gateway.ask_ai W env supabase b in
  let prompt := JS.trim (Client.prompt s) in
  Client.isAiWorking s = false
  /\ Client.sessionId s <> ""
  /\ Gateway.prompt b = Some prompt
  /\ prompt <> ""
  /\ Gateway.status (fst out) <> 400%Z
  /\ (forall text m p t,
        Gateway.body (fst out) = Gateway.Answer text m p t -> text <> "")
  /\ (is_Some supabase -> snd out <> [] ->
      exists rest,
        snd out
        = Gateway.GetChatHistory (Client.sessionId s)
          :: Gateway.SaveMessage (Client.sessionId s) "user" prompt
          :: rest)
  /\ forall e, In e (snd out) -> is_Some (Trace.provider_of e) ->
       last (Trace.messages_of e)
       = Some {| Message.role := "user"; Message.content := prompt |}
       /\ (forall mp m,
             Client.modelParams s = Some mp -> Client.model mp = Some m ->
             m <> "" -> Trace.model_of e = Some m)
       /\ (forall mp n,
             Client.modelParams s = Some mp ->
             Client.maxTokens mp = Some n -> n <> 0%Z ->
             Trace.maxTokens_of e = Some n)
       /\ (forall mp t,
             Client.modelParams s = Some mp ->
             Client.temperature mp = Some t ->
             Trace.temperature_of e = Some t).
Proof.
  intros Hb. cbv zeta.
  destruct (requestBody_fields s b Hb)
    as (Hw & Hp & Hs & Hprompt & Hsession & Hmodel & Htokens & Htemp).
  assert (Hblank : JS.blank (Gateway.prompt b) = false)
    by (rewrite Hprompt; apply trim_not_blank; exact Hp).
  split; [exact Hw|]. split; [apply truthy_Some; exact Hs|].
  split; [exact Hprompt|].
  split; [apply not_blank_not_empty; rewrite <- Hprompt; exact Hblank|].
  split; [|split; [|split]].
  - destruct (ask_ai_cases W env supabase b)
      as [[Hx _] | [(_ & _ & ->) | (_ & Hc)]];
      [congruence | discriminate |].
    destruct (ask_ai_spec W env supabase b Hblank Hc)
      as (calls & _ & _ & [(err & -> & _)
                          | (before & e & text & tokens & k & c & _ & _ & _
                             & _ & _ & ->)]); discriminate.
  - intros text m p t.
    destruct (ask_ai_cases W env supabase b)
      as [[Hx _] | [(_ & _ & ->) | (_ & Hc)]];
      [congruence | discriminate |].
    destruct (ask_ai_spec W env supabase b Hblank Hc)
      as (calls & _ & _ & [(err & -> & _)
                          | (before & e & text' & tokens & k & c & _ & _ & Ha
                             & _ & _ & ->)]); [discriminate|].
    cbn [fst Gateway.body]. intros [= <- _ _ _].
    apply not_blank_not_empty. exact (answer_of_not_blank W e _ _ Ha).
  - intros Hstore Hne.
    destruct (ask_ai_cases W env supabase b)
      as [[Hx _] | [(_ & _ & E) | (_ & Hc)]];
      [congruence | rewrite E in Hne; contradiction Hne; reflexivity |].
    destruct (ask_ai_trace W env supabase b Hblank Hc)
      as (calls & tail & -> & _).
    unfold Trace.prelude, Trace.remembers.
    rewrite Hsession, Hs, bool_decide_eq_true_2 by exact Hstore.
    rewrite Hprompt. cbn [andb from_option id app]. eexists. reflexivity.
  - intros e Hin Hcall.
    destruct (ask_ai_calls_resolved W env supabase b e Hin Hcall)
      as (k & c & _ & _ & _ & Hm & Ht & Hq & Hmsgs).
    split; [|split; [|split]].
    + rewrite Hmsgs. unfold Gateway.compose.
      rewrite app_comm_cons, last_snoc, Hprompt. reflexivity.
    + intros mp m Hmp Hmm Hne. rewrite Hm. unfold Gateway.modelToUse.
      rewrite Hmodel, Hmp, Hmm, (proj2 (truthy_Some m) Hne).
      unfold JS.or_else. rewrite (proj2 (truthy_Some m) Hne). reflexivity.
    + intros mp n Hmp Hn Hne. rewrite Ht. unfold Gateway.maxTokensToUse.
      rewrite Htokens, Hmp, Hn.
      destruct (Z.eqb_spec n 0) as [E|_]; [contradiction|].
      unfold JS.num_or.
      destruct (Z.eqb_spec n 0) as [E|_]; [contradiction | reflexivity].
    + intros mp t Hmp Htt. rewrite Hq. unfold Gateway.temperatureToUse.
      rewrite Htemp, Hmp, Htt. reflexivity.
Qed.

(** A client with a padded prompt, a session and its own parameters: the
    request is sent with the prompt trimmed. *)
Lemma client_request_served_witness :
  let s := {| Client.isAiWorking := false;
              Client.prompt := "  make a page ";
              Client.sessionId := "s1";
              Client.selectedProvider := "groq";
              Client.selectedStack := "react";
              Client.selectedTemplateId := None;
              Client.modelParams :=
                Some {| Client.model := Some "llama-3.1-8b-instant";
                        Client.maxTokens := Some 1234%Z;
                        Client.temperature := Some 0%Q |} |} in
  exists b,
    Client.requestBody s = Some b
    /\ Gateway.prompt b = Some "make a page"
    /\ last (Trace.messages_of
               (default (Gateway.GetChatHistory "")
                  (last (snd (Gateway.ask_ai Scenario.world Scenario.groq_only
                                None b)))))
       = Some {| Message.role := "user"; Message.content := "make a page" |}.
Proof.
  intros s. eexists. split; [reflexivity|].
  pose proof (client_request_served Scenario.world Scenario.groq_only None s _
                eq_refl) as H.
  cbv zeta in H. destruct H as (_ & _ & Hp & _ & _ & _ & _ & Hcalls).
  split; [exact Hp|].
  refine (proj1 (Hcalls _ _ _)).
  - vm_compute. left. reflexivity.
  - vm_compute. eexists. reflexivity.
Defined.

(** ** A requested provider the registry does not have *)

(** The attempt loop reads of the request only the model, the token
    limit, the temperature and the session. *)
Lemma attempt_ext (W : Gateway.World) (env : gmap string string)
    (supabase : option Store.Supabase) (r1 r2 : Gateway.AskAi)
    (msgs : list Message.t) (all keys : list string)
    (lastError : option string) :
  (forall c, Gateway.modelToUse env r1 c = Gateway.modelToUse env r2 c) ->
  Gateway.maxTokensToUse W env r1 = Gateway.maxTokensToUse W env r2 ->
  Gateway.temperatureToUse W env r1 = Gateway.temperatureToUse W env r2 ->
  Gateway.sessionId r1 = Gateway.sessionId r2 ->
  Gateway.attempt W env supabase r1 msgs all keys lastError
  = Gateway.attempt W env supabase r2 msgs all keys lastError.
Proof.
  intros Hm Ht Hq Hs. revert lastError.
  induction keys as [|k keys IH]; intros lastError; [reflexivity|].
  cbn [Gateway.attempt].
  destruct (Registry.get k) as [c|]; [|reflexivity].
  destruct (negb _); [apply IH|].
  assert (Hcall : forall key,
            Gateway.callProvider W env r1 msgs k c key
            = Gateway.callProvider W env r2 msgs k c key).
  { intros key. unfold Gateway.callProvider. rewrite Hm, Ht, Hq.
    reflexivity. }
  rewrite Hcall. unfold Gateway.bind at 1 3.
  destruct (Gateway.callProvider W env r2 msgs k c _) as [[[text tokens]|err] t].
  - rewrite Hs, Hm. reflexivity.
  - rewrite IH. reflexivity.
Qed.

Lemma unknown_not_configured (env : gmap string string) (k : string) :
  Registry.get k = None -> Env.configured env k = false.
Proof. intros H. unfold Env.configured. rewrite H. reflexivity. Qed.

Lemma providersToTry_unknown (env : gmap string string) (k : string) :
  Registry.get k = None ->
  Gateway.providersToTry env (Some k) = Gateway.providersToTry env None.
Proof.
  intros H. unfold Gateway.providersToTry. rewrite H.
  rewrite bool_decide_eq_false_2 by (intros [? E]; discriminate E).
  rewrite andb_false_r. cbn [app].
  apply List.filter_ext_in. intros key Hkey.
  rewrite (bool_decide_eq_false_2 (None = Some key)) by discriminate.
  destruct (bool_decide_reflect (Some k = Some key)) as [[= <-]|_];
    [|reflexivity].
  rewrite (unknown_not_configured env k H). reflexivity.
Qed.

(** Naming a provider the registry does not read is the same as naming
    none: the response and every outside call are those of the request
    without a provider. This holds for the empty string and for the
    options "anthropic" and "cohere" of the chat client, which the
    registry does not have. *)
Theorem ask_ai_unknown_provider_ignored
    (W : Gateway.World) (env : gmap string string)
    (supabase : option Store.Supabase) (r : Gateway.AskAi) (k : string) :
  Gateway.requestedProvider r = None ->
  Registry.get k = None ->
  Gateway.ask_ai W env supabase (Scenario.with_provider k r)
  = Gateway.ask_ai W env supabase r.
Proof.
  intros Hr Hk. unfold Gateway.ask_ai.
  change (Gateway.prompt (Scenario.with_provider k r))
    with (Gateway.prompt r).
  change (Gateway.sessionId (Scenario.with_provider k r))
    with (Gateway.sessionId r).
  change (Gateway.requestedProvider (Scenario.with_provider k r))
    with (Some k).
  rewrite Hr, (providersToTry_unknown env k Hk).
  destruct (JS.blank (Gateway.prompt r)); [reflexivity|].
  destruct (bool_decide _); [reflexivity|].
  assert (Hloop : forall h,
    Gateway.attempt W env supabase (Scenario.with_provider k r)
      (Gateway.compose W (Scenario.with_provider k r) h)
      (Gateway.providersToTry env None) (Gateway.providersToTry env None) None
    = Gateway.attempt W env supabase r (Gateway.compose W r h)
        (Gateway.providersToTry env None) (Gateway.providersToTry env None)
        None).
  { intros h.
    change (Gateway.compose W (Scenario.with_provider k r) h)
      with (Gateway.compose W r h).
    apply attempt_ext; reflexivity. }
  unfold Gateway.bind.
  destruct (if _ && _ then Gateway.getChatHistory _ _ else _) as [h t1].
  destruct (if _ && _ then Gateway.saveMessage _ _ _ _ else _) as [u t2].
  rewrite Hloop. reflexivity.
Qed.

(** The client's option "anthropic" with only Groq configured: the
    request is served as if no provider had been chosen. *)
Lemma ask_ai_unknown_provider_ignored_witness :
  Gateway.ask_ai Scenario.world Scenario.groq_only Scenario.empty_store
    (Scenario.with_provider "anthropic"
       (Scenario.with_session "s" (Scenario.request (Some "hi"))))
  = Gateway.ask_ai Scenario.world Scenario.groq_only Scenario.empty_store
      (Scenario.with_session "s" (Scenario.request (Some "hi"))).
Proof.
  apply ask_ai_unknown_provider_ignored; reflexivity.
Defined.

(** ** The connection test of the settings dialog *)

(** The connection test of the settings dialog never reaches a provider.
    Its payload carries an API key, a base URL and a model but no
    provider, so the handler answers 400 "Invalid or missing provider"
    without any outside call, whatever the parameters, the environment
    and the providers are, and the dialog shows the test as failed with
    that message. *)
Theorem settings_testConnection_never_succeeds
    (W : Gateway.World) (env : gmap string string)
    (params : Settings.ModelParameters) (envConfig : Settings.EnvConfig) :
  Gateway.test_connection W env
    (Settings.request (Settings.payload params envConfig))
  = ({| Gateway.status := 400;
        Gateway.body := Gateway.Message "Invalid or missing provider" |}, [])
  /\ Settings.testConnection W env params envConfig
     = ({| Settings.loading := false; Settings.tested := true;
           Settings.success := false;
           Settings.message := "Invalid or missing provider" |}, []).
Proof.
  assert (H : Gateway.test_connection W env
                (Settings.request (Settings.payload params envConfig))
              = ({| Gateway.status := 400;
                    Gateway.body :=
                      Gateway.Message "Invalid or missing provider" |}, []))
    by reflexivity.
  split; [exact H|].
  unfold Settings.testConnection. rewrite H. reflexivity.
Qed.

(** ** The history window *)

(** What [getChatHistory] returns from a store that answers: of the rows
    stored for the session, at most fifty, oldest first; every row it
    leaves out is at least as recent as every row it returns; and nothing
    is left out when the session has fifty rows or fewer. *)
Theorem getChatHistory_window (db : Store.Supabase) (sessionId : string) :
  Store.available db = true ->
  let history := Store.getChatHistory (Some db) sessionId in
  let stored :=
    List.filter (fun r => String.eqb (Store.session_id r) sessionId)
      (Store.chat_messages db) in
  length history = Nat.min 50 (length stored)
  /\ StronglySorted Store.older history
  /\ exists rest,
       history ++ rest ≡ₚ stored
       /\ (forall a b, a ∈ history -> b ∈ rest -> Store.older a b)
       /\ ((length stored <= 50)%nat -> rest = []).
Proof.
  intros Hav. cbv zeta. unfold Store.getChatHistory. rewrite Hav.
  unfold Store.select_history.
  set (stored := List.filter _ (Store.chat_messages db)).
  set (l := merge_sort Store.older stored).
  assert (Hperm : l ≡ₚ stored) by apply merge_sort_Permutation.
  assert (Hsorted : StronglySorted Store.older (take 50 l ++ drop 50 l)).
  { rewrite take_drop. apply StronglySorted_merge_sort; apply _. }
  split; [|split].
  - rewrite length_take, (Permutation_length Hperm). reflexivity.
  - apply StronglySorted_app_1_l in Hsorted. exact Hsorted.
  - exists (drop 50 l). split; [|split].
    + rewrite take_drop. exact Hperm.
    + intros a b Ha Hb.
      exact (StronglySorted_app_1_elem_of _ _ _ _ _ Hsorted Ha Hb).
    + intros Hlen. apply drop_ge. rewrite (Permutation_length Hperm).
      exact Hlen.
Qed.

Lemma getChatHistory_window_witness :
  let db := {| Store.chat_messages := Scenario.turns 51;
               Store.available := true |} in
  length (Store.getChatHistory (Some db) "s")
  = Nat.min 50
      (length (List.filter (fun r => String.eqb (Store.session_id r) "s")
                 (Store.chat_messages db))).
Proof.
  intros db. exact (proj1 (getChatHistory_window db "s" eq_refl)).
Defined.
